(** * TraderMindset: the analytics layer of [server/storage.ts]

    A shallow embedding of the two storage back ends ([MemStorage] and
    [DatabaseStorage]) and of the JavaScript built-ins their analytics
    use, followed by the properties of the aggregation queries.

    Conventions of the embedding.
    - A JavaScript number that holds a count, an identifier or a calendar
      field is a [Z] ([option Z] where it can be NaN).  A number that holds
      money or a ratio is a [number]: an exact rational, or one of NaN,
      +Infinity, -Infinity.  Finite arithmetic is exact (no binary
      rounding, no overflow, one zero).
    - A [Date] object is its time value counted in whole days since
      1970-01-01, or Invalid Date.  The host time zone is UTC, so local
      and UTC calendar fields coincide and every date built here is at
      midnight.
    - Date strings are the date-only ISO form [YYYY-MM-DD]; any other
      string makes [new Date(s)] an Invalid Date.
    - Strings are compared by code units, also where the source uses
      [localeCompare] or an SQL [ORDER BY].
    - A thrown exception (a rejected promise) is [None].  A loop whose
      number of iterations is not a literal runs on fuel; running out of
      fuel is [None] too, and is shown not to happen.
    - A table of the relational store is the list of its rows.  Of the
      entities only the columns that the embedded operations read or write
      are kept. *)

From Stdlib Require Import ZArith QArith Qround Qabs Qreduction.
From Stdlib Require Import List Bool Ascii String Lia Permutation Sorted.
From Stdlib Require Import DecimalString DecimalZ.
Import ListNotations.

Local Open Scope string_scope.
Local Open Scope Z_scope.

Set Implicit Arguments.

(* ===================================================================== *)
(** ** JavaScript strings *)
(* ===================================================================== *)

Module JSString.

(** A string in a condition: the empty string is falsy. *)
Definition truthy (s : string) : bool := negb (s =? "")%string.

(** An optional string argument or a nullable column in a condition. *)
Definition truthyOpt (s : option string) : bool :=
  match s with
  | Some x => truthy x
  | None => false
  end.

(** [x || null] on a nullable string. *)
Definition orNull (s : option string) : option string :=
  if truthyOpt s then s else None.

(** [a < b], [a <= b], [a > b], [a >= b]: code units, lexicographically. *)
Definition lt (a b : string) : bool := String.ltb a b.
Definition le (a b : string) : bool := String.leb a b.
Definition gt (a b : string) : bool := String.ltb b a.
Definition ge (a b : string) : bool := String.leb b a.

(** [String(n)] for an integer [n]. *)
Definition ofZ (n : Z) : string := NilZero.string_of_int (Z.to_int n).

(** [String(n)] where [None] is NaN. *)
Definition ofNumber (n : option Z) : string :=
  match n with
  | Some z => ofZ z
  | None => "NaN"
  end.

Fixpoint zeros (n : nat) : string :=
  match n with
  | O => ""
  | S k => String "0" (zeros k)
  end.

(** [s.padStart(len, '0')] *)
Definition padStart (len : nat) (s : string) : string :=
  (zeros (len - String.length s) ++ s)%string.

Definition digitChar (n : Z) : ascii := ascii_of_N (48 + Z.to_N n).

(** The last [w] decimal digits of [n], in front of [acc]. *)
Fixpoint fixedDigits (w : nat) (n : Z) (acc : string) : string :=
  match w with
  | O => acc
  | S k => fixedDigits k (n / 10) (String (digitChar (n mod 10)) acc)
  end.

Definition digitVal (c : ascii) : option Z :=
  let n := Z.of_N (N_of_ascii c) in
  if (48 <=? n) && (n <=? 57) then Some (n - 48) else None.

Definition isDigit (c : ascii) : bool :=
  match digitVal c with
  | Some _ => true
  | None => false
  end.

End JSString.

(* ===================================================================== *)
(** ** Calendar arithmetic of ECMAScript (ECMA-262, Date objects) *)
(* ===================================================================== *)

Module JSDate.

(** [DayFromYear(y)]: day number of January 1st of year [y]. *)
Definition DayFromYear (y : Z) : Z :=
  365 * (y - 1970) + (y - 1969) / 4 - (y - 1901) / 100 + (y - 1601) / 400.

Definition InLeapYear (y : Z) : bool :=
  (y mod 4 =? 0) && (negb (y mod 100 =? 0) || (y mod 400 =? 0)).

Definition leapDays (y : Z) : Z := if InLeapYear y then 1 else 0.

Definition DaysInYear (y : Z) : Z := 365 + leapDays y.

(** [YearFromTime]: the largest [y] with [DayFromYear y <= d].  The
    estimate from the mean year length is off by at most one. *)
Definition YearFromDay (d : Z) : Z :=
  let y0 := 1970 + (400 * d) / 146097 in
  if d <? DayFromYear y0 then y0 - 1
  else if DayFromYear (y0 + 1) <=? d then y0 + 1
  else y0.

Definition DayWithinYear (d : Z) : Z := d - DayFromYear (YearFromDay d).

(** First day-within-year of month [m] (0-based), [l] the leap-day count. *)
Definition monthStart (m l : Z) : Z :=
  match m with
  | 0 => 0
  | 1 => 31
  | 2 => 59 + l
  | 3 => 90 + l
  | 4 => 120 + l
  | 5 => 151 + l
  | 6 => 181 + l
  | 7 => 212 + l
  | 8 => 243 + l
  | 9 => 273 + l
  | 10 => 304 + l
  | _ => 334 + l
  end.

(** [MonthFromTime], 0-based. *)
Definition monthOfDayInYear (k l : Z) : Z :=
  if k <? 31 then 0
  else if k <? 59 + l then 1
  else if k <? 90 + l then 2
  else if k <? 120 + l then 3
  else if k <? 151 + l then 4
  else if k <? 181 + l then 5
  else if k <? 212 + l then 6
  else if k <? 243 + l then 7
  else if k <? 273 + l then 8
  else if k <? 304 + l then 9
  else if k <? 334 + l then 10
  else 11.

Definition MonthFromDay (d : Z) : Z :=
  monthOfDayInYear (DayWithinYear d) (leapDays (YearFromDay d)).

(** [DateFromTime], 1-based day of the month. *)
Definition DateFromDay (d : Z) : Z :=
  DayWithinYear d - monthStart (MonthFromDay d) (leapDays (YearFromDay d)) + 1.

(** [MakeDay(year, month, date)]: months and dates out of range carry over. *)
Definition MakeDay (year month date : Z) : Z :=
  let ym := year + month / 12 in
  let mn := month mod 12 in
  DayFromYear ym + monthStart mn (leapDays ym) + date - 1.

(** A Date object: [None] is Invalid Date. *)
Definition Date := option Z.

(** [TimeClip]: time values beyond 8.64e15 ms (1e8 days) are invalid. *)
Definition TimeClip (d : Z) : Date :=
  if (Z.abs d <=? 100000000) then Some d else None.

(** [new Date(year, monthIndex, day)]; years 0..99 mean 1900..1999. *)
Definition fromFields (year month date : Z) : Date :=
  let yr := if (0 <=? year) && (year <=? 99) then 1900 + year else year in
  TimeClip (MakeDay yr month date).

(** The same with fields that may be NaN. *)
Definition fromFieldsN (year month : option Z) (date : Z) : Date :=
  match year, month with
  | Some y, Some m => fromFields y m date
  | _, _ => None
  end.

(** [getFullYear()], [getMonth()], [getDate()]; NaN is [None]. *)
Definition getFullYear (d : Date) : option Z := option_map YearFromDay d.
Definition getMonth (d : Date) : option Z := option_map MonthFromDay d.
Definition getDate (d : Date) : option Z := option_map DateFromDay d.

(** [d.setDate(dt)] *)
Definition setDate (d : Date) (dt : option Z) : Date :=
  match d, dt with
  | Some t, Some n => TimeClip (MakeDay (YearFromDay t) (MonthFromDay t) n)
  | _, _ => None
  end.

(** [d.setDate(d.getDate() + k)] *)
Definition addDays (d : Date) (k : Z) : Date :=
  setDate d (option_map (fun n => n + k) (getDate d)).

(** [a <= b] and [a >= b] on Date objects: numeric comparison of the time
    values, false when either is NaN. *)
Definition leb (a b : Date) : bool :=
  match a, b with
  | Some x, Some y => x <=? y
  | _, _ => false
  end.

Definition geb (a b : Date) : bool := leb b a.

(** [new Date(s)] for a date-only ISO string: UTC midnight of that day.
    As in V8, the day may be 01..31 in any month and carries over. *)
Definition parse (s : string) : Date :=
  match list_ascii_of_string s with
  | [y3; y2; y1; y0; h1; m1; m0; h2; d1; d0] =>
      match JSString.digitVal y3, JSString.digitVal y2, JSString.digitVal y1,
            JSString.digitVal y0, JSString.digitVal m1, JSString.digitVal m0,
            JSString.digitVal d1, JSString.digitVal d0 with
      | Some a3, Some a2, Some a1, Some a0, Some b1, Some b0, Some c1, Some c0 =>
          let y := 1000 * a3 + 100 * a2 + 10 * a1 + a0 in
          let m := 10 * b1 + b0 in
          let d := 10 * c1 + c0 in
          if (h1 =? "-")%char && (h2 =? "-")%char
             && (1 <=? m) && (m <=? 12) && (1 <=? d) && (d <=? 31)
          then TimeClip (MakeDay y (m - 1) d)
          else None
      | _, _, _, _, _, _, _, _ => None
      end
  | _ => None
  end.

(** The year of [toISOString()]: four digits, or a sign and six digits. *)
Definition isoYear (y : Z) : string :=
  if (0 <=? y) && (y <=? 9999) then JSString.fixedDigits 4 y ""
  else String (if y <? 0 then "-"%char else "+"%char)
              (JSString.fixedDigits 6 (Z.abs y) "").

Definition isoDateOfDay (t : Z) : string :=
  (isoYear (YearFromDay t) ++ "-"
   ++ JSString.fixedDigits 2 (MonthFromDay t + 1) "" ++ "-"
   ++ JSString.fixedDigits 2 (DateFromDay t) "")%string.

(** [d.toISOString().split('T')[0]]; a RangeError on an Invalid Date. *)
Definition toISODate (d : Date) : option string := option_map isoDateOfDay d.

End JSDate.

(* ===================================================================== *)
(** ** JavaScript numbers that hold money and ratios *)
(* ===================================================================== *)

Module JSNumber.

(** A finite value is an exact rational in lowest terms; there is one
    zero. *)
Inductive number : Type :=
| Num (q : Q)
| NaN
| PInf
| NInf.

Definition ofQ (q : Q) : number := Num (Qred q).
Definition ofZ (z : Z) : number := Num (inject_Z z).

Definition isNaN (a : number) : bool :=
  match a with
  | NaN => true
  | _ => false
  end.

Definition isFinite (a : number) : bool :=
  match a with
  | Num _ => true
  | _ => false
  end.

Definition neg (a : number) : number :=
  match a with
  | Num q => ofQ (- q)
  | NaN => NaN
  | PInf => NInf
  | NInf => PInf
  end.

(** [Math.abs] *)
Definition abs (a : number) : number :=
  match a with
  | Num q => ofQ (Qabs q)
  | NaN => NaN
  | PInf | NInf => PInf
  end.

(** [a + b] *)
Definition add (a b : number) : number :=
  match a, b with
  | NaN, _ | _, NaN => NaN
  | PInf, NInf | NInf, PInf => NaN
  | PInf, _ | _, PInf => PInf
  | NInf, _ | _, NInf => NInf
  | Num x, Num y => ofQ (x + y)
  end.

(** An infinity scaled by a finite factor. *)
Definition scaleInf (inf : number) (y : Q) : number :=
  match Qcompare y 0 with
  | Eq => NaN
  | Gt => inf
  | Lt => neg inf
  end.

(** [a * b] *)
Definition mul (a b : number) : number :=
  match a, b with
  | NaN, _ | _, NaN => NaN
  | Num x, Num y => ofQ (x * y)
  | Num x, PInf => scaleInf PInf x
  | Num x, NInf => scaleInf NInf x
  | PInf, Num y => scaleInf PInf y
  | NInf, Num y => scaleInf NInf y
  | PInf, PInf | NInf, NInf => PInf
  | PInf, NInf | NInf, PInf => NInf
  end.

(** [a / b]; a finite value over zero is an infinity, zero over zero NaN. *)
Definition div (a b : number) : number :=
  match a, b with
  | NaN, _ | _, NaN => NaN
  | Num x, Num y =>
      match Qcompare y 0 with
      | Eq => match Qcompare x 0 with
              | Eq => NaN
              | Gt => PInf
              | Lt => NInf
              end
      | _ => ofQ (x / y)
      end
  | Num _, _ => Num 0
  | PInf, Num y => match Qcompare y 0 with Lt => NInf | _ => PInf end
  | NInf, Num y => match Qcompare y 0 with Lt => PInf | _ => NInf end
  | _, _ => NaN
  end.

(** [a < b]; false when either side is NaN. *)
Definition ltb (a b : number) : bool :=
  match a, b with
  | NaN, _ | _, NaN => false
  | Num x, Num y => match Qcompare x y with Lt => true | _ => false end
  | NInf, NInf => false
  | NInf, _ => true
  | _, PInf => match a with PInf => false | _ => true end
  | _, _ => false
  end.

(** [a > b] *)
Definition gtb (a b : number) : bool := ltb b a.

(** [a === b] *)
Definition eqb (a b : number) : bool :=
  match a, b with
  | Num x, Num y => Qeq_bool x y
  | PInf, PInf | NInf, NInf => true
  | _, _ => false
  end.

(** [Math.round]: the nearest integer, halves towards +Infinity. *)
Definition round (a : number) : number :=
  match a with
  | Num q => ofZ (Qfloor (q + (1 # 2)))
  | _ => a
  end.

(** [Math.round(a * 100) / 100] *)
Definition round2 (a : number) : number :=
  div (round (mul a (ofZ 100))) (ofZ 100).

(** *** [parseFloat] *)

Definition isWhite (c : ascii) : bool :=
  let n := N_of_ascii c in
  ((9 <=? n) && (n <=? 13) || (n =? 32))%N.

Fixpoint trimStart (l : list ascii) : list ascii :=
  match l with
  | c :: r => if isWhite c then trimStart r else l
  | [] => []
  end.

Fixpoint takeDigits (l : list ascii) : list Z * list ascii :=
  match l with
  | c :: r =>
      match JSString.digitVal c with
      | Some d => let (ds, rest) := takeDigits r in (d :: ds, rest)
      | None => ([], l)
      end
  | [] => ([], [])
  end.

Definition digitsValue (ds : list Z) : Z :=
  fold_left (fun acc d => 10 * acc + d) ds 0.

Fixpoint startsWith (p l : list ascii) : bool :=
  match p, l with
  | [], _ => true
  | a :: p', b :: l' => (a =? b)%char && startsWith p' l'
  | _ :: _, [] => false
  end.

(** The exponent part at the head of [l], 0 when there is none. *)
Definition parseExponent (l : list ascii) : Z :=
  match l with
  | c :: r =>
      if (c =? "e")%char || (c =? "E")%char then
        let (sign, r') :=
          match r with
          | s :: r2 => if (s =? "+")%char then (1, r2)
                       else if (s =? "-")%char then (-1, r2)
                       else (1, r)
          | [] => (1, r)
          end in
        match fst (takeDigits r') with
        | [] => 0
        | ds => sign * digitsValue ds
        end
      else 0
  | [] => 0
  end.

(** The longest prefix that is an unsigned decimal literal. *)
Definition parseUnsigned (l : list ascii) : number :=
  if startsWith (list_ascii_of_string "Infinity") l then PInf
  else
    let (ip, r1) := takeDigits l in
    let (fp, r2) :=
      match r1 with
      | c :: r => if (c =? ".")%char then takeDigits r else ([], r1)
      | [] => ([], r1)
      end in
    match (ip ++ fp)%list with
    | [] => NaN
    | ds => ofQ (inject_Z (digitsValue ds)
                 * Qpower 10 (parseExponent r2 - Z.of_nat (List.length fp)))
    end.

Definition parseFloat (s : string) : number :=
  match trimStart (list_ascii_of_string s) with
  | c :: r =>
      if (c =? "-")%char then neg (parseUnsigned r)
      else if (c =? "+")%char then parseUnsigned r
      else parseUnsigned (c :: r)
  | [] => NaN
  end.

End JSNumber.

(* ===================================================================== *)
(** ** JavaScript containers *)
(* ===================================================================== *)

(** A [Map]: entries in insertion order, at most one per key. *)
Module JSMap.
Section Map.
Variables (K V : Type) (keq : K -> K -> bool).

Definition t : Type := list (K * V).

Definition empty : t := [].

Fixpoint get (k : K) (m : t) : option V :=
  match m with
  | [] => None
  | (k', v) :: r => if keq k k' then Some v else get k r
  end.

Definition has (k : K) (m : t) : bool :=
  match get k m with
  | Some _ => true
  | None => false
  end.

(** [m.set(k, v)]: an existing key keeps its place. *)
Fixpoint set (k : K) (v : V) (m : t) : t :=
  match m with
  | [] => [(k, v)]
  | (k', v') :: r => if keq k k' then (k, v) :: r else (k', v') :: set k v r
  end.

Definition remove (k : K) (m : t) : t :=
  filter (fun e => negb (keq k (fst e))) m.

(** [m.delete(k)]: whether the key was there, and the map without it. *)
Definition delete (k : K) (m : t) : bool * t := (has k m, remove k m).

(** [Array.from(m.values())] *)
Definition values (m : t) : list V := map snd m.

Definition keys (m : t) : list K := map fst m.
End Map.
End JSMap.

Module JSArray.
Section Array.
Variable A : Type.

(** [a.length] *)
Definition length (l : list A) : Z := Z.of_nat (List.length l).

(** [a.filter(p)] with a predicate that may throw. *)
Fixpoint filterE (p : A -> option bool) (l : list A) : option (list A) :=
  match l with
  | [] => Some []
  | x :: r =>
      match p x with
      | None => None
      | Some b =>
          match filterE p r with
          | None => None
          | Some r' => Some (if b then x :: r' else r')
          end
      end
  end.

(** [Promise.all(a.map(f))]: the first rejection rejects the whole. *)
Fixpoint mapE (B : Type) (f : A -> option B) (l : list A) : option (list B) :=
  match l with
  | [] => Some []
  | x :: r =>
      match f x with
      | None => None
      | Some y =>
          match mapE f r with
          | None => None
          | Some r' => Some (y :: r')
          end
      end
  end.

(** [a.sort(cmp)]: stable, [cmp x y = Gt] puts [y] first. *)
Variable cmp : A -> A -> comparison.

Fixpoint insert (x : A) (l : list A) : list A :=
  match l with
  | [] => [x]
  | y :: r =>
      match cmp x y with
      | Gt => y :: insert x r
      | _ => x :: y :: r
      end
  end.

Definition sort (l : list A) : list A := fold_right insert [] l.
End Array.
End JSArray.

(* ===================================================================== *)
(** ** The entities of [@shared/schema] that the analytics read *)
(* ===================================================================== *)

Module Habit.
Record t : Type := mk {
  id : Z;
  name : string;
  description : option string;
  category : string;
  isActive : bool
}.

Definition deactivate (h : t) : t :=
  mk (id h) (name h) (description h) (category h) false.
End Habit.

Module InsertHabit.
Record t : Type := mk {
  name : string;
  description : option string;
  category : option string
}.

(** [Partial<InsertHabit>]: [None] is an absent field. *)
Record partial : Type := mkPartial {
  p_name : option string;
  p_description : option (option string);
  p_category : option string
}.
End InsertHabit.

Module HabitCompletion.
Record t : Type := mk {
  id : Z;
  habitId : Z;
  date : string;
  completed : bool
}.
End HabitCompletion.

Module InsertHabitCompletion.
Record t : Type := mk {
  habitId : Z;
  date : string;
  completed : option bool
}.
End InsertHabitCompletion.

Module TradeReview.
Record t : Type := mk {
  id : Z;
  date : string;
  pnl : option string;
  emotionalState : option string
}.
End TradeReview.

Module InsertTradeReview.
Record t : Type := mk {
  date : string;
  pnl : option string;
  emotionalState : option string
}.

Record partial : Type := mkPartial {
  p_date : option string;
  p_pnl : option (option string);
  p_emotionalState : option (option string)
}.
End InsertTradeReview.

Module HabitWithStats.
Record t : Type := mk {
  habit : Habit.t;
  currentStreak : Z;
  completionRate : JSNumber.number;
  completedToday : bool;
  monthlyCompletions : Z;
  totalDaysThisMonth : option Z
}.
End HabitWithStats.

Module WeeklyEntry.
Record t : Type := mk {
  date : string;
  completionRate : JSNumber.number
}.
End WeeklyEntry.

Module MonthlyStats.
Record t : Type := mk {
  bestStreak : Z;
  totalHabits : Z;
  completionRate : JSNumber.number;
  perfectDays : Z
}.
End MonthlyStats.

Module TradingStats.
Record t : Type := mk {
  totalTrades : Z;
  winRate : JSNumber.number;
  totalPnL : JSNumber.number;
  avgWin : JSNumber.number;
  avgLoss : JSNumber.number;
  profitFactor : JSNumber.number;
  emotionalStates : JSMap.t string Z
}.

Definition zero : t :=
  mk 0 (JSNumber.ofZ 0) (JSNumber.ofZ 0) (JSNumber.ofZ 0) (JSNumber.ofZ 0)
     (JSNumber.ofZ 0) (JSMap.empty string Z).
End TradingStats.

(** Helpers shared by the two back ends' embeddings. *)
Module Common.

(** [x?.completed] in a condition. *)
Definition isCompleted (c : option HabitCompletion.t) : bool :=
  match c with
  | Some x => HabitCompletion.completed x
  | None => false
  end.

(** [parseFloat(t.pnl)]; [parseFloat(null)] is NaN. *)
Definition pnlValue (t : TradeReview.t) : JSNumber.number :=
  match TradeReview.pnl t with
  | Some s => JSNumber.parseFloat s
  | None => JSNumber.NaN
  end.

(** [states[k] = (states[k] || 0) + 1] for a trade that has a tag. *)
Definition tally (states : JSMap.t string Z) (t : TradeReview.t)
  : JSMap.t string Z :=
  match TradeReview.emotionalState t with
  | Some k =>
      if JSString.truthy k then
        JSMap.set String.eqb k
          (match JSMap.get String.eqb k states with
           | Some n => n + 1
           | None => 1
           end) states
      else states
  | None => states
  end.

(** [(a / b) * 100] on two counts. *)
Definition percent (a b : Z) : JSNumber.number :=
  JSNumber.mul (JSNumber.div (JSNumber.ofZ a) (JSNumber.ofZ b)) (JSNumber.ofZ 100).

(** Fuel for [for (d = start; d <= end; d.setDate(d.getDate() + 1))]: one
    test per day of the range and the test that leaves the loop. *)
Definition daysFuel (first last : JSDate.Date) : nat :=
  match first, last with
  | Some s, Some e => S (Z.to_nat (e - s + 1))
  | _, _ => 1%nat
  end.

(** [for (let d = new Date(first); d <= last; d.setDate(d.getDate() + 1))]
    with [const dateStr = d.toISOString().split('T')[0]] at the head of
    the body; [None] when the fuel runs out or [toISOString] throws. *)
Fixpoint forEachDay (A : Type) (fuel : nat) (d last : JSDate.Date)
    (body : A -> string -> A) (acc : A) : option A :=
  match fuel with
  | O => None
  | S k =>
      if JSDate.leb d last then
        match JSDate.toISODate d with
        | None => None
        | Some dateStr =>
            forEachDay k (JSDate.addDays d 1) last body (body acc dateStr)
        end
      else Some acc
  end.

End Common.

(* ===================================================================== *)
(** ** [class MemStorage] *)
(* ===================================================================== *)

Module MemStorage.

Import JSDate JSNumber Common.

Record t : Type := mk {
  habits : JSMap.t Z Habit.t;
  habitCompletions : JSMap.t string HabitCompletion.t;
  tradeReviews : JSMap.t Z TradeReview.t;
  currentHabitId : Z;
  currentCompletionId : Z;
  currentTradeId : Z
}.

Definition empty : t :=
  mk (JSMap.empty Z Habit.t) (JSMap.empty string HabitCompletion.t)
     (JSMap.empty Z TradeReview.t) 1 1 1.

(** *** Habits *)

Definition getHabits (st : t) : list Habit.t :=
  filter Habit.isActive (JSMap.values (habits st)).

Definition getHabit (st : t) (id : Z) : option Habit.t :=
  JSMap.get Z.eqb id (habits st).

Definition createHabit (st : t) (insertHabit : InsertHabit.t) : Habit.t * t :=
  let habit :=
    Habit.mk (currentHabitId st)
      (InsertHabit.name insertHabit)
      (JSString.orNull (InsertHabit.description insertHabit))
      (match JSString.orNull (InsertHabit.category insertHabit) with
       | Some c => c
       | None => "custom"
       end)
      true in
  (habit,
   mk (JSMap.set Z.eqb (Habit.id habit) habit (habits st))
      (habitCompletions st) (tradeReviews st)
      (currentHabitId st + 1) (currentCompletionId st) (currentTradeId st)).

(** [{ ...habit, ...updates }] *)
Definition mergeHabit (habit : Habit.t) (updates : InsertHabit.partial) : Habit.t :=
  Habit.mk (Habit.id habit)
    (match InsertHabit.p_name updates with
     | Some n => n
     | None => Habit.name habit
     end)
    (match InsertHabit.p_description updates with
     | Some d => d
     | None => Habit.description habit
     end)
    (match InsertHabit.p_category updates with
     | Some c => c
     | None => Habit.category habit
     end)
    (Habit.isActive habit).

Definition setHabits (st : t) (m : JSMap.t Z Habit.t) : t :=
  mk m (habitCompletions st) (tradeReviews st)
     (currentHabitId st) (currentCompletionId st) (currentTradeId st).

Definition updateHabit (st : t) (id : Z) (updates : InsertHabit.partial)
  : option Habit.t * t :=
  match JSMap.get Z.eqb id (habits st) with
  | None => (None, st)
  | Some habit =>
      let updatedHabit := mergeHabit habit updates in
      (Some updatedHabit, setHabits st (JSMap.set Z.eqb id updatedHabit (habits st)))
  end.

Definition deleteHabit (st : t) (id : Z) : bool * t :=
  match JSMap.get Z.eqb id (habits st) with
  | None => (false, st)
  | Some habit =>
      let updatedHabit := Habit.deactivate habit in
      (true, setHabits st (JSMap.set Z.eqb id updatedHabit (habits st)))
  end.

(** The constructor: the four default habits. *)
Definition defaultHabits : list InsertHabit.t :=
  [ InsertHabit.mk "Avoid Overtrading"
      (Some "Maximum 3 trades per day, focus on quality over quantity")
      (Some "Risk Management");
    InsertHabit.mk "Honor Stop Losses"
      (Some "Exit positions when stop loss is hit, no exceptions")
      (Some "Risk Management");
    InsertHabit.mk "Wait for Setup"
      (Some "Only trade when all criteria are met, be patient")
      (Some "Emotional Control");
    InsertHabit.mk "Review Trades Daily"
      (Some "Spend 10 minutes analyzing today's trades")
      (Some "Analysis & Research") ].

Definition initializeDefaultHabits (st : t) : t :=
  fold_left (fun s habit => snd (createHabit s habit)) defaultHabits st.

Definition new : t := initializeDefaultHabits empty.

(** *** Habit completions *)

(** [`${habitId}-${date}`] *)
Definition completionKey (habitId : Z) (date : string) : string :=
  (JSString.ofZ habitId ++ "-" ++ date)%string.

Definition getHabitCompletions (st : t) (habitId : Z)
    (startDate endDate : option string) : list HabitCompletion.t :=
  filter (fun completion =>
    if negb (HabitCompletion.habitId completion =? habitId) then false
    else if match startDate with
            | Some s => JSString.truthy s
                        && JSString.lt (HabitCompletion.date completion) s
            | None => false
            end then false
    else if match endDate with
            | Some e => JSString.truthy e
                        && JSString.gt (HabitCompletion.date completion) e
            | None => false
            end then false
    else true)
    (JSMap.values (habitCompletions st)).

Definition getHabitCompletion (st : t) (habitId : Z) (date : string)
  : option HabitCompletion.t :=
  JSMap.get String.eqb (completionKey habitId date) (habitCompletions st).

Definition createOrUpdateHabitCompletion (st : t)
    (completion : InsertHabitCompletion.t) : HabitCompletion.t * t :=
  let key := completionKey (InsertHabitCompletion.habitId completion)
                           (InsertHabitCompletion.date completion) in
  let flag := match InsertHabitCompletion.completed completion with
              | Some b => b
              | None => false
              end in
  match JSMap.get String.eqb key (habitCompletions st) with
  | Some existing =>
      let updated :=
        HabitCompletion.mk (HabitCompletion.id existing)
          (HabitCompletion.habitId existing) (HabitCompletion.date existing) flag in
      (updated,
       mk (habits st) (JSMap.set String.eqb key updated (habitCompletions st))
          (tradeReviews st)
          (currentHabitId st) (currentCompletionId st) (currentTradeId st))
  | None =>
      let newCompletion :=
        HabitCompletion.mk (currentCompletionId st)
          (InsertHabitCompletion.habitId completion)
          (InsertHabitCompletion.date completion) flag in
      (newCompletion,
       mk (habits st) (JSMap.set String.eqb key newCompletion (habitCompletions st))
          (tradeReviews st)
          (currentHabitId st) (currentCompletionId st + 1) (currentTradeId st))
  end.

(** *** Analytics *)

(** The streak loop of [getHabitsWithStats]: at most [n] more days. *)
Fixpoint streakLoop (n : nat) (sortedCompletions : list HabitCompletion.t)
    (checkDate : Date) (currentStreak : Z) : option Z :=
  match n with
  | O => Some currentStreak
  | S k =>
      match toISODate checkDate with
      | None => None
      | Some dateStr =>
          match find (fun c => (HabitCompletion.date c =? dateStr)%string)
                     sortedCompletions with
          | Some completion =>
              if HabitCompletion.completed completion
              then streakLoop k sortedCompletions (addDays checkDate (-1))
                              (currentStreak + 1)
              else Some currentStreak
          | None => Some currentStreak
          end
      end
  end.

Definition habitStats (st : t) (date : string) (habit : Habit.t)
  : option HabitWithStats.t :=
  let today := parse date in
  let startOfMonth := fromFieldsN (getFullYear today) (getMonth today) 1 in
  let endOfMonth :=
    fromFieldsN (getFullYear today) (option_map (fun m => m + 1) (getMonth today)) 0 in
  let completions := getHabitCompletions st (Habit.id habit) None None in
  match JSArray.filterE (fun c =>
          match toISODate startOfMonth with
          | None => None
          | Some s =>
              if negb (JSString.ge (HabitCompletion.date c) s) then Some false
              else match toISODate endOfMonth with
                   | None => None
                   | Some e => Some (JSString.le (HabitCompletion.date c) e
                                     && HabitCompletion.completed c)
                   end
          end) completions with
  | None => None
  | Some monthlyCompletions =>
      let completedToday :=
        existsb (fun c => (HabitCompletion.date c =? date)%string
                          && HabitCompletion.completed c) completions in
      let sortedCompletions :=
        JSArray.sort (fun a b => String.compare (HabitCompletion.date b)
                                                (HabitCompletion.date a))
                     completions in
      match streakLoop 365 sortedCompletions today 0 with
      | None => None
      | Some currentStreak =>
          let totalDaysThisMonth := getDate endOfMonth in
          let completionRate :=
            match totalDaysThisMonth with
            | Some n => if 0 <? n
                        then percent (JSArray.length monthlyCompletions) n
                        else ofZ 0
            | None => ofZ 0
            end in
          Some (HabitWithStats.mk habit currentStreak (round completionRate)
                  completedToday (JSArray.length monthlyCompletions)
                  totalDaysThisMonth)
      end
  end.

Definition getHabitsWithStats (st : t) (date : string)
  : option (list HabitWithStats.t) :=
  JSArray.mapE (habitStats st date) (getHabits st).

(** The inner loop [for (const habit of habits)]: completed habits on a day. *)
Definition completedOn (st : t) (habits : list Habit.t) (dateStr : string) : Z :=
  fold_left (fun n habit =>
    if isCompleted (getHabitCompletion st (Habit.id habit) dateStr)
    then n + 1 else n) habits 0.

(** The body of the day loop of [getWeeklyProgress]. *)
Definition dayEntry (st : t) (habits : list Habit.t) (dateStr : string)
  : WeeklyEntry.t :=
  let totalHabits := JSArray.length habits in
  let completedHabits := completedOn st habits dateStr in
  let completionRate :=
    if 0 <? totalHabits then percent completedHabits totalHabits else ofZ 0 in
  WeeklyEntry.mk dateStr (round completionRate).

Definition getWeeklyProgress (st : t) (startDate endDate : string)
  : option (list WeeklyEntry.t) :=
  let habits := getHabits st in
  let first := parse startDate in
  let last := parse endDate in
  forEachDay (daysFuel first last) first last
    (fun result dateStr => (result ++ [dayEntry st habits dateStr])%list) [].

(** The body of the day loop of [getMonthlyStats], on
    [(totalCompletions, totalPossible, perfectDays)]. *)
Definition monthStep (st : t) (habits : list Habit.t) (acc : Z * Z * Z)
    (dateStr : string) : Z * Z * Z :=
  let '(totalCompletions, totalPossible, perfectDays) := acc in
  let dayCompletions := completedOn st habits dateStr in
  (totalCompletions + dayCompletions,
   totalPossible + JSArray.length habits,
   if (dayCompletions =? JSArray.length habits) && (0 <? JSArray.length habits)
   then perfectDays + 1 else perfectDays).

(** [for (const day of weeklyProgress)]: the running and the best streak
    of days at 100. *)
Fixpoint streakScan (days : list WeeklyEntry.t) (currentStreak bestStreak : Z) : Z :=
  match days with
  | [] => bestStreak
  | day :: r =>
      if JSNumber.eqb (WeeklyEntry.completionRate day) (ofZ 100)
      then streakScan r (currentStreak + 1) (Z.max bestStreak (currentStreak + 1))
      else streakScan r 0 bestStreak
  end.

Definition getMonthlyStats (st : t) (year month : Z) : option MonthlyStats.t :=
  let habits := getHabits st in
  let startOfMonth := fromFields year (month - 1) 1 in
  let endOfMonth := fromFields year month 0 in
  match forEachDay (daysFuel startOfMonth endOfMonth) startOfMonth endOfMonth
                   (monthStep st habits) (0, 0, 0) with
  | None => None
  | Some (totalCompletions, totalPossible, perfectDays) =>
      match toISODate startOfMonth, toISODate endOfMonth with
      | Some s, Some e =>
          match getWeeklyProgress st s e with
          | None => None
          | Some weeklyProgress =>
              let bestStreak := streakScan weeklyProgress 0 0 in
              let completionRate :=
                if 0 <? totalPossible then percent totalCompletions totalPossible
                else ofZ 0 in
              Some (MonthlyStats.mk bestStreak (JSArray.length habits)
                      (round completionRate) perfectDays)
          end
      | _, _ => None
      end
  end.

(** *** Trade reviews *)

Definition getTradeReviews (st : t) (startDate endDate : option string)
  : list TradeReview.t :=
  filter (fun trade =>
    if match startDate with
       | Some s => JSString.truthy s && JSString.lt (TradeReview.date trade) s
       | None => false
       end then false
    else if match endDate with
            | Some e => JSString.truthy e && JSString.gt (TradeReview.date trade) e
            | None => false
            end then false
    else true)
    (JSMap.values (tradeReviews st)).

Definition getTradeReview (st : t) (id : Z) : option TradeReview.t :=
  JSMap.get Z.eqb id (tradeReviews st).

Definition setTradeReviews (st : t) (m : JSMap.t Z TradeReview.t) (next : Z) : t :=
  mk (habits st) (habitCompletions st) m
     (currentHabitId st) (currentCompletionId st) next.

Definition createTradeReview (st : t) (review : InsertTradeReview.t)
  : TradeReview.t * t :=
  let tradeReview :=
    TradeReview.mk (currentTradeId st) (InsertTradeReview.date review)
      (JSString.orNull (InsertTradeReview.pnl review))
      (JSString.orNull (InsertTradeReview.emotionalState review)) in
  (tradeReview,
   setTradeReviews st
     (JSMap.set Z.eqb (TradeReview.id tradeReview) tradeReview (tradeReviews st))
     (currentTradeId st + 1)).

(** [{ ...existing, ...review }] *)
Definition mergeTrade (existing : TradeReview.t) (review : InsertTradeReview.partial)
  : TradeReview.t :=
  TradeReview.mk (TradeReview.id existing)
    (match InsertTradeReview.p_date review with
     | Some d => d
     | None => TradeReview.date existing
     end)
    (match InsertTradeReview.p_pnl review with
     | Some p => p
     | None => TradeReview.pnl existing
     end)
    (match InsertTradeReview.p_emotionalState review with
     | Some e => e
     | None => TradeReview.emotionalState existing
     end).

Definition updateTradeReview (st : t) (id : Z) (review : InsertTradeReview.partial)
  : option TradeReview.t * t :=
  match JSMap.get Z.eqb id (tradeReviews st) with
  | None => (None, st)
  | Some existing =>
      let updated := mergeTrade existing review in
      (Some updated,
       setTradeReviews st (JSMap.set Z.eqb id updated (tradeReviews st))
                       (currentTradeId st))
  end.

Definition deleteTradeReview (st : t) (id : Z) : bool * t :=
  let (existed, m) := JSMap.delete Z.eqb id (tradeReviews st) in
  (existed, setTradeReviews st m (currentTradeId st)).

(** [trades.reduce((sum, t) => sum + parseFloat(t.pnl!), 0)] *)
Definition sumPnL (trades : list TradeReview.t) : number :=
  fold_left (fun sum t => add sum (pnlValue t)) trades (ofZ 0).

Definition statsOfTrades (trades : list TradeReview.t) : TradingStats.t :=
  let totalTrades := JSArray.length trades in
  if totalTrades =? 0 then TradingStats.zero
  else
    let tradesWithPnL :=
      filter (fun t => JSString.truthyOpt (TradeReview.pnl t)
                       && negb (isNaN (pnlValue t))) trades in
    let winningTrades := filter (fun t => gtb (pnlValue t) (ofZ 0)) tradesWithPnL in
    let losingTrades := filter (fun t => ltb (pnlValue t) (ofZ 0)) tradesWithPnL in
    let totalPnL := sumPnL tradesWithPnL in
    let winRate :=
      if 0 <? JSArray.length tradesWithPnL
      then percent (JSArray.length winningTrades) (JSArray.length tradesWithPnL)
      else ofZ 0 in
    let totalWins := sumPnL winningTrades in
    let totalLosses := abs (sumPnL losingTrades) in
    let avgWin :=
      if 0 <? JSArray.length winningTrades
      then div totalWins (ofZ (JSArray.length winningTrades)) else ofZ 0 in
    let avgLoss :=
      if 0 <? JSArray.length losingTrades
      then div totalLosses (ofZ (JSArray.length losingTrades)) else ofZ 0 in
    let profitFactor :=
      if gtb totalLosses (ofZ 0) then div totalWins totalLosses
      else if gtb totalWins (ofZ 0) then ofZ 999 else ofZ 0 in
    let emotionalStates := fold_left tally trades (JSMap.empty string Z) in
    TradingStats.mk totalTrades (round winRate) (round2 totalPnL)
      (round2 avgWin) (round2 avgLoss) (round2 profitFactor) emotionalStates.

Definition getTradingStats (st : t) (startDate endDate : string) : TradingStats.t :=
  statsOfTrades (getTradeReviews st (Some startDate) (Some endDate)).

End MemStorage.

(* ===================================================================== *)
(** ** [class DatabaseStorage] *)
(* ===================================================================== *)

(** The relational back end.  A table is the list of its rows, a [where]
    clause filters, [orderBy] is a stable sort on code units.  Only the
    queries, the delete operations and the analytics are embedded; the
    inserts rest on column defaults of a schema that is not part of the
    sources. *)
Module DatabaseStorage.

Import JSDate JSNumber Common.

Record t : Type := mk {
  habits : list Habit.t;
  habitCompletions : list HabitCompletion.t;
  tradeReviews : list TradeReview.t
}.

Definition getHabits (db : t) : list Habit.t :=
  JSArray.sort (fun a b => String.compare (Habit.name a) (Habit.name b))
    (filter Habit.isActive (habits db)).

Definition getHabit (db : t) (id : Z) : option Habit.t :=
  hd_error (filter (fun h => Habit.id h =? id) (habits db)).

(** [update(habits).set({ isActive: false }).where(eq(habits.id, id))] *)
Definition deleteHabit (db : t) (id : Z) : bool * t :=
  (0 <? JSArray.length (filter (fun h => Habit.id h =? id) (habits db)),
   mk (map (fun h => if Habit.id h =? id then Habit.deactivate h else h) (habits db))
      (habitCompletions db) (tradeReviews db)).

Definition getHabitCompletions (db : t) (habitId : Z)
    (startDate endDate : option string) : list HabitCompletion.t :=
  JSArray.sort (fun a b => String.compare (HabitCompletion.date a)
                                          (HabitCompletion.date b))
    (match startDate, endDate with
     | Some s, Some e =>
         if JSString.truthy s && JSString.truthy e then
           filter (fun c => (HabitCompletion.habitId c =? habitId)
                            && JSString.ge (HabitCompletion.date c) s
                            && JSString.le (HabitCompletion.date c) e)
                  (habitCompletions db)
         else filter (fun c => HabitCompletion.habitId c =? habitId)
                     (habitCompletions db)
     | _, _ => filter (fun c => HabitCompletion.habitId c =? habitId)
                      (habitCompletions db)
     end).

Definition getHabitCompletion (db : t) (habitId : Z) (date : string)
  : option HabitCompletion.t :=
  hd_error (filter (fun c => (HabitCompletion.habitId c =? habitId)
                             && (HabitCompletion.date c =? date)%string)
                   (habitCompletions db)).

Definition getTradeReviews (db : t) (startDate endDate : option string)
  : list TradeReview.t :=
  JSArray.sort (fun a b => String.compare (TradeReview.date b) (TradeReview.date a))
    (match startDate, endDate with
     | Some s, Some e =>
         if JSString.truthy s && JSString.truthy e then
           filter (fun r => JSString.ge (TradeReview.date r) s
                            && JSString.le (TradeReview.date r) e)
                  (tradeReviews db)
         else tradeReviews db
     | _, _ => tradeReviews db
     end).

Definition getTradeReview (db : t) (id : Z) : option TradeReview.t :=
  hd_error (filter (fun r => TradeReview.id r =? id) (tradeReviews db)).

(** [delete(tradeReviews).where(eq(tradeReviews.id, id))] *)
Definition deleteTradeReview (db : t) (id : Z) : bool * t :=
  (0 <? JSArray.length (filter (fun r => TradeReview.id r =? id) (tradeReviews db)),
   mk (habits db) (habitCompletions db)
      (filter (fun r => negb (TradeReview.id r =? id)) (tradeReviews db))).

(** *** Analytics *)

(** [while (checkDate >= new Date(monthStart))]; [None] when the fuel
    runs out. *)
Fixpoint streakLoop (fuel : nat) (completionsMap : JSMap.t string bool)
    (checkDate : Date) (monthStart : string) (currentStreak : Z) : option Z :=
  match fuel with
  | O => None
  | S k =>
      if JSDate.geb checkDate (parse monthStart) then
        match toISODate checkDate with
        | None => None
        | Some dateStr =>
            match JSMap.get String.eqb dateStr completionsMap with
            | Some true =>
                streakLoop k completionsMap (addDays checkDate (-1)) monthStart
                           (currentStreak + 1)
            | _ => Some currentStreak
            end
        end
      else Some currentStreak
  end.

Definition pad2 (n : option Z) : string :=
  JSString.padStart 2 (JSString.ofNumber n).

Definition habitStats (db : t) (date : string) (habit : Habit.t)
  : option HabitWithStats.t :=
  let today := parse date in
  let currentMonth := getMonth today in
  let currentYear := getFullYear today in
  let monthNumber := option_map (fun m => m + 1) currentMonth in
  let daysInMonth := getDate (fromFieldsN currentYear monthNumber 0) in
  let todayCompletion := getHabitCompletion db (Habit.id habit) date in
  let completedToday := isCompleted todayCompletion in
  let monthStart :=
    (JSString.ofNumber currentYear ++ "-" ++ pad2 monthNumber ++ "-01")%string in
  let monthEnd :=
    (JSString.ofNumber currentYear ++ "-" ++ pad2 monthNumber ++ "-"
     ++ pad2 daysInMonth)%string in
  let monthlyCompletions :=
    getHabitCompletions db (Habit.id habit) (Some monthStart) (Some monthEnd) in
  let completedDays :=
    JSArray.length (filter HabitCompletion.completed monthlyCompletions) in
  let completionRate :=
    match daysInMonth with
    | Some n => if 0 <? n then round (percent completedDays n) else ofZ 0
    | None => ofZ 0
    end in
  let completionsMap :=
    fold_left (fun m c => JSMap.set String.eqb (HabitCompletion.date c)
                                    (HabitCompletion.completed c) m)
              monthlyCompletions (JSMap.empty string bool) in
  match streakLoop (daysFuel (parse monthStart) today) completionsMap today
                   monthStart 0 with
  | None => None
  | Some currentStreak =>
      Some (HabitWithStats.mk habit currentStreak completionRate completedToday
              completedDays daysInMonth)
  end.

Definition getHabitsWithStats (db : t) (date : string)
  : option (list HabitWithStats.t) :=
  JSArray.mapE (habitStats db date) (getHabits db).

Definition completedOn (db : t) (allHabits : list Habit.t) (dateStr : string) : Z :=
  fold_left (fun n habit =>
    if isCompleted (getHabitCompletion db (Habit.id habit) dateStr)
    then n + 1 else n) allHabits 0.

(** The body of the day loop of [getWeeklyProgress]. *)
Definition dayEntry (db : t) (allHabits : list Habit.t) (dateStr : string)
  : WeeklyEntry.t :=
  let totalCompletions := completedOn db allHabits dateStr in
  let completionRate :=
    if 0 <? JSArray.length allHabits
    then round (percent totalCompletions (JSArray.length allHabits))
    else ofZ 0 in
  WeeklyEntry.mk dateStr completionRate.

Definition getWeeklyProgress (db : t) (startDate endDate : string)
  : option (list WeeklyEntry.t) :=
  let allHabits := getHabits db in
  let first := parse startDate in
  let last := parse endDate in
  forEachDay (daysFuel first last) first last
    (fun progress dateStr => (progress ++ [dayEntry db allHabits dateStr])%list) [].

(** The values of [day] in [for (let day = 1; day <= daysInMonth; day++)];
    none when [daysInMonth] is NaN. *)
Definition dayNumbers (daysInMonth : option Z) : list Z :=
  match daysInMonth with
  | Some n => map Z.of_nat (seq 1 (Z.to_nat n))
  | None => []
  end.

(** The body of the day loop of [getMonthlyStats], on
    [(totalCompletions, perfectDays)]. *)
Definition monthStep (db : t) (allHabits : list Habit.t) (year month : Z)
    (acc : Z * Z) (day : Z) : Z * Z :=
  let '(totalCompletions, perfectDays) := acc in
  let dateStr :=
    (JSString.ofZ year ++ "-" ++ pad2 (Some month) ++ "-" ++ pad2 (Some day))%string in
  let dayCompletions := completedOn db allHabits dateStr in
  (totalCompletions + dayCompletions,
   if (dayCompletions =? JSArray.length allHabits) && (0 <? JSArray.length allHabits)
   then perfectDays + 1 else perfectDays).

Definition getMonthlyStats (db : t) (year month : Z) : MonthlyStats.t :=
  let allHabits := getHabits db in
  let daysInMonth := getDate (fromFields year month 0) in
  let '(totalCompletions, perfectDays) :=
    fold_left (monthStep db allHabits year month) (dayNumbers daysInMonth) (0, 0) in
  let bestStreak := 0 in
  let completionRate :=
    match daysInMonth with
    | Some n =>
        let totalPossible := JSArray.length allHabits * n in
        if 0 <? totalPossible then round (percent totalCompletions totalPossible)
        else ofZ 0
    | None => ofZ 0
    end in
  MonthlyStats.mk bestStreak (JSArray.length allHabits) completionRate perfectDays.

(** The accumulators of [trades.forEach] in [getTradingStats]. *)
Record tradeAcc : Type := mkAcc {
  wins : Z;
  totalPnL : number;
  totalWins : number;
  totalLosses : number;
  winCount : Z;
  lossCount : Z;
  emotionalStates : JSMap.t string Z
}.

Definition tradeStep (acc : tradeAcc) (trade : TradeReview.t) : tradeAcc :=
  let acc1 :=
    if JSString.truthyOpt (TradeReview.pnl trade) then
      let pnl := pnlValue trade in
      if gtb pnl (ofZ 0) then
        mkAcc (wins acc + 1) (add (totalPnL acc) pnl) (add (totalWins acc) pnl)
              (totalLosses acc) (winCount acc + 1) (lossCount acc)
              (emotionalStates acc)
      else if ltb pnl (ofZ 0) then
        mkAcc (wins acc) (add (totalPnL acc) pnl) (totalWins acc)
              (add (totalLosses acc) (abs pnl)) (winCount acc) (lossCount acc + 1)
              (emotionalStates acc)
      else
        mkAcc (wins acc) (add (totalPnL acc) pnl) (totalWins acc)
              (totalLosses acc) (winCount acc) (lossCount acc)
              (emotionalStates acc)
    else acc in
  mkAcc (wins acc1) (totalPnL acc1) (totalWins acc1) (totalLosses acc1)
        (winCount acc1) (lossCount acc1) (tally (emotionalStates acc1) trade).

Definition statsOfTrades (trades : list TradeReview.t) : TradingStats.t :=
  let totalTrades := JSArray.length trades in
  if totalTrades =? 0 then TradingStats.zero
  else
    let acc := fold_left tradeStep trades
                 (mkAcc 0 (ofZ 0) (ofZ 0) (ofZ 0) 0 0 (JSMap.empty string Z)) in
    let winRate := percent (wins acc) totalTrades in
    let avgWin :=
      if 0 <? winCount acc then div (totalWins acc) (ofZ (winCount acc)) else ofZ 0 in
    let avgLoss :=
      if 0 <? lossCount acc then div (totalLosses acc) (ofZ (lossCount acc))
      else ofZ 0 in
    let profitFactor := if gtb avgLoss (ofZ 0) then div avgWin avgLoss else ofZ 0 in
    TradingStats.mk totalTrades (round winRate) (round2 (totalPnL acc))
      (round2 avgWin) (round2 avgLoss) (round2 profitFactor) (emotionalStates acc).

Definition getTradingStats (db : t) (startDate endDate : string) : TradingStats.t :=
  statsOfTrades (getTradeReviews db (Some startDate) (Some endDate)).

End DatabaseStorage.

(* ===================================================================== *)
(** ** Goals and the daily records *)
(* ===================================================================== *)

(** The entities that the analytics do not read: goals, emotional
    check-ins, journal entries and risk metrics.  The mood of a check-in
    and the content of a journal entry are strings that the storage passes
    through unread; the values of a goal and the risk figures are decimal
    strings. *)

Module GoalTracking.
Record t : Type := mk {
  id : Z;
  title : string;
  description : option string;
  targetValue : string;
  currentValue : string;
  unit : string;
  deadline : option string;
  category : string;
  isActive : bool
}.

Definition deactivate (g : t) : t :=
  mk (id g) (title g) (description g) (targetValue g) (currentValue g)
     (unit g) (deadline g) (category g) false.
End GoalTracking.

Module InsertGoalTracking.
Record t : Type := mk {
  title : string;
  description : option string;
  targetValue : string;
  currentValue : option string;
  unit : string;
  deadline : option string;
  category : string
}.

(** [Partial<InsertGoalTracking>]: [None] is an absent field. *)
Record partial : Type := mkPartial {
  p_title : option string;
  p_description : option (option string);
  p_targetValue : option string;
  p_currentValue : option string;
  p_unit : option string;
  p_deadline : option (option string);
  p_category : option string
}.
End InsertGoalTracking.

Module EmotionalCheckIn.
Record t : Type := mk {
  id : Z;
  date : string;
  mood : string
}.
End EmotionalCheckIn.

Module InsertEmotionalCheckIn.
Record t : Type := mk {
  date : string;
  mood : string
}.
End InsertEmotionalCheckIn.

Module JournalEntry.
Record t : Type := mk {
  id : Z;
  date : string;
  content : string
}.
End JournalEntry.

Module InsertJournalEntry.
Record t : Type := mk {
  date : string;
  content : string
}.
End InsertJournalEntry.

Module RiskMetrics.
Record t : Type := mk {
  id : Z;
  date : string;
  accountBalance : option string;
  maxDrawdown : option string;
  dailyRisk : option string;
  positionSize : option string;
  riskRewardRatio : option string
}.
End RiskMetrics.

(** The figures are optional: [None] is an absent field, [Some None] is
    [null]. *)
Module InsertRiskMetrics.
Record t : Type := mk {
  date : string;
  accountBalance : option (option string);
  maxDrawdown : option (option string);
  dailyRisk : option (option string);
  positionSize : option (option string);
  riskRewardRatio : option (option string)
}.
End InsertRiskMetrics.

(** [class MemStorage], continued: the maps of the goals and of the daily
    records with their identifier counters.  The methods below read and
    write these fields only, and the methods of [MemStorage] above touch
    none of them. *)
Module MemRecords.

Record t : Type := mk {
  emotionalCheckIns : JSMap.t string EmotionalCheckIn.t;
  journalEntries : JSMap.t string JournalEntry.t;
  goals : JSMap.t Z GoalTracking.t;
  riskMetrics : JSMap.t string RiskMetrics.t;
  currentCheckInId : Z;
  currentJournalId : Z;
  currentGoalId : Z;
  currentRiskId : Z
}.

Definition empty : t :=
  mk (JSMap.empty string EmotionalCheckIn.t) (JSMap.empty string JournalEntry.t)
     (JSMap.empty Z GoalTracking.t) (JSMap.empty string RiskMetrics.t) 1 1 1 1.

(** *** Emotional check-ins *)

Definition getEmotionalCheckIn (st : t) (date : string) : option EmotionalCheckIn.t :=
  JSMap.get String.eqb date (emotionalCheckIns st).

Definition setCheckIns (st : t) (m : JSMap.t string EmotionalCheckIn.t) (next : Z) : t :=
  mk m (journalEntries st) (goals st) (riskMetrics st)
     next (currentJournalId st) (currentGoalId st) (currentRiskId st).

Definition createOrUpdateEmotionalCheckIn (st : t) (checkIn : InsertEmotionalCheckIn.t)
  : EmotionalCheckIn.t * t :=
  match JSMap.get String.eqb (InsertEmotionalCheckIn.date checkIn)
                  (emotionalCheckIns st) with
  | Some existing =>
      let updated :=
        EmotionalCheckIn.mk (EmotionalCheckIn.id existing)
          (EmotionalCheckIn.date existing) (InsertEmotionalCheckIn.mood checkIn) in
      (updated,
       setCheckIns st
         (JSMap.set String.eqb (InsertEmotionalCheckIn.date checkIn) updated
                    (emotionalCheckIns st))
         (currentCheckInId st))
  | None =>
      let newCheckIn :=
        EmotionalCheckIn.mk (currentCheckInId st)
          (InsertEmotionalCheckIn.date checkIn) (InsertEmotionalCheckIn.mood checkIn) in
      (newCheckIn,
       setCheckIns st
         (JSMap.set String.eqb (InsertEmotionalCheckIn.date checkIn) newCheckIn
                    (emotionalCheckIns st))
         (currentCheckInId st + 1))
  end.

(** *** Journal entries *)

Definition getJournalEntry (st : t) (date : string) : option JournalEntry.t :=
  JSMap.get String.eqb date (journalEntries st).

Definition setJournal (st : t) (m : JSMap.t string JournalEntry.t) (next : Z) : t :=
  mk (emotionalCheckIns st) m (goals st) (riskMetrics st)
     (currentCheckInId st) next (currentGoalId st) (currentRiskId st).

Definition createOrUpdateJournalEntry (st : t) (entry : InsertJournalEntry.t)
  : JournalEntry.t * t :=
  match JSMap.get String.eqb (InsertJournalEntry.date entry) (journalEntries st) with
  | Some existing =>
      let updated :=
        JournalEntry.mk (JournalEntry.id existing) (JournalEntry.date existing)
          (InsertJournalEntry.content entry) in
      (updated,
       setJournal st
         (JSMap.set String.eqb (InsertJournalEntry.date entry) updated
                    (journalEntries st))
         (currentJournalId st))
  | None =>
      let newEntry :=
        JournalEntry.mk (currentJournalId st) (InsertJournalEntry.date entry)
          (InsertJournalEntry.content entry) in
      (newEntry,
       setJournal st
         (JSMap.set String.eqb (InsertJournalEntry.date entry) newEntry
                    (journalEntries st))
         (currentJournalId st + 1))
  end.

(** *** Goals *)

Definition getGoals (st : t) : list GoalTracking.t :=
  filter GoalTracking.isActive (JSMap.values (goals st)).

Definition getGoal (st : t) (id : Z) : option GoalTracking.t :=
  JSMap.get Z.eqb id (goals st).

Definition setGoals (st : t) (m : JSMap.t Z GoalTracking.t) (next : Z) : t :=
  mk (emotionalCheckIns st) (journalEntries st) m (riskMetrics st)
     (currentCheckInId st) (currentJournalId st) next (currentRiskId st).

Definition createGoal (st : t) (goal : InsertGoalTracking.t) : GoalTracking.t * t :=
  let goalTracking :=
    GoalTracking.mk (currentGoalId st)
      (InsertGoalTracking.title goal)
      (JSString.orNull (InsertGoalTracking.description goal))
      (InsertGoalTracking.targetValue goal)
      (match JSString.orNull (InsertGoalTracking.currentValue goal) with
       | Some v => v
       | None => "0"
       end)
      (InsertGoalTracking.unit goal)
      (JSString.orNull (InsertGoalTracking.deadline goal))
      (InsertGoalTracking.category goal)
      true in
  (goalTracking,
   setGoals st (JSMap.set Z.eqb (GoalTracking.id goalTracking) goalTracking (goals st))
            (currentGoalId st + 1)).

(** [{ ...existing, ...goal }] *)
Definition mergeGoal (existing : GoalTracking.t) (goal : InsertGoalTracking.partial)
  : GoalTracking.t :=
  GoalTracking.mk (GoalTracking.id existing)
    (match InsertGoalTracking.p_title goal with
     | Some x => x
     | None => GoalTracking.title existing
     end)
    (match InsertGoalTracking.p_description goal with
     | Some x => x
     | None => GoalTracking.description existing
     end)
    (match InsertGoalTracking.p_targetValue goal with
     | Some x => x
     | None => GoalTracking.targetValue existing
     end)
    (match InsertGoalTracking.p_currentValue goal with
     | Some x => x
     | None => GoalTracking.currentValue existing
     end)
    (match InsertGoalTracking.p_unit goal with
     | Some x => x
     | None => GoalTracking.unit existing
     end)
    (match InsertGoalTracking.p_deadline goal with
     | Some x => x
     | None => GoalTracking.deadline existing
     end)
    (match InsertGoalTracking.p_category goal with
     | Some x => x
     | None => GoalTracking.category existing
     end)
    (GoalTracking.isActive existing).

Definition updateGoal (st : t) (id : Z) (goal : InsertGoalTracking.partial)
  : option GoalTracking.t * t :=
  match JSMap.get Z.eqb id (goals st) with
  | None => (None, st)
  | Some existing =>
      let updated := mergeGoal existing goal in
      (Some updated,
       setGoals st (JSMap.set Z.eqb id updated (goals st)) (currentGoalId st))
  end.

Definition deleteGoal (st : t) (id : Z) : bool * t :=
  match JSMap.get Z.eqb id (goals st) with
  | None => (false, st)
  | Some goal =>
      let updated := GoalTracking.deactivate goal in
      (true, setGoals st (JSMap.set Z.eqb id updated (goals st)) (currentGoalId st))
  end.

(** [new Date(Date.now() + n * 24 * 60 * 60 * 1000).toISOString().split('T')[0]]
    where [today] is the day number of [Date.now()]; the clock is within
    the range of [Date]. *)
Definition daysFromNow (today n : Z) : string := JSDate.isoDateOfDay (today + n).

(** The constructor: the three default goals. *)
Definition defaultGoals (today : Z) : list InsertGoalTracking.t :=
  [ InsertGoalTracking.mk "Monthly Profit Target"
      (Some "Achieve consistent monthly profits")
      "5000" (Some "0") "USD" (Some (daysFromNow today 30)) "profit";
    InsertGoalTracking.mk "Maximum Daily Loss Limit"
      (Some "Never lose more than 2% of account in a single day")
      "2" (Some "0") "percent" (Some (daysFromNow today 365)) "risk";
    InsertGoalTracking.mk "Trading Journal Consistency"
      (Some "Log every trade with detailed analysis")
      "100" (Some "0") "percent" (Some (daysFromNow today 90)) "discipline" ].

(** The body of its loop is the body of [createGoal]. *)
Definition initializeDefaultGoals (today : Z) (st : t) : t :=
  fold_left (fun s goal => snd (createGoal s goal)) (defaultGoals today) st.

Definition new (today : Z) : t := initializeDefaultGoals today empty.

(** *** Risk metrics *)

Definition getRiskMetrics (st : t) (date : string) : option RiskMetrics.t :=
  JSMap.get String.eqb date (riskMetrics st).

Definition setRisk (st : t) (m : JSMap.t string RiskMetrics.t) (next : Z) : t :=
  mk (emotionalCheckIns st) (journalEntries st) (goals st) m
     (currentCheckInId st) (currentJournalId st) (currentGoalId st) next.

(** [x || null] on an optional nullable field. *)
Definition fieldOrNull (x : option (option string)) : option string :=
  match x with
  | Some v => JSString.orNull v
  | None => None
  end.

(** A field of [{ ...existing, ...metrics }]. *)
Definition overwrite (old : option string) (x : option (option string))
  : option string :=
  match x with
  | Some v => v
  | None => old
  end.

Definition createOrUpdateRiskMetrics (st : t) (metrics : InsertRiskMetrics.t)
  : RiskMetrics.t * t :=
  match JSMap.get String.eqb (InsertRiskMetrics.date metrics) (riskMetrics st) with
  | Some existing =>
      let updated :=
        RiskMetrics.mk (RiskMetrics.id existing) (InsertRiskMetrics.date metrics)
          (overwrite (RiskMetrics.accountBalance existing)
                     (InsertRiskMetrics.accountBalance metrics))
          (overwrite (RiskMetrics.maxDrawdown existing)
                     (InsertRiskMetrics.maxDrawdown metrics))
          (overwrite (RiskMetrics.dailyRisk existing)
                     (InsertRiskMetrics.dailyRisk metrics))
          (overwrite (RiskMetrics.positionSize existing)
                     (InsertRiskMetrics.positionSize metrics))
          (overwrite (RiskMetrics.riskRewardRatio existing)
                     (InsertRiskMetrics.riskRewardRatio metrics)) in
      (updated,
       setRisk st
         (JSMap.set String.eqb (InsertRiskMetrics.date metrics) updated (riskMetrics st))
         (currentRiskId st))
  | None =>
      let newMetrics :=
        RiskMetrics.mk (currentRiskId st) (InsertRiskMetrics.date metrics)
          (fieldOrNull (InsertRiskMetrics.accountBalance metrics))
          (fieldOrNull (InsertRiskMetrics.maxDrawdown metrics))
          (fieldOrNull (InsertRiskMetrics.dailyRisk metrics))
          (fieldOrNull (InsertRiskMetrics.positionSize metrics))
          (fieldOrNull (InsertRiskMetrics.riskRewardRatio metrics)) in
      (newMetrics,
       setRisk st
         (JSMap.set String.eqb (InsertRiskMetrics.date metrics) newMetrics
                    (riskMetrics st))
         (currentRiskId st + 1))
  end.

End MemRecords.

(** [class DatabaseStorage], continued: the goal queries and the soft
    delete of a goal, on the rows of the goal table. *)
Module DatabaseGoals.

Definition t : Type := list GoalTracking.t.

Definition getGoals (rows : t) : list GoalTracking.t :=
  JSArray.sort (fun a b => String.compare (GoalTracking.title a) (GoalTracking.title b))
    (filter GoalTracking.isActive rows).

Definition getGoal (rows : t) (id : Z) : option GoalTracking.t :=
  hd_error (filter (fun g => GoalTracking.id g =? id) rows).

(** [update(goalTracking).set({ isActive: false }).where(eq(goalTracking.id, id))] *)
Definition deleteGoal (rows : t) (id : Z) : bool * t :=
  (0 <? JSArray.length (filter (fun g => GoalTracking.id g =? id) rows),
   map (fun g => if GoalTracking.id g =? id then GoalTracking.deactivate g else g) rows).

End DatabaseGoals.

(* ===================================================================== *)
(** ** The dashboard's summary figures *)
(* ===================================================================== *)

(** The two figures that the dashboard component derives from the
    responses of [getHabitsWithStats] and [getWeeklyProgress]. *)
Module Dashboard.

Import JSNumber.

(** [Math.max(...xs)] on counts; [None] is -Infinity. *)
Definition mathMax (xs : list Z) : option Z :=
  fold_left (fun acc x => match acc with
                          | Some a => Some (Z.max a x)
                          | None => Some x
                          end) xs None.

(** [habits.length > 0 ? Math.max(...habits.map(h => h.currentStreak)) : 0] *)
Definition currentStreak (habits : list HabitWithStats.t) : option Z :=
  if 0 <? JSArray.length habits
  then mathMax (map HabitWithStats.currentStreak habits)
  else Some 0.

Definition weeklyCompletionRate (weeklyProgress : list WeeklyEntry.t) : number :=
  if 0 <? JSArray.length weeklyProgress
  then round (div (fold_left (fun sum day => add sum (WeeklyEntry.completionRate day))
                             weeklyProgress (ofZ 0))
                  (ofZ (JSArray.length weeklyProgress)))
  else ofZ 0.

End Dashboard.


(* ===================================================================== *)
(** ** Vocabulary of the properties *)
(* ===================================================================== *)

Module Spec.

Import JSNumber.

(** Days of the 1-based month [m] of year [y]. *)
Definition DaysInMonth (y m : Z) : Z :=
  match m with
  | 1 | 3 | 5 | 7 | 8 | 10 | 12 => 31
  | 4 | 6 | 9 | 11 => 30
  | 2 => if JSDate.InLeapYear y then 29 else 28
  | _ => 0
  end.

(** The canonical string [YYYY-MM-DD] of a calendar day. *)
Definition dateString (y m d : Z) : string :=
  (JSString.fixedDigits 4 y "" ++ "-" ++ JSString.fixedDigits 2 m "" ++ "-"
   ++ JSString.fixedDigits 2 d "")%string.

(** The day numbers [s, s+1, ..., e]. *)
Definition dayRange (s e : Z) : list Z :=
  map (fun i => s + Z.of_nat i) (seq 0 (Z.to_nat (e - s + 1))).

(** The days [1 .. n] of a month. *)
Definition monthDays (n : Z) : list Z :=
  map Z.of_nat (seq 1 (Z.to_nat n)).

(** Days of the years 0000..9999: the years that print with four digits. *)
Definition fourDigitDay (t : Z) : Prop :=
  JSDate.DayFromYear 0 <= t < JSDate.DayFromYear 10000.


(** How many elements of [l] satisfy [p]. *)
Definition countIf (A : Type) (p : A -> bool) (l : list A) : Z :=
  Z.of_nat (List.length (filter p l)).



(** Whether the store holds a completed record of habit [id] on [dateStr]. *)
Definition memCompleted (st : MemStorage.t) (id : Z) (dateStr : string) : bool :=
  Common.isCompleted (MemStorage.getHabitCompletion st id dateStr).

Definition dbCompleted (db : DatabaseStorage.t) (id : Z) (dateStr : string) : bool :=
  Common.isCompleted (DatabaseStorage.getHabitCompletion db id dateStr).


(** *** The in-memory store as a transition system *)

(** The operations that change a [MemStorage]. *)
Inductive memOp : Type :=
| CreateHabit (insertHabit : InsertHabit.t)
| UpdateHabit (id : Z) (updates : InsertHabit.partial)
| DeleteHabit (id : Z)
| PutCompletion (completion : InsertHabitCompletion.t)
| CreateTrade (review : InsertTradeReview.t)
| UpdateTrade (id : Z) (review : InsertTradeReview.partial)
| DeleteTrade (id : Z).

Definition memStep (st : MemStorage.t) (op : memOp) : MemStorage.t :=
  match op with
  | CreateHabit i => snd (MemStorage.createHabit st i)
  | UpdateHabit id u => snd (MemStorage.updateHabit st id u)
  | DeleteHabit id => snd (MemStorage.deleteHabit st id)
  | PutCompletion c => snd (MemStorage.createOrUpdateHabitCompletion st c)
  | CreateTrade r => snd (MemStorage.createTradeReview st r)
  | UpdateTrade id r => snd (MemStorage.updateTradeReview st id r)
  | DeleteTrade id => snd (MemStorage.deleteTradeReview st id)
  end.

Definition memRun (ops : list memOp) (st : MemStorage.t) : MemStorage.t :=
  fold_left memStep ops st.

(** The states a store can be in: those reached from [new MemStorage()]. *)
Definition memReachable (st : MemStorage.t) : Prop :=
  exists ops, st = memRun ops MemStorage.new.

(** Every entry of a map sits under the key its value names, below the
    next identifier, and no key occurs twice. *)
Definition keyedBy (V : Type) (key : V -> Z) (next : Z) (m : JSMap.t Z V) : Prop :=
  (forall k v, In (k, v) m -> key v = k /\ k < next) /\ NoDup (JSMap.keys m).

Definition memInvariant (st : MemStorage.t) : Prop :=
  keyedBy Habit.id (MemStorage.currentHabitId st) (MemStorage.habits st)
  /\ keyedBy TradeReview.id (MemStorage.currentTradeId st) (MemStorage.tradeReviews st)
  /\ (forall k c, In (k, c) (MemStorage.habitCompletions st) ->
        k = MemStorage.completionKey (HabitCompletion.habitId c) (HabitCompletion.date c))
  /\ NoDup (JSMap.keys (MemStorage.habitCompletions st)).



(** The trades other than trade [id]. *)
Definition withoutTrade (id : Z) (trades : list TradeReview.t) : list TradeReview.t :=
  filter (fun t => negb (TradeReview.id t =? id)) trades.

(** *** Runs of full days *)

(** The day's completion rate is 100. *)
Definition fullDay (x : WeeklyEntry.t) : bool :=
  JSNumber.eqb (WeeklyEntry.completionRate x) (ofZ 100).

(** Length of the run of [p]-elements at the head of [l]. *)
Fixpoint runFrom (A : Type) (p : A -> bool) (l : list A) : Z :=
  match l with
  | [] => 0
  | x :: r => if p x then 1 + runFrom p r else 0
  end.

(** Length of the longest run of consecutive [p]-elements of [l]. *)
Fixpoint maxRun (A : Type) (p : A -> bool) (l : list A) : Z :=
  match l with
  | [] => 0
  | x :: r => Z.max (runFrom p l) (maxRun p r)
  end.

(** The [n] elements of [l] from position [i] on. *)
Definition window (A : Type) (i n : nat) (l : list A) : list A :=
  firstn n (skipn i l).

(** *** Trades *)

(** The trade has a profit-and-loss value that parses as a number. *)
Definition hasPnL (t : TradeReview.t) : bool := negb (isNaN (Common.pnlValue t)).

Definition isWin (t : TradeReview.t) : bool := gtb (Common.pnlValue t) (ofZ 0).
Definition isLoss (t : TradeReview.t) : bool := ltb (Common.pnlValue t) (ofZ 0).

(** The value, if there is one, is finite. *)
Definition finiteOrAbsent (t : TradeReview.t) : bool :=
  match Common.pnlValue t with
  | PInf | NInf => false
  | _ => true
  end.

(** The finite profit-and-loss value of a trade. *)
Definition value (t : TradeReview.t) : Q :=
  match Common.pnlValue t with
  | Num q => q
  | _ => 0%Q
  end.

Definition qsum (l : list Q) : Q := fold_right Qplus 0%Q l.

(** Sum of the winning values, and of the absolute losing values. *)
Definition winSum (trades : list TradeReview.t) : Q :=
  qsum (map value (filter isWin trades)).

Definition lossSum (trades : list TradeReview.t) : Q :=
  qsum (map (fun t => Qabs (value t)) (filter isLoss trades)).

(** A rational rounded to two decimal places, halves upwards. *)
Definition roundTo2 (x : Q) : Q :=
  (inject_Z (Qfloor (x * 100 + (1 # 2))) / 100)%Q.

(** The trade is dated within [s .. e], by the order of the strings. *)
Definition inRange (s e : string) (t : TradeReview.t) : bool :=
  JSString.le s (TradeReview.date t) && JSString.le (TradeReview.date t) e.

(** [Math.round(a / b * 100)] on two counts, in integer arithmetic. *)
Definition roundedPercent (a b : Z) : Z := (200 * a + b) / (2 * b).

End Spec.

(** Devices of the proofs. *)
Module Aux.


Fixpoint allDigits (s : string) : bool :=
  match s with
  | EmptyString => true
  | String c r => JSString.isDigit c && allDigits r
  end.

End Aux.

(** Proof automation. *)

(** Evaluate the month tables at a literal month, leaving sums alone. *)
Ltac month_norm :=
  repeat match goal with
         | H : context [Z.add ?a 1] |- _ =>
             lazymatch a with 0 => idtac | Z.pos _ => idtac end;
             let v := eval vm_compute in (a + 1) in
             change (a + 1) with v in H
         | |- context [Z.add ?a 1] =>
             lazymatch a with 0 => idtac | Z.pos _ => idtac end;
             let v := eval vm_compute in (a + 1) in
             change (a + 1) with v
         end;
  cbv beta iota delta [JSDate.monthStart Spec.DaysInMonth] in *;
  repeat match goal with
         | H : JSDate.InLeapYear ?y = _ |- _ => rewrite H in *
         end.


(** Further vocabulary: both back ends on the same data, tags, orders. *)
Module Props.

Import JSNumber.

(** The tables of the relational store that hold the records of an
    in-memory store, in the order of their insertion. *)
Definition tablesOf (st : MemStorage.t) : DatabaseStorage.t :=
  DatabaseStorage.mk (JSMap.values (MemStorage.habits st))
                     (JSMap.values (MemStorage.habitCompletions st))
                     (JSMap.values (MemStorage.tradeReviews st)).




(** Every profit-and-loss string that is not empty parses to a finite
    number. *)
Definition cleanPnL (t : TradeReview.t) : bool :=
  negb (JSString.truthyOpt (TradeReview.pnl t)) || isFinite (Common.pnlValue t).

(** A whole number of percent between 0 and 100. *)
Definition isPercent (x : number) : Prop :=
  exists n, x = ofZ n /\ 0 <= n <= 100.


End Props.

(** Vocabulary of the completion rates. *)
Module Rates.

(** The completion rate of a day, in whole percent: the share of the
    habits of [habits] that have a completed record on [dateStr]. *)
Definition dayRate (completed : Z -> string -> bool) (habits : list Habit.t)
    (dateStr : string) : Z :=
  if 0 <? JSArray.length habits
  then Spec.roundedPercent
         (Spec.countIf (fun h => completed (Habit.id h) dateStr) habits)
         (JSArray.length habits)
  else 0.

Definition zsum (l : list Z) : Z := fold_right Z.add 0 l.



(** The mean of whole numbers, rounded half up to a whole number. *)
Definition roundedMean (zs : list Z) : Z :=
  if 0 <? JSArray.length zs
  then (2 * zsum zs + JSArray.length zs) / (2 * JSArray.length zs)
  else 0.

End Rates.

(** The goals and the daily records as a transition system. *)
Module Records.

(** The operations that change the goals and the daily records. *)
Inductive recOp : Type :=
| PutCheckIn (checkIn : InsertEmotionalCheckIn.t)
| PutJournal (entry : InsertJournalEntry.t)
| CreateGoal (goal : InsertGoalTracking.t)
| UpdateGoal (id : Z) (goal : InsertGoalTracking.partial)
| DeleteGoal (id : Z)
| PutRisk (metrics : InsertRiskMetrics.t).

Definition recStep (st : MemRecords.t) (op : recOp) : MemRecords.t :=
  match op with
  | PutCheckIn c => snd (MemRecords.createOrUpdateEmotionalCheckIn st c)
  | PutJournal e => snd (MemRecords.createOrUpdateJournalEntry st e)
  | CreateGoal g => snd (MemRecords.createGoal st g)
  | UpdateGoal id g => snd (MemRecords.updateGoal st id g)
  | DeleteGoal id => snd (MemRecords.deleteGoal st id)
  | PutRisk m => snd (MemRecords.createOrUpdateRiskMetrics st m)
  end.

Definition recRun (ops : list recOp) (st : MemRecords.t) : MemRecords.t :=
  fold_left recStep ops st.

(** The states reached from the constructor, run on some day [today]. *)
Definition recReachable (st : MemRecords.t) : Prop :=
  exists today ops, st = recRun ops (MemRecords.new today).

(** Every record of a map keyed by date carries the date of its key, has
    an identifier below the next one, and no date occurs twice. *)
Definition datedBy (V : Type) (date : V -> string) (id : V -> Z) (next : Z)
    (m : JSMap.t string V) : Prop :=
  (forall k v, In (k, v) m -> date v = k /\ id v < next) /\ NoDup (JSMap.keys m).

Definition recInvariant (st : MemRecords.t) : Prop :=
  Spec.keyedBy GoalTracking.id (MemRecords.currentGoalId st) (MemRecords.goals st)
  /\ datedBy EmotionalCheckIn.date EmotionalCheckIn.id
        (MemRecords.currentCheckInId st) (MemRecords.emotionalCheckIns st)
  /\ datedBy JournalEntry.date JournalEntry.id
        (MemRecords.currentJournalId st) (MemRecords.journalEntries st)
  /\ datedBy RiskMetrics.date RiskMetrics.id
        (MemRecords.currentRiskId st) (MemRecords.riskMetrics st).

(** A field after [{ ...existing, ...metrics }]: the given value, or the
    old one when the field is absent. *)
Definition merged (old : option string) (given : option (option string))
    (now : option string) : Prop :=
  (given = None -> now = old) /\ (forall v, given = Some v -> now = v).

(** A field of a new record after [given || null]: the given string when
    it is not empty, null otherwise. *)
Definition normalised (given : option (option string)) (now : option string) : Prop :=
  now <> Some ""
  /\ (forall v, given = Some (Some v) -> v <> "" -> now = Some v)
  /\ (given = None \/ given = Some None \/ given = Some (Some "") -> now = None).

End Records.


(* ===================================================================== *)
(** ** Example stores *)
(* ===================================================================== *)

Module Examples.

(** The first default habit. *)
Definition habit1 : Habit.t :=
  Habit.mk 1 "Avoid Overtrading"
    (Some "Maximum 3 trades per day, focus on quality over quantity")
    "Risk Management" true.

(** A fresh in-memory store in which habit 1 was completed on the last of
    February and the first of March 2024. *)
Definition mem1 : MemStorage.t :=
  snd (MemStorage.createOrUpdateHabitCompletion
         (snd (MemStorage.createOrUpdateHabitCompletion MemStorage.new
                 (InsertHabitCompletion.mk 1 "2024-02-29" (Some true))))
         (InsertHabitCompletion.mk 1 "2024-03-01" (Some true))).


(** One active habit (the other three default habits deleted), completed
    on 2024-02-28 and 2024-02-29 and on 2024-03-01. *)
Definition memOneHabit : MemStorage.t :=
  let s1 := snd (MemStorage.deleteHabit MemStorage.new 2) in
  let s2 := snd (MemStorage.deleteHabit s1 3) in
  let s3 := snd (MemStorage.deleteHabit s2 4) in
  let s4 := snd (MemStorage.createOrUpdateHabitCompletion s3
                   (InsertHabitCompletion.mk 1 "2024-02-28" (Some true))) in
  let s5 := snd (MemStorage.createOrUpdateHabitCompletion s4
                   (InsertHabitCompletion.mk 1 "2024-02-29" (Some true))) in
  snd (MemStorage.createOrUpdateHabitCompletion s5
         (InsertHabitCompletion.mk 1 "2024-03-01" (Some true))).

Definition dbOneHabit : DatabaseStorage.t :=
  DatabaseStorage.mk (JSMap.values (MemStorage.habits memOneHabit))
                     (JSMap.values (MemStorage.habitCompletions memOneHabit)) [].

(** The trades of the worked example of the specification, and one trade
    without a profit-and-loss value. *)
Definition tradeInputs : list InsertTradeReview.t :=
  [ InsertTradeReview.mk "2024-01-02" (Some "100") (Some "calm");
    InsertTradeReview.mk "2024-01-03" (Some "-50") (Some "anxious");
    InsertTradeReview.mk "2024-01-03" (Some "-50") None;
    InsertTradeReview.mk "2024-01-04" None (Some "calm") ].

Definition memTrades : MemStorage.t :=
  fold_left (fun s r => snd (MemStorage.createTradeReview s r)) tradeInputs
            MemStorage.new.

Definition dbTrades : DatabaseStorage.t :=
  DatabaseStorage.mk [] [] (JSMap.values (MemStorage.tradeReviews memTrades)).

(** A single winning trade. *)
Definition memOneWin : MemStorage.t :=
  snd (MemStorage.createTradeReview MemStorage.new
         (InsertTradeReview.mk "2024-01-02" (Some "100") None)).

Definition dbOneWin : DatabaseStorage.t :=
  DatabaseStorage.mk [] [] (JSMap.values (MemStorage.tradeReviews memOneWin)).

(** A winning trade and a trade whose profit-and-loss column holds the
    value NaN of the numeric column type. *)
Definition memNaNPnL : MemStorage.t :=
  snd (MemStorage.createTradeReview memOneWin
         (InsertTradeReview.mk "2024-01-03" (Some "NaN") None)).

Definition dbNaNPnL : DatabaseStorage.t :=
  DatabaseStorage.mk [] [] (JSMap.values (MemStorage.tradeReviews memNaNPnL)).



End Examples.
(** Example stores of check-ins, goals and risk metrics, created on
    2024-03-01 (day 19783). *)
Module Samples.

(** A mood was recorded on the first of March. *)
Definition checkedIn : MemRecords.t :=
  snd (MemRecords.createOrUpdateEmotionalCheckIn (MemRecords.new 19783)
         (InsertEmotionalCheckIn.mk "2024-03-01" "good")).

(** The account balance and the daily risk were recorded on that day. *)
Definition withRisk : MemRecords.t :=
  snd (MemRecords.createOrUpdateRiskMetrics (MemRecords.new 19783)
         (InsertRiskMetrics.mk "2024-03-01" (Some (Some "10000")) None
            (Some (Some "1.5")) None None)).

(** The statistics of two habits, and a week of completion rates. *)
Definition twoHabits : list HabitWithStats.t :=
  [ HabitWithStats.mk Examples.habit1 3 (JSNumber.ofZ 10) true 3 (Some 31);
    HabitWithStats.mk (Habit.mk 2 "Honor Stop Losses" None "Risk Management" true)
      5 (JSNumber.ofZ 16) true 5 (Some 31) ].

Definition weekRates : list Z := [100; 50; 0; 25; 75; 100; 33].

Definition week : list WeeklyEntry.t :=
  map (fun z => WeeklyEntry.mk "" (JSNumber.ofZ z)) weekRates.

End Samples.

(* ===================================================================== *)
(** * Properties *)
(* ===================================================================== *)

Unset Implicit Arguments.
Local Open Scope list_scope.

(** ** The calendar *)

Section Calendar.
Import JSDate.

Lemma DayFromYear_succ (y : Z) :
  DayFromYear (y + 1) = DayFromYear y + DaysInYear y.
Proof.
  unfold DayFromYear, DaysInYear, leapDays, InLeapYear.
  destruct (y mod 4 =? 0) eqn:E4; destruct (y mod 100 =? 0) eqn:E100;
    destruct (y mod 400 =? 0) eqn:E400; cbn [andb orb negb];
    rewrite ?Z.eqb_eq, ?Z.eqb_neq in *;
    Z.div_mod_to_equations; lia.
Qed.

Lemma DaysInYear_pos (y : Z) : 365 <= DaysInYear y <= 366.
Proof. unfold DaysInYear, leapDays. destruct (InLeapYear y); lia. Qed.

Lemma DayFromYear_mono (y y' : Z) : y <= y' -> DayFromYear y <= DayFromYear y'.
Proof.
  intros H. unfold DayFromYear. Z.div_mod_to_equations. lia.
Qed.

Lemma DayFromYear_lt (y y' : Z) : y < y' -> DayFromYear y < DayFromYear y'.
Proof.
  intros H. assert (H1 : y + 1 <= y') by lia.
  apply DayFromYear_mono in H1. rewrite DayFromYear_succ in H1.
  pose proof (DaysInYear_pos y). lia.
Qed.

Lemma YearFromDay_spec (d : Z) :
  DayFromYear (YearFromDay d) <= d < DayFromYear (YearFromDay d + 1).
Proof.
  unfold YearFromDay.
  set (y0 := 1970 + 400 * d / 146097).
  assert (Hlo : DayFromYear (y0 - 1) <= d).
  { unfold DayFromYear, y0. Z.div_mod_to_equations. lia. }
  assert (Hhi : d < DayFromYear (y0 + 2)).
  { unfold DayFromYear, y0. Z.div_mod_to_equations. lia. }
  destruct (d <? DayFromYear y0) eqn:E1.
  - apply Z.ltb_lt in E1. replace (y0 - 1 + 1) with y0 by lia. lia.
  - apply Z.ltb_ge in E1.
    destruct (DayFromYear (y0 + 1) <=? d) eqn:E2.
    + apply Z.leb_le in E2. replace (y0 + 1 + 1) with (y0 + 2) by lia. lia.
    + apply Z.leb_gt in E2. lia.
Qed.

Lemma YearFromDay_unique (d y : Z) :
  DayFromYear y <= d < DayFromYear (y + 1) -> YearFromDay d = y.
Proof.
  intros [Hlo Hhi]. pose proof (YearFromDay_spec d) as [Slo Shi].
  destruct (Z.lt_trichotomy (YearFromDay d) y) as [L | [E | G]]; [| exact E |].
  - assert (H : YearFromDay d + 1 <= y) by lia.
    apply DayFromYear_mono in H. lia.
  - assert (H : y + 1 <= YearFromDay d) by lia.
    apply DayFromYear_mono in H. lia.
Qed.

End Calendar.

Section CalendarFields.
Import JSDate.

Lemma leapDays_range (y : Z) : 0 <= leapDays y <= 1.
Proof. unfold leapDays. destruct (InLeapYear y); lia. Qed.

Lemma DayWithinYear_range (d : Z) :
  0 <= DayWithinYear d < DaysInYear (YearFromDay d).
Proof.
  unfold DayWithinYear. pose proof (YearFromDay_spec d) as [Hlo Hhi].
  rewrite DayFromYear_succ in Hhi. lia.
Qed.

Lemma monthOfDayInYear_range (k l : Z) : 0 <= monthOfDayInYear k l <= 11.
Proof.
  unfold monthOfDayInYear.
  repeat match goal with |- context [if ?b then _ else _] => destruct b end; lia.
Qed.

Lemma MonthFromDay_range (d : Z) : 0 <= MonthFromDay d <= 11.
Proof. apply monthOfDayInYear_range. Qed.

(** The month found for a day-within-year is the one whose days contain it. *)
Lemma monthOfDayInYear_bounds (k l : Z) :
  0 <= l <= 1 -> 0 <= k < 365 + l ->
  let m := monthOfDayInYear k l in
  monthStart m l <= k /\ (m < 11 -> k < monthStart (m + 1) l).
Proof.
  intros Hl Hk. unfold monthOfDayInYear.
  assert (Hc : l = 0 \/ l = 1) by lia.
  destruct Hc; subst l;
  repeat match goal with
         | |- context [if ?a <? ?b then _ else _] =>
             let E := fresh "E" in
             destruct (a <? b) eqn:E;
             [apply Z.ltb_lt in E | apply Z.ltb_ge in E]
         end; cbn in *; lia.
Qed.

Lemma DateFromDay_pos (d : Z) : 1 <= DateFromDay d <= 31.
Proof.
  unfold DateFromDay, MonthFromDay.
  pose proof (DayWithinYear_range d) as Hk. unfold DaysInYear in Hk.
  pose proof (leapDays_range (YearFromDay d)) as Hl.
  pose proof (monthOfDayInYear_bounds _ _ Hl Hk) as [B1 B2].
  cbv zeta in B1, B2.
  pose proof (monthOfDayInYear_range (DayWithinYear d) (leapDays (YearFromDay d))) as Hm.
  generalize dependent (monthOfDayInYear (DayWithinYear d) (leapDays (YearFromDay d))).
  generalize dependent (DayWithinYear d).
  generalize dependent (leapDays (YearFromDay d)).
  intros l Hl k Hk m B1 B2 Hm.
  assert (Hc : m = 0 \/ m = 1 \/ m = 2 \/ m = 3 \/ m = 4 \/ m = 5 \/ m = 6 \/ m = 7
               \/ m = 8 \/ m = 9 \/ m = 10 \/ m = 11) by lia.
  assert (Hc' : l = 0 \/ l = 1) by lia.
  destruct Hc'; subst l;
  repeat (destruct Hc as [Hc | Hc]; [subst m; cbn in *; lia |]);
  subst m; cbn in *; lia.
Qed.

(** Setting the day of the month moves the date by the difference. *)
Lemma MakeDay_fields (d n : Z) :
  MakeDay (YearFromDay d) (MonthFromDay d) n = d + (n - DateFromDay d).
Proof.
  unfold MakeDay. pose proof (MonthFromDay_range d) as Hm.
  rewrite (Z.div_small (MonthFromDay d) 12) by lia.
  rewrite (Z.mod_small (MonthFromDay d) 12) by lia.
  rewrite Z.add_0_r. unfold DateFromDay, DayWithinYear. lia.
Qed.

Lemma addDays_Some (d k : Z) : addDays (Some d) k = TimeClip (d + k).
Proof.
  unfold addDays, setDate, getDate. cbn. rewrite MakeDay_fields. f_equal. lia.
Qed.

Lemma MakeDay_month (y m dt : Z) :
  0 <= m <= 11 ->
  MakeDay y m dt = DayFromYear y + monthStart m (leapDays y) + dt - 1.
Proof.
  intros Hm. unfold MakeDay.
  rewrite (Z.div_small m 12), (Z.mod_small m 12) by lia.
  rewrite Z.add_0_r. reflexivity.
Qed.

Lemma DaysInMonth_monthStart (y m : Z) :
  0 <= m <= 11 ->
  monthStart m (leapDays y) + Spec.DaysInMonth y (m + 1)
  = if m =? 11 then DaysInYear y else monthStart (m + 1) (leapDays y).
Proof.
  intros Hm. unfold Spec.DaysInMonth, DaysInYear, leapDays.
  assert (Hc : m = 0 \/ m = 1 \/ m = 2 \/ m = 3 \/ m = 4 \/ m = 5 \/ m = 6 \/ m = 7
               \/ m = 8 \/ m = 9 \/ m = 10 \/ m = 11) by lia.
  repeat (destruct Hc as [Hc | Hc];
          [subst m; cbn; destruct (InLeapYear y); reflexivity |]).
  subst m; cbn; destruct (InLeapYear y); reflexivity.
Qed.

Lemma DaysInMonth_range (y m : Z) :
  1 <= m <= 12 -> 28 <= Spec.DaysInMonth y m <= 31.
Proof.
  intros Hm. unfold Spec.DaysInMonth.
  assert (Hc : m = 1 \/ m = 2 \/ m = 3 \/ m = 4 \/ m = 5 \/ m = 6 \/ m = 7
               \/ m = 8 \/ m = 9 \/ m = 10 \/ m = 11 \/ m = 12) by lia.
  repeat (destruct Hc as [Hc | Hc];
          [subst m; cbn; destruct (InLeapYear y); lia |]).
  subst m; cbn; lia.
Qed.

(** The calendar fields of the day built from valid fields are those fields. *)
Lemma fields_of_MakeDay (y m dt : Z) :
  0 <= m <= 11 -> 1 <= dt <= Spec.DaysInMonth y (m + 1) ->
  YearFromDay (MakeDay y m dt) = y
  /\ MonthFromDay (MakeDay y m dt) = m
  /\ DateFromDay (MakeDay y m dt) = dt.
Proof.
  intros Hm Hd. rewrite MakeDay_month by exact Hm.
  assert (Hc : m = 0 \/ m = 1 \/ m = 2 \/ m = 3 \/ m = 4 \/ m = 5 \/ m = 6
               \/ m = 7 \/ m = 8 \/ m = 9 \/ m = 10 \/ m = 11) by lia.
  assert (Hk : 0 <= monthStart m (leapDays y) + dt - 1 < 365 + leapDays y).
  { unfold leapDays in *.
    destruct (InLeapYear y) eqn:EL;
    repeat (destruct Hc as [Hc | Hc]; [subst m; month_norm; lia |]);
    subst m; month_norm; lia. }
  set (d := DayFromYear y + monthStart m (leapDays y) + dt - 1).
  assert (HY : YearFromDay d = y).
  { apply YearFromDay_unique. rewrite DayFromYear_succ. unfold DaysInYear, d. lia. }
  assert (HK : DayWithinYear d = monthStart m (leapDays y) + dt - 1).
  { unfold DayWithinYear. rewrite HY. unfold d. lia. }
  clearbody d.
  assert (HM : MonthFromDay d = m).
  { unfold MonthFromDay. rewrite HY, HK. clear HY HK Hk.
    unfold monthOfDayInYear, leapDays in *.
    destruct (InLeapYear y) eqn:EL;
    repeat (destruct Hc as [Hc | Hc];
      [subst m; month_norm;
       repeat match goal with
              | |- context [if ?a <? ?b then _ else _] =>
                  let E := fresh "E" in
                  destruct (a <? b) eqn:E;
                  [apply Z.ltb_lt in E | apply Z.ltb_ge in E]
              end; lia |]);
    subst m; month_norm;
       repeat match goal with
              | |- context [if ?a <? ?b then _ else _] =>
                  let E := fresh "E" in
                  destruct (a <? b) eqn:E;
                  [apply Z.ltb_lt in E | apply Z.ltb_ge in E]
              end; lia. }
  split; [exact HY | split; [exact HM |]].
  unfold DateFromDay. rewrite HM, HY, HK. lia.
Qed.

End CalendarFields.

(** ** Decimal renderings *)

Section Digits.
Import JSString.

Lemma digitChar_code (a : Z) :
  0 <= a <= 9 -> N_of_ascii (digitChar a) = (48 + Z.to_N a)%N.
Proof.
  intros H. unfold digitChar. apply N_ascii_embedding. lia.
Qed.


Lemma digitVal_range (c : ascii) (a : Z) : digitVal c = Some a -> 0 <= a <= 9.
Proof.
  unfold digitVal.
  destruct ((48 <=? Z.of_N (N_of_ascii c)) && (Z.of_N (N_of_ascii c) <=? 57)) eqn:E;
    [| discriminate].
  intros H. injection H as <-. apply andb_prop in E as [E1 E2].
  apply Z.leb_le in E1, E2. lia.
Qed.



(** The digits of a fixed-width rendering, most significant first. *)
Lemma fixedDigits2_digits (n : Z) :
  0 <= n <= 99 ->
  exists a b, 0 <= a <= 9 /\ 0 <= b <= 9 /\ n = 10 * a + b
    /\ forall acc, fixedDigits 2 n acc = String (digitChar a) (String (digitChar b) acc).
Proof.
  intros H. exists (n / 10), (n mod 10).
  repeat split; try (Z.div_mod_to_equations; lia).
  intros acc. cbn [fixedDigits]. f_equal. f_equal.
  rewrite Z.mod_small; [reflexivity | Z.div_mod_to_equations; lia].
Qed.

Lemma fixedDigits4_digits (n : Z) :
  0 <= n <= 9999 ->
  exists a b c d, 0 <= a <= 9 /\ 0 <= b <= 9 /\ 0 <= c <= 9 /\ 0 <= d <= 9
    /\ n = 1000 * a + 100 * b + 10 * c + d
    /\ forall acc, fixedDigits 4 n acc
         = String (digitChar a) (String (digitChar b)
             (String (digitChar c) (String (digitChar d) acc))).
Proof.
  intros H.
  exists (n / 10 / 10 / 10), (n / 10 / 10 mod 10), (n / 10 mod 10), (n mod 10).
  repeat split; try (Z.div_mod_to_equations; lia).
  intros acc. cbn [fixedDigits]. f_equal.
  rewrite Z.mod_small; [reflexivity | Z.div_mod_to_equations; lia].
Qed.








End Digits.

(** ** ISO date strings *)

Section IsoDates.
Import JSDate JSString.

Lemma TimeClip_Some (d : Z) : Z.abs d <= 100000000 -> TimeClip d = Some d.
Proof.
  intros H. unfold TimeClip.
  destruct (Z.abs d <=? 100000000) eqn:E; [reflexivity |].
  apply Z.leb_gt in E. lia.
Qed.

Lemma TimeClip_inv (d t : Z) : TimeClip d = Some t -> t = d /\ Z.abs d <= 100000000.
Proof.
  unfold TimeClip. destruct (Z.abs d <=? 100000000) eqn:E; [| discriminate].
  intros H. injection H as <-. apply Z.leb_le in E. auto.
Qed.


Lemma fourDigit_year (t : Z) : Spec.fourDigitDay t -> 0 <= YearFromDay t <= 9999.
Proof.
  intros [H1 H2]. pose proof (YearFromDay_spec t) as [A1 A2]. split.
  - destruct (Z_le_gt_dec 0 (YearFromDay t)) as [L | G]; [exact L |].
    assert (H : YearFromDay t + 1 <= 0) by lia.
    apply DayFromYear_mono in H. lia.
  - destruct (Z_le_gt_dec (YearFromDay t) 9999) as [L | G]; [exact L |].
    assert (H : 10000 <= YearFromDay t) by lia.
    apply DayFromYear_mono in H. lia.
Qed.

Lemma fourDigit_clip (t : Z) : Spec.fourDigitDay t -> Z.abs t <= 99000000.
Proof.
  unfold Spec.fourDigitDay. intros [H1 H2].
  change (DayFromYear 0) with (-719528) in H1.
  change (DayFromYear 10000) with 2932897 in H2. lia.
Qed.

Lemma isoYear_four (y : Z) : 0 <= y <= 9999 -> isoYear y = fixedDigits 4 y "".
Proof.
  intros H. unfold isoYear.
  destruct (0 <=? y) eqn:E1; [| apply Z.leb_gt in E1; lia].
  destruct (y <=? 9999) eqn:E2; [reflexivity | apply Z.leb_gt in E2; lia].
Qed.

(** The day built from valid calendar fields prints as those fields. *)
Lemma isoDateOfDay_MakeDay (y m dt : Z) :
  0 <= y <= 9999 -> 0 <= m <= 11 -> 1 <= dt <= Spec.DaysInMonth y (m + 1) ->
  isoDateOfDay (MakeDay y m dt) = Spec.dateString y (m + 1) dt.
Proof.
  intros Hy Hm Hd. unfold isoDateOfDay, Spec.dateString.
  destruct (fields_of_MakeDay y m dt Hm Hd) as (-> & -> & ->).
  rewrite isoYear_four by exact Hy. reflexivity.
Qed.







Lemma digitVal_digitChar (a : Z) : 0 <= a <= 9 -> digitVal (digitChar a) = Some a.
Proof.
  intros H. unfold digitVal. rewrite digitChar_code by exact H.
  destruct ((48 <=? Z.of_N (48 + Z.to_N a)) && (Z.of_N (48 + Z.to_N a) <=? 57)) eqn:E.
  - f_equal. lia.
  - apply andb_false_iff in E as [E | E];
      [apply Z.leb_gt in E | apply Z.leb_gt in E]; lia.
Qed.

(** Reading back the printed date gives the day. *)
Lemma parse_isoDateOfDay (t : Z) :
  Spec.fourDigitDay t -> parse (isoDateOfDay t) = Some t.
Proof.
  intros Ht. unfold isoDateOfDay.
  pose proof (fourDigit_year t Ht) as Y1.
  rewrite isoYear_four by assumption.
  pose proof (MonthFromDay_range t) as M1.
  pose proof (DateFromDay_pos t) as D1.
  destruct (fixedDigits4_digits (YearFromDay t) Y1)
    as (a3 & a2 & a1 & a0 & ? & ? & ? & ? & Ey & ->).
  destruct (fixedDigits2_digits (MonthFromDay t + 1) ltac:(lia))
    as (m1 & m0 & ? & ? & Em & ->).
  destruct (fixedDigits2_digits (DateFromDay t) ltac:(lia))
    as (d1 & d0 & ? & ? & Ed & ->).
  unfold parse. cbn [String.append list_ascii_of_string].
  rewrite !digitVal_digitChar by assumption.
  rewrite <- Ey, <- Em, <- Ed.
  change (("-" =? "-")%char) with true. cbn [andb].
  replace (1 <=? MonthFromDay t + 1) with true by (symmetry; apply Z.leb_le; lia).
  replace (MonthFromDay t + 1 <=? 12) with true by (symmetry; apply Z.leb_le; lia).
  replace (1 <=? DateFromDay t) with true by (symmetry; apply Z.leb_le; lia).
  replace (DateFromDay t <=? 31) with true by (symmetry; apply Z.leb_le; lia).
  cbn [andb].
  replace (MonthFromDay t + 1 - 1) with (MonthFromDay t) by lia.
  rewrite MakeDay_fields. replace (t + (DateFromDay t - DateFromDay t)) with t by lia.
  apply TimeClip_Some. pose proof (fourDigit_clip t Ht). lia.
Qed.

(** A parsed date lies in the years 0000..9999. *)
Lemma parse_fourDigitDay (s : string) (t : Z) :
  parse s = Some t -> Spec.fourDigitDay t.
Proof.
  unfold parse.
  destruct (list_ascii_of_string s)
    as [| y3 [| y2 [| y1 [| y0 [| h1 [| m1 [| m0 [| h2 [| d1 [| d0 [| x r]]]]]]]]]]];
    try discriminate.
  destruct (digitVal y3) as [a3 |] eqn:E3; [| discriminate].
  destruct (digitVal y2) as [a2 |] eqn:E2; [| discriminate].
  destruct (digitVal y1) as [a1 |] eqn:E1; [| discriminate].
  destruct (digitVal y0) as [a0 |] eqn:E0; [| discriminate].
  destruct (digitVal m1) as [b1 |] eqn:F1; [| discriminate].
  destruct (digitVal m0) as [b0 |] eqn:F0; [| discriminate].
  destruct (digitVal d1) as [c1 |] eqn:G1; [| discriminate].
  destruct (digitVal d0) as [c0 |] eqn:G0; [| discriminate].
  apply digitVal_range in E3, E2, E1, E0, F1, F0, G1, G0.
  match goal with
  | |- (if ?c then _ else _) = _ -> _ => destruct c eqn:C; [| discriminate]
  end.
  repeat (apply andb_prop in C as [C ?]).
  repeat match goal with
         | H : (_ <=? _) = true |- _ => apply Z.leb_le in H
         end.
  intros HT. apply TimeClip_inv in HT as [-> _].
  set (y := 1000 * a3 + 100 * a2 + 10 * a1 + a0) in *.
  set (m := 10 * b1 + b0) in *. set (d := 10 * c1 + c0) in *.
  assert (Hy : 0 <= y <= 9999) by (unfold y; lia).
  clearbody y m d.
  rewrite MakeDay_month by lia.
  pose proof (DayFromYear_mono 0 y ltac:(lia)) as L1.
  pose proof (DayFromYear_mono (y + 1) 10000 ltac:(lia)) as L2.
  rewrite DayFromYear_succ in L2. unfold DaysInYear in L2.
  pose proof (leapDays_range y) as Hl.
  unfold Spec.fourDigitDay.
  assert (Hm : 0 <= m - 1 <= 11) by lia.
  revert Hm. generalize (m - 1). intros k Hk.
  assert (Hc : k = 0 \/ k = 1 \/ k = 2 \/ k = 3 \/ k = 4 \/ k = 5 \/ k = 6 \/ k = 7
               \/ k = 8 \/ k = 9 \/ k = 10 \/ k = 11) by lia.
  repeat (destruct Hc as [Hc | Hc]; [subst k; cbv [monthStart]; lia |]).
  subst k; cbv [monthStart]; lia.
Qed.

End IsoDates.

(** ** The day loops *)

Section DayLoops.
Import JSDate Common.

Lemma dayRange_nil (s e : Z) : e < s -> Spec.dayRange s e = [].
Proof.
  intros H. unfold Spec.dayRange.
  replace (Z.to_nat (e - s + 1)) with 0%nat by lia. reflexivity.
Qed.

Lemma dayRange_cons (s e : Z) :
  s <= e -> Spec.dayRange s e = s :: Spec.dayRange (s + 1) e.
Proof.
  intros H. unfold Spec.dayRange.
  replace (Z.to_nat (e - s + 1)) with (S (Z.to_nat (e - (s + 1) + 1))) by lia.
  cbn [seq map]. f_equal; [lia |].
  rewrite <- seq_shift, map_map. apply map_ext. intros i. lia.
Qed.



(** With the fuel of [daysFuel] the loop always comes to its end. *)
Lemma forEachDay_total (A : Type) (body : A -> string -> A) (last : Date) :
  forall (fuel : nat) (d : Date) (acc : A),
    (daysFuel d last <= fuel)%nat ->
    exists dates, forEachDay fuel d last body acc = Some (fold_left body dates acc).
Proof.
  induction fuel as [| k IH]; intros d acc Hf.
  - destruct d, last; cbn in Hf; lia.
  - cbn [forEachDay]. destruct (JSDate.leb d last) eqn:E.
    + destruct d as [s |]; [| discriminate]. destruct last as [e |]; [| discriminate].
      cbn in E. apply Z.leb_le in E. cbn [toISODate option_map].
      rewrite addDays_Some.
      destruct (IH (TimeClip (s + 1)) (body acc (isoDateOfDay s))) as [dates Hd].
      { unfold TimeClip. cbn [daysFuel] in Hf.
        destruct (Z.abs (s + 1) <=? 100000000); cbn [daysFuel]; lia. }
      exists (isoDateOfDay s :: dates). exact Hd.
    + exists []. reflexivity.
Qed.

(** Within the range of valid time values the loop visits every day of
    [first .. last] once, in order. *)
Lemma forEachDay_exact (A : Type) (body : A -> string -> A) (e : Z) :
  e < 100000000 ->
  forall (n : nat) (s : Z) (fuel : nat) (acc : A),
    n = Z.to_nat (e - s + 1) -> -100000000 <= s ->
    (daysFuel (Some s) (Some e) <= fuel)%nat ->
    forEachDay fuel (Some s) (Some e) body acc
    = Some (fold_left body (map isoDateOfDay (Spec.dayRange s e)) acc).
Proof.
  intros He. induction n as [| n IH]; intros s fuel acc Hn Hs Hf.
  - destruct fuel as [| k]; [cbn in Hf; lia |].
    cbn [forEachDay JSDate.leb].
    destruct (s <=? e) eqn:E; [apply Z.leb_le in E; lia |].
    rewrite dayRange_nil by lia. reflexivity.
  - destruct fuel as [| k]; [cbn in Hf; lia |].
    cbn [forEachDay JSDate.leb].
    destruct (s <=? e) eqn:E; [| apply Z.leb_gt in E; lia].
    apply Z.leb_le in E. cbn [toISODate option_map].
    rewrite addDays_Some, TimeClip_Some by lia.
    rewrite (dayRange_cons s e E). cbn [map fold_left].
    apply IH; [lia | lia | cbn [daysFuel] in *; lia].
Qed.

Lemma fold_left_snoc (A B : Type) (f : B -> A) (l : list B) (acc : list A) :
  fold_left (fun r x => r ++ [f x]) l acc = acc ++ map f l.
Proof.
  revert acc. induction l as [| x l IH]; intros acc; cbn.
  - rewrite app_nil_r. reflexivity.
  - rewrite IH, <- app_assoc. reflexivity.
Qed.

End DayLoops.

(** ** Arithmetic on [number] *)

Section Numbers.
Import JSNumber Common.

Lemma roundedPercent_range (a b : Z) :
  0 <= a <= b -> 0 < b -> 0 <= Spec.roundedPercent a b <= 100.
Proof.
  intros Ha Hb. unfold Spec.roundedPercent. split.
  - apply Z.div_pos; lia.
  - assert (H : (200 * a + b) / (2 * b) < 101); [| lia].
    apply Z.div_lt_upper_bound; lia.
Qed.

Lemma roundedPercent_0 (b : Z) : 0 < b -> Spec.roundedPercent 0 b = 0.
Proof.
  intros Hb. unfold Spec.roundedPercent. apply Z.div_small. lia.
Qed.

Lemma Qcompare_inject_Z_0 (b : Z) : Qcompare (inject_Z b) 0 = (b ?= 0).
Proof. unfold Qcompare. cbn. rewrite Z.mul_1_r. reflexivity. Qed.

(** [Math.round((a / b) * 100)] is the integer quotient rounded half up. *)
Lemma round_percent (a b : Z) :
  0 < b -> round (percent a b) = ofZ (Spec.roundedPercent a b).
Proof.
  intros Hb. unfold percent, div, ofZ.
  rewrite Qcompare_inject_Z_0.
  destruct (Z.compare_spec b 0) as [E | L | G]; try lia.
  unfold mul, ofQ, round, ofZ. f_equal. f_equal.
  unfold Spec.roundedPercent. rewrite Zdiv_Qdiv.
  apply Qfloor_comp.
  rewrite !Qred_correct, !inject_Z_plus, !inject_Z_mult.
  assert (Hn : ~ inject_Z b == 0).
  { intros H. apply (Qeq_bool_neq (inject_Z b) 0); [| exact H].
    unfold Qeq_bool. cbn. rewrite Z.mul_1_r. apply Z.eqb_neq. lia. }
  field. exact Hn.
Qed.

Lemma round_ofZ (z : Z) : round (ofZ z) = ofZ z.
Proof.
  unfold round, ofZ. f_equal. f_equal.
  unfold Qfloor, Qplus, inject_Z. cbn [Qnum Qden].
  change (Z.pos (1 * 2)) with 2. change (1 * Z.pos 1) with 1.
  symmetry. apply (Z.div_unique _ _ _ 1); lia.
Qed.

End Numbers.

(** ** Weekly progress *)

Section Weekly.
Import JSDate JSNumber Common.

Lemma Mem_weekly_total (st : MemStorage.t) (startDate endDate : string) :
  exists dates,
    MemStorage.getWeeklyProgress st startDate endDate
    = Some (map (MemStorage.dayEntry st (MemStorage.getHabits st)) dates).
Proof.
  unfold MemStorage.getWeeklyProgress.
  destruct (forEachDay_total (list WeeklyEntry.t)
              (fun result dateStr =>
                 result ++ [MemStorage.dayEntry st (MemStorage.getHabits st) dateStr])
              (parse endDate) (daysFuel (parse startDate) (parse endDate))
              (parse startDate) [] (le_n _)) as [dates H].
  exists dates. rewrite H, fold_left_snoc. reflexivity.
Qed.

Lemma DB_weekly_total (db : DatabaseStorage.t) (startDate endDate : string) :
  exists dates,
    DatabaseStorage.getWeeklyProgress db startDate endDate
    = Some (map (DatabaseStorage.dayEntry db (DatabaseStorage.getHabits db)) dates).
Proof.
  unfold DatabaseStorage.getWeeklyProgress.
  destruct (forEachDay_total (list WeeklyEntry.t)
              (fun progress dateStr =>
                 progress
                 ++ [DatabaseStorage.dayEntry db (DatabaseStorage.getHabits db) dateStr])
              (parse endDate) (daysFuel (parse startDate) (parse endDate))
              (parse startDate) [] (le_n _)) as [dates H].
  exists dates. rewrite H, fold_left_snoc. reflexivity.
Qed.

Lemma Mem_weekly_exact (st : MemStorage.t) (startDate endDate : string) (s e : Z) :
  parse startDate = Some s -> parse endDate = Some e ->
  MemStorage.getWeeklyProgress st startDate endDate
  = Some (map (fun t => MemStorage.dayEntry st (MemStorage.getHabits st)
                          (isoDateOfDay t)) (Spec.dayRange s e)).
Proof.
  intros Hs He. unfold MemStorage.getWeeklyProgress. rewrite Hs, He.
  pose proof (fourDigit_clip s (parse_fourDigitDay _ _ Hs)) as Cs.
  pose proof (fourDigit_clip e (parse_fourDigitDay _ _ He)) as Ce.
  rewrite (forEachDay_exact _ _ e ltac:(lia) (Z.to_nat (e - s + 1)) s _ _ eq_refl
             ltac:(lia) (le_n _)).
  rewrite fold_left_snoc, map_map. reflexivity.
Qed.




End Weekly.





(** ** Monthly summary: perfect days *)

Section Monthly.
Import JSDate JSNumber Common.

Lemma MakeDay_end_of_month (y m : Z) :
  1 <= m <= 12 -> MakeDay y m 0 = MakeDay y (m - 1) (Spec.DaysInMonth y m).
Proof.
  intros Hm. rewrite (MakeDay_month y (m - 1)) by lia.
  pose proof (DaysInMonth_monthStart y (m - 1) ltac:(lia)) as H.
  replace (m - 1 + 1) with m in H by lia.
  destruct (m - 1 =? 11) eqn:E.
  - apply Z.eqb_eq in E. assert (m = 12) by lia. subst m.
    unfold MakeDay. change (12 / 12) with 1. change (12 mod 12) with 0.
    change (12 - 1) with 11.
    rewrite DayFromYear_succ. unfold DaysInYear.
    cbv [monthStart Spec.DaysInMonth]. lia.
  - apply Z.eqb_neq in E. rewrite MakeDay_month by lia. lia.
Qed.

Lemma fromFields_plain (y m dt : Z) :
  100 <= y -> fromFields y m dt = TimeClip (MakeDay y m dt).
Proof.
  intros Hy. unfold fromFields.
  assert (E : (0 <=? y) && (y <=? 99) = false).
  { apply andb_false_iff. right. apply Z.leb_gt. lia. }
  rewrite E. reflexivity.
Qed.

Lemma fromFields_four (y m dt : Z) :
  100 <= y <= 9999 -> 0 <= m <= 11 -> 1 <= dt <= Spec.DaysInMonth y (m + 1) ->
  fromFields y m dt = Some (MakeDay y m dt) /\ Spec.fourDigitDay (MakeDay y m dt).
Proof.
  intros Hy Hm Hd. unfold fromFields.
  assert (E : (0 <=? y) && (y <=? 99) = false).
  { apply andb_false_iff. right. apply Z.leb_gt. lia. }
  rewrite E.
  assert (F : Spec.fourDigitDay (MakeDay y m dt)).
  { destruct (fields_of_MakeDay y m dt Hm Hd) as (HY & _ & _).
    pose proof (YearFromDay_spec (MakeDay y m dt)) as [A B]. rewrite HY in A, B.
    pose proof (DayFromYear_mono 0 y ltac:(lia)).
    pose proof (DayFromYear_mono (y + 1) 10000 ltac:(lia)).
    unfold Spec.fourDigitDay. lia. }
  split; [| exact F]. apply TimeClip_Some. pose proof (fourDigit_clip _ F). lia.
Qed.

(** The days the month loop visits, as date strings. *)
Lemma month_dates (y m : Z) :
  0 <= y <= 9999 -> 1 <= m <= 12 ->
  map isoDateOfDay
      (Spec.dayRange (MakeDay y (m - 1) 1) (MakeDay y (m - 1) (Spec.DaysInMonth y m)))
  = map (Spec.dateString y m) (Spec.monthDays (Spec.DaysInMonth y m)).
Proof.
  intros Hy Hm. unfold Spec.dayRange, Spec.monthDays.
  rewrite !(MakeDay_month y (m - 1)) by lia.
  match goal with
  | |- context [Z.to_nat ?z] =>
      replace z with (Spec.DaysInMonth y m) by lia
  end.
  rewrite <- (seq_shift _ 0), !map_map.
  apply map_ext_in. intros i Hi. apply in_seq in Hi.
  pose proof (DaysInMonth_range y m Hm) as Hr.
  replace (DayFromYear y + monthStart (m - 1) (leapDays y) + 1 - 1 + Z.of_nat i)
    with (MakeDay y (m - 1) (Z.of_nat (S i))).
  - rewrite isoDateOfDay_MakeDay; [| lia | lia |].
    + replace (m - 1 + 1) with m by lia. reflexivity.
    + replace (m - 1 + 1) with m by lia. lia.
  - rewrite MakeDay_month by lia. lia.
Qed.

(** Counting the completed habits of a day. *)
Lemma fold_count (A : Type) (p : A -> bool) (l : list A) (n : Z) :
  fold_left (fun k x => if p x then k + 1 else k) l n = n + Spec.countIf p l.
Proof.
  unfold Spec.countIf. revert n. induction l as [| x l IH]; intros n; cbn.
  - lia.
  - rewrite IH. destruct (p x); cbn [List.length]; lia.
Qed.

Lemma countIf_le (A : Type) (p : A -> bool) (l : list A) :
  0 <= Spec.countIf p l <= JSArray.length l.
Proof.
  unfold Spec.countIf, JSArray.length. pose proof (filter_length_le p l). lia.
Qed.



Lemma Mem_completedOn (st : MemStorage.t) (habits : list Habit.t) (dateStr : string) :
  MemStorage.completedOn st habits dateStr
  = Spec.countIf (fun h => Spec.memCompleted st (Habit.id h) dateStr) habits.
Proof.
  unfold MemStorage.completedOn.
  rewrite (fold_count Habit.t (fun h => Spec.memCompleted st (Habit.id h) dateStr)).
  lia.
Qed.

Lemma DB_completedOn (db : DatabaseStorage.t) (habits : list Habit.t) (dateStr : string) :
  DatabaseStorage.completedOn db habits dateStr
  = Spec.countIf (fun h => Spec.dbCompleted db (Habit.id h) dateStr) habits.
Proof.
  unfold DatabaseStorage.completedOn.
  rewrite (fold_count Habit.t (fun h => Spec.dbCompleted db (Habit.id h) dateStr)).
  lia.
Qed.













End Monthly.



(** ** Maps and the store invariant *)

Section MapFacts.
Variables (K V : Type) (keq : K -> K -> bool).
Hypothesis keq_spec : forall a b, keq a b = true <-> a = b.

Lemma keq_refl (a : K) : keq a a = true.
Proof. apply keq_spec. reflexivity. Qed.

Lemma keq_false (a b : K) : a <> b -> keq a b = false.
Proof.
  intros H. destruct (keq a b) eqn:E; [| reflexivity].
  apply keq_spec in E. contradiction.
Qed.

Lemma get_In (k : K) (v : V) (m : JSMap.t K V) :
  JSMap.get keq k m = Some v -> In (k, v) m.
Proof.
  induction m as [| [k' v'] m IH]; cbn; [discriminate |].
  destruct (keq k k') eqn:E.
  - apply keq_spec in E. subst. intros H. injection H as ->. left. reflexivity.
  - intros H. right. apply IH. exact H.
Qed.

Lemma In_get (k : K) (v : V) (m : JSMap.t K V) :
  NoDup (JSMap.keys m) -> In (k, v) m -> JSMap.get keq k m = Some v.
Proof.
  induction m as [| [k' v'] m IH]; cbn; [tauto |].
  intros Hn [H | H].
  - injection H as -> ->. rewrite keq_refl. reflexivity.
  - inversion Hn as [| ? ? Hk Hn']; subst.
    destruct (keq k k') eqn:E.
    + apply keq_spec in E. subst. exfalso. apply Hk.
      change k' with (fst (k', v)). apply in_map. exact H.
    + apply IH; assumption.
Qed.

Lemma get_None (k : K) (m : JSMap.t K V) :
  JSMap.get keq k m = None <-> ~ In k (JSMap.keys m).
Proof.
  induction m as [| [k' v'] m IH]; cbn; [tauto |].
  destruct (keq k k') eqn:E.
  - apply keq_spec in E. subst. split; [discriminate | intros H; exfalso; auto].
  - rewrite IH. split.
    + intros H [H1 | H1]; [| auto]. subst. rewrite keq_refl in E. discriminate.
    + intros H H1. apply H. right. exact H1.
Qed.

Lemma set_In (k k0 : K) (v v0 : V) (m : JSMap.t K V) :
  In (k, v) (JSMap.set keq k0 v0 m) -> (k, v) = (k0, v0) \/ In (k, v) m.
Proof.
  induction m as [| [k' v'] m IH]; cbn.
  - intros [H | []]. left. symmetry. exact H.
  - destruct (keq k0 k') eqn:E; cbn.
    + intros [H | H]; [left; symmetry; exact H | right; right; exact H].
    + intros [H | H]; [right; left; exact H |].
      destruct (IH H) as [H1 | H1]; [left; exact H1 | right; right; exact H1].
Qed.

Lemma set_keys_In (k k0 : K) (v0 : V) (m : JSMap.t K V) :
  In k (JSMap.keys (JSMap.set keq k0 v0 m)) <-> k = k0 \/ In k (JSMap.keys m).
Proof.
  induction m as [| [k' v'] m IH]; cbn.
  - split; [intros [H | []]; left; symmetry; exact H | intros [H | []]; left; auto].
  - destruct (keq k0 k') eqn:E; cbn.
    + apply keq_spec in E. subst. split; [intros [H | H]; auto | intros [H | [H | H]]; auto].
    + rewrite IH. tauto.
Qed.

Lemma set_NoDup (k0 : K) (v0 : V) (m : JSMap.t K V) :
  NoDup (JSMap.keys m) -> NoDup (JSMap.keys (JSMap.set keq k0 v0 m)).
Proof.
  induction m as [| [k' v'] m IH]; cbn; intros Hn.
  - constructor; [intros [] | constructor].
  - inversion Hn as [| ? ? Hk Hn']; subst.
    destruct (keq k0 k') eqn:E; cbn.
    + apply keq_spec in E. subst. constructor; assumption.
    + constructor; [| apply IH; exact Hn'].
      intros H. apply set_keys_In in H as [H | H]; [| auto].
      subst. rewrite keq_refl in E. discriminate.
Qed.

Lemma get_set_same (k : K) (v : V) (m : JSMap.t K V) :
  JSMap.get keq k (JSMap.set keq k v m) = Some v.
Proof.
  induction m as [| [k' v'] m IH]; cbn.
  - rewrite keq_refl. reflexivity.
  - destruct (keq k k') eqn:E; cbn; [rewrite keq_refl | rewrite E]; auto.
Qed.

Lemma get_set_other (k k0 : K) (v0 : V) (m : JSMap.t K V) :
  k <> k0 -> JSMap.get keq k (JSMap.set keq k0 v0 m) = JSMap.get keq k m.
Proof.
  intros Hk. induction m as [| [k' v'] m IH]; cbn.
  - rewrite keq_false by exact Hk. reflexivity.
  - destruct (keq k0 k') eqn:E; cbn.
    + apply keq_spec in E. subst. rewrite keq_false by exact Hk. reflexivity.
    + destruct (keq k k'); auto.
Qed.

Lemma remove_In (k k0 : K) (v : V) (m : JSMap.t K V) :
  In (k, v) (JSMap.remove keq k0 m) <-> In (k, v) m /\ k <> k0.
Proof.
  unfold JSMap.remove. rewrite filter_In. cbn. split.
  - intros [H E]. split; [exact H |]. intros ->.
    rewrite keq_refl in E. discriminate.
  - intros [H N]. split; [exact H |]. rewrite keq_false; auto.
Qed.

Lemma remove_NoDup (k0 : K) (m : JSMap.t K V) :
  NoDup (JSMap.keys m) -> NoDup (JSMap.keys (JSMap.remove keq k0 m)).
Proof.
  unfold JSMap.remove, JSMap.keys.
  induction m as [| [k' v'] m IH]; cbn; intros Hn; [constructor |].
  inversion Hn as [| ? ? Hk Hn']; subst.
  destruct (negb (keq k0 k')); cbn; [| auto].
  constructor; [| auto]. intros H. apply Hk.
  apply in_map_iff in H as ([k v] & E & H). cbn in E. subst.
  apply filter_In in H as [H _]. change k' with (fst (k', v)).
  apply in_map. exact H.
Qed.

Lemma get_remove_same (k : K) (m : JSMap.t K V) :
  JSMap.get keq k (JSMap.remove keq k m) = None.
Proof.
  unfold JSMap.remove. induction m as [| [k' v'] m IH]; cbn; [reflexivity |].
  destruct (keq k k') eqn:E; cbn; [exact IH | rewrite E; exact IH].
Qed.

Lemma get_remove_other (k k0 : K) (m : JSMap.t K V) :
  k <> k0 -> JSMap.get keq k (JSMap.remove keq k0 m) = JSMap.get keq k m.
Proof.
  intros Hk. unfold JSMap.remove. induction m as [| [k' v'] m IH]; cbn; [reflexivity |].
  destruct (keq k0 k') eqn:E; cbn.
  - apply keq_spec in E. subst. rewrite keq_false by exact Hk. exact IH.
  - destruct (keq k k'); auto.
Qed.

End MapFacts.

(** *** The completion key determines the habit and the date *)

Section CompletionKey.
Import JSString.

Lemma string_of_uint_digits (u : Decimal.uint) :
  Aux.allDigits (NilEmpty.string_of_uint u) = true.
Proof. induction u; cbn; auto. Qed.

Lemma string_of_uint_nonempty (u : Decimal.uint) :
  u <> Decimal.Nil -> NilEmpty.string_of_uint u <> "".
Proof. destruct u; cbn; congruence. Qed.

Lemma NilZero_digits (u : Decimal.uint) :
  Aux.allDigits (NilZero.string_of_uint u) = true
  /\ NilZero.string_of_uint u <> "".
Proof.
  destruct u; try (split; [apply string_of_uint_digits | cbn; congruence]).
  split; [reflexivity | cbn; congruence].
Qed.

Lemma to_int_not_nil (z : Z) :
  Z.to_int z <> Decimal.Pos Decimal.Nil /\ Z.to_int z <> Decimal.Neg Decimal.Nil.
Proof.
  destruct z as [| p | p]; cbn; split; try congruence;
    intros H; injection H as H; exact (DecimalPos.Unsigned.to_uint_nonnil p H).
Qed.

Lemma ofZ_inj (a b : Z) : ofZ a = ofZ b -> a = b.
Proof.
  unfold ofZ. intros H.
  destruct (to_int_not_nil a) as [A1 A2]. destruct (to_int_not_nil b) as [B1 B2].
  pose proof (NilZero.isi (Z.to_int a) A1 A2) as Ia.
  pose proof (NilZero.isi (Z.to_int b) B1 B2) as Ib.
  rewrite H in Ia. rewrite Ia in Ib. injection Ib as Ib.
  apply DecimalZ.to_int_inj. exact Ib.
Qed.

(** [String(z)] is an optional minus sign and a non-empty run of digits. *)
Lemma ofZ_shape (z : Z) :
  exists ds, Aux.allDigits ds = true /\ ds <> ""
    /\ (ofZ z = ds \/ ofZ z = String "-" ds).
Proof.
  unfold ofZ. destruct (Z.to_int z) as [u | u]; cbn [NilZero.string_of_int];
    exists (NilZero.string_of_uint u);
    destruct (NilZero_digits u) as [D N]; auto.
Qed.

Lemma split_at_dash (d1 d2 s t : string) :
  Aux.allDigits d1 = true -> Aux.allDigits d2 = true ->
  (d1 ++ String "-" s)%string = (d2 ++ String "-" t)%string ->
  d1 = d2 /\ s = t.
Proof.
  revert d2. induction d1 as [| c d1 IH]; intros d2 H1 H2 E.
  - destruct d2 as [| c2 d2]; cbn in E.
    + injection E as E. auto.
    + injection E as Ec E. subst c2. cbn in H2. discriminate.
  - destruct d2 as [| c2 d2]; cbn in E.
    + injection E as Ec E. subst c. cbn in H1. discriminate.
    + injection E as Ec E. subst c2. cbn in H1, H2.
      apply andb_prop in H1 as [_ H1]. apply andb_prop in H2 as [_ H2].
      destruct (IH d2 H1 H2 E) as [-> ->]. auto.
Qed.

Lemma completionKey_inj (a b : Z) (s t : string) :
  MemStorage.completionKey a s = MemStorage.completionKey b t -> a = b /\ s = t.
Proof.
  unfold MemStorage.completionKey. intros E.
  destruct (ofZ_shape a) as (da & Da & Na & Sa).
  destruct (ofZ_shape b) as (db & Db & Nb & Sb).
  assert (H : ofZ a = ofZ b /\ s = t).
  { destruct Sa as [Sa | Sa], Sb as [Sb | Sb]; rewrite Sa, Sb in E |- *.
    - change ((da ++ String "-" s)%string = (db ++ String "-" t)%string) in E.
      destruct (split_at_dash da db s t Da Db E) as [-> ->]. auto.
    - destruct da as [| c da]; [congruence |]. cbn in E, Da.
      injection E as Ec E. subst c. discriminate.
    - destruct db as [| c db]; [congruence |]. cbn in E, Db.
      injection E as Ec E. subst c. discriminate.
    - cbn in E. injection E as E.
      change ((da ++ String "-" s)%string = (db ++ String "-" t)%string) in E.
      destruct (split_at_dash da db s t Da Db E) as [-> ->]. auto. }
  destruct H as [H ->]. split; [apply ofZ_inj; exact H | reflexivity].
Qed.

End CompletionKey.

(** *** The invariant of the in-memory store *)

Section StoreInvariant.

Lemma Zeqb_spec (a b : Z) : (a =? b) = true <-> a = b.
Proof. apply Z.eqb_eq. Qed.

Lemma Seqb_spec (a b : string) : (a =? b)%string = true <-> a = b.
Proof. apply String.eqb_eq. Qed.

Lemma keyedBy_set (V : Type) (key : V -> Z) (next next' k0 : Z) (v0 : V)
    (m : JSMap.t Z V) :
  Spec.keyedBy key next m -> key v0 = k0 -> k0 < next' -> next <= next' ->
  Spec.keyedBy key next' (JSMap.set Z.eqb k0 v0 m).
Proof.
  intros [H1 H2] Hk Hlt Hle. split.
  - intros k v Hin. apply set_In in Hin as [E | Hin].
    + injection E as -> ->. split; [exact Hk | exact Hlt].
    + destruct (H1 k v Hin). split; [assumption | lia].
  - apply set_NoDup; [exact Zeqb_spec | exact H2].
Qed.

Lemma keyedBy_remove (V : Type) (key : V -> Z) (next k0 : Z) (m : JSMap.t Z V) :
  Spec.keyedBy key next m -> Spec.keyedBy key next (JSMap.remove Z.eqb k0 m).
Proof.
  intros [H1 H2]. split.
  - intros k v Hin. apply (remove_In _ _ _ Zeqb_spec) in Hin as [Hin _]. auto.
  - apply remove_NoDup. exact H2.
Qed.

Lemma keyedBy_get (V : Type) (key : V -> Z) (next k : Z) (v : V) (m : JSMap.t Z V) :
  Spec.keyedBy key next m -> JSMap.get Z.eqb k m = Some v -> key v = k /\ k < next.
Proof.
  intros [H1 _] Hg. apply H1. apply (get_In _ _ _ Zeqb_spec). exact Hg.
Qed.

Lemma memInvariant_new : Spec.memInvariant MemStorage.new.
Proof.
  unfold Spec.memInvariant, Spec.keyedBy. cbn.
  split; [split |].
  - intros k v H.
    repeat (destruct H as [H | H]; [injection H as <- <-; cbn; lia |]).
    contradiction.
  - repeat constructor; cbn; intros H;
      repeat (destruct H as [H | H]; [discriminate |]); contradiction.
  - split; [split; [intros k v [] | constructor] |].
    split; [intros k v [] | constructor].
Qed.

Lemma memInvariant_step (st : MemStorage.t) (op : Spec.memOp) :
  Spec.memInvariant st -> Spec.memInvariant (Spec.memStep st op).
Proof.
  intros (Hh & Ht & Hc & Hn). destruct op as [i | id u | id | c | r | id r | id];
    cbn [Spec.memStep].
  - (* createHabit *)
    unfold MemStorage.createHabit, Spec.memInvariant. cbn [snd].
    refine (conj _ (conj Ht (conj Hc Hn))).
    apply (keyedBy_set _ Habit.id (MemStorage.currentHabitId st) _ _ _ _ Hh);
      [reflexivity | cbn; lia | cbn; lia].
  - (* updateHabit *)
    unfold MemStorage.updateHabit.
    destruct (JSMap.get Z.eqb id (MemStorage.habits st)) as [h |] eqn:E;
      [| exact (conj Hh (conj Ht (conj Hc Hn)))].
    destruct (keyedBy_get _ _ _ _ _ _ Hh E) as [K1 K2].
    unfold Spec.memInvariant. cbn [snd].
    refine (conj _ (conj Ht (conj Hc Hn))).
    apply (keyedBy_set _ Habit.id (MemStorage.currentHabitId st) _ _ _ _ Hh);
      [exact K1 | exact K2 | cbn; lia].
  - (* deleteHabit *)
    unfold MemStorage.deleteHabit.
    destruct (JSMap.get Z.eqb id (MemStorage.habits st)) as [h |] eqn:E;
      [| exact (conj Hh (conj Ht (conj Hc Hn)))].
    destruct (keyedBy_get _ _ _ _ _ _ Hh E) as [K1 K2].
    unfold Spec.memInvariant. cbn [snd].
    refine (conj _ (conj Ht (conj Hc Hn))).
    apply (keyedBy_set _ Habit.id (MemStorage.currentHabitId st) _ _ _ _ Hh);
      [exact K1 | exact K2 | cbn; lia].
  - (* createOrUpdateHabitCompletion *)
    unfold MemStorage.createOrUpdateHabitCompletion.
    destruct (JSMap.get String.eqb
                (MemStorage.completionKey (InsertHabitCompletion.habitId c)
                                          (InsertHabitCompletion.date c))
                (MemStorage.habitCompletions st)) as [x |] eqn:E;
      unfold Spec.memInvariant; cbn [snd];
      refine (conj Hh (conj Ht (conj _ _)));
      try (apply set_NoDup; [exact Seqb_spec | exact Hn]).
    + intros k v Hin. apply set_In in Hin as [Hin | Hin]; [| auto].
      injection Hin as -> ->. cbn.
      apply Hc. apply (get_In _ _ _ Seqb_spec). exact E.
    + intros k v Hin. apply set_In in Hin as [Hin | Hin]; [| auto].
      injection Hin as -> ->. reflexivity.
  - (* createTradeReview *)
    unfold MemStorage.createTradeReview, Spec.memInvariant. cbn [snd].
    refine (conj Hh (conj _ (conj Hc Hn))).
    apply (keyedBy_set _ TradeReview.id (MemStorage.currentTradeId st) _ _ _ _ Ht);
      [reflexivity | cbn; lia | cbn; lia].
  - (* updateTradeReview *)
    unfold MemStorage.updateTradeReview.
    destruct (JSMap.get Z.eqb id (MemStorage.tradeReviews st)) as [x |] eqn:E;
      [| exact (conj Hh (conj Ht (conj Hc Hn)))].
    destruct (keyedBy_get _ _ _ _ _ _ Ht E) as [K1 K2].
    unfold Spec.memInvariant. cbn [snd].
    refine (conj Hh (conj _ (conj Hc Hn))).
    apply (keyedBy_set _ TradeReview.id (MemStorage.currentTradeId st) _ _ _ _ Ht);
      [exact K1 | exact K2 | cbn; lia].
  - (* deleteTradeReview *)
    unfold MemStorage.deleteTradeReview, JSMap.delete, Spec.memInvariant. cbn [snd].
    refine (conj Hh (conj _ (conj Hc Hn))).
    apply (keyedBy_remove _ _ _ _ _ Ht).
Qed.

Lemma memInvariant_run (ops : list Spec.memOp) (st : MemStorage.t) :
  Spec.memInvariant st -> Spec.memInvariant (Spec.memRun ops st).
Proof.
  revert st. induction ops as [| op ops IH]; intros st H; [exact H |].
  cbn. apply IH. apply memInvariant_step. exact H.
Qed.

Lemma memReachable_invariant (st : MemStorage.t) :
  Spec.memReachable st -> Spec.memInvariant st.
Proof.
  intros [ops ->]. apply memInvariant_run. apply memInvariant_new.
Qed.

Lemma memReachable_run (ops : list Spec.memOp) (st : MemStorage.t) :
  Spec.memReachable st -> Spec.memReachable (Spec.memRun ops st).
Proof.
  intros [ops0 ->]. exists (ops0 ++ ops). unfold Spec.memRun.
  rewrite fold_left_app. reflexivity.
Qed.

End StoreInvariant.

(** ** Soft-deleted habits *)

Section SoftDelete.
Import Common.




Lemma mapE_In (A B : Type) (f : A -> option B) (l : list A) (r : list B) :
  JSArray.mapE f l = Some r ->
  forall y, In y r -> exists x, In x l /\ f x = Some y.
Proof.
  revert r. induction l as [| x l IH]; cbn; intros r H y Hy.
  - injection H as <-. contradiction.
  - destruct (f x) as [z |] eqn:E; [| discriminate].
    destruct (JSArray.mapE f l) as [r' |]; [| discriminate].
    injection H as <-. destruct Hy as [-> | Hy].
    + exists x. auto.
    + destruct (IH r' eq_refl y Hy) as (x' & Hx' & Hf). exists x'. auto.
Qed.

Lemma Mem_habitStats_habit (st : MemStorage.t) (date : string) (h : Habit.t)
    (y : HabitWithStats.t) :
  MemStorage.habitStats st date h = Some y -> HabitWithStats.habit y = h.
Proof.
  unfold MemStorage.habitStats.
  destruct (JSArray.filterE _ _); [| discriminate].
  destruct (MemStorage.streakLoop _ _ _ _); [| discriminate].
  intros H. injection H as <-. reflexivity.
Qed.





(** *** The relational store *)

Lemma insert_perm (A : Type) (cmp : A -> A -> comparison) (x : A) (l : list A) :
  Permutation (JSArray.insert cmp x l) (x :: l).
Proof.
  induction l as [| y l IH]; cbn; [reflexivity |].
  destruct (cmp x y); try reflexivity.
  rewrite IH. apply perm_swap.
Qed.

Lemma sort_perm (A : Type) (cmp : A -> A -> comparison) (l : list A) :
  Permutation (JSArray.sort cmp l) l.
Proof.
  induction l as [| x l IH]; cbn; [reflexivity |].
  rewrite insert_perm, IH. reflexivity.
Qed.

Lemma sort_In (A : Type) (cmp : A -> A -> comparison) (l : list A) (x : A) :
  In x (JSArray.sort cmp l) <-> In x l.
Proof.
  split; apply Permutation_in; [| symmetry]; apply sort_perm.
Qed.



End SoftDelete.



(** ** Hard-deleted trade reviews *)

Section HardDelete.

Lemma values_remove (id : Z) (m : JSMap.t Z TradeReview.t) :
  (forall k v, In (k, v) m -> TradeReview.id v = k) ->
  JSMap.values (JSMap.remove Z.eqb id m) = Spec.withoutTrade id (JSMap.values m).
Proof.
  unfold JSMap.values, JSMap.remove, Spec.withoutTrade.
  induction m as [| [k v] m IH]; intros H; cbn; [reflexivity |].
  assert (Hk : TradeReview.id v = k) by (apply H; left; reflexivity).
  assert (IH' := IH (fun k' v' Hin => H k' v' (or_intror Hin))).
  rewrite Hk, (Z.eqb_sym id k).
  destruct (k =? id); cbn; rewrite IH'; reflexivity.
Qed.

Lemma filter_comm (A : Type) (p q : A -> bool) (l : list A) :
  filter p (filter q l) = filter q (filter p l).
Proof.
  induction l as [| x l IH]; cbn; [reflexivity |].
  destruct (p x) eqn:P, (q x) eqn:Q; cbn; rewrite ?P, ?Q, IH; reflexivity.
Qed.

Lemma withoutTrade_In (id : Z) (l : list TradeReview.t) (t : TradeReview.t) :
  In t (Spec.withoutTrade id l) -> TradeReview.id t <> id.
Proof.
  unfold Spec.withoutTrade. rewrite filter_In. intros [_ H] E.
  rewrite E, Z.eqb_refl in H. discriminate.
Qed.

Lemma Mem_deleteTrade_existed (st : MemStorage.t) (id : Z) :
  fst (MemStorage.deleteTradeReview st id) = true
  <-> MemStorage.getTradeReview st id <> None.
Proof.
  unfold MemStorage.deleteTradeReview, JSMap.delete, JSMap.has,
    MemStorage.getTradeReview. cbn.
  destruct (JSMap.get Z.eqb id (MemStorage.tradeReviews st)); split;
    congruence.
Qed.

Lemma Mem_deleteTrade_trades (st : MemStorage.t) (id : Z) (s e : option string) :
  Spec.memInvariant st ->
  MemStorage.getTradeReviews (snd (MemStorage.deleteTradeReview st id)) s e
  = Spec.withoutTrade id (MemStorage.getTradeReviews st s e).
Proof.
  intros (_ & [Ht _] & _). unfold MemStorage.getTradeReviews,
    MemStorage.deleteTradeReview, JSMap.delete, MemStorage.setTradeReviews.
  cbn [snd MemStorage.tradeReviews].
  rewrite values_remove by (intros k v Hin; apply (Ht k v Hin)).
  unfold Spec.withoutTrade. apply filter_comm.
Qed.

Lemma Permutation_filter_ (A : Type) (p : A -> bool) (l l' : list A) :
  Permutation l l' -> Permutation (filter p l) (filter p l').
Proof.
  induction 1 as [| x l l' _ IH | x y l | l l' l'' _ IH1 _ IH2]; cbn.
  - constructor.
  - destruct (p x); [constructor |]; exact IH.
  - destruct (p x), (p y); try reflexivity. apply perm_swap.
  - etransitivity; eassumption.
Qed.

Lemma DB_deleteTrade_existed (db : DatabaseStorage.t) (id : Z) :
  fst (DatabaseStorage.deleteTradeReview db id) = true
  <-> DatabaseStorage.getTradeReview db id <> None.
Proof.
  unfold DatabaseStorage.deleteTradeReview, DatabaseStorage.getTradeReview,
    JSArray.length. cbn [fst].
  destruct (filter (fun r => TradeReview.id r =? id) (DatabaseStorage.tradeReviews db))
    as [| r l]; cbn [List.length hd_error].
  - split; [discriminate | congruence].
  - split; [discriminate |]. intros _. apply Z.ltb_lt. lia.
Qed.

Lemma DB_deleteTrade_gone (db : DatabaseStorage.t) (id : Z) :
  DatabaseStorage.getTradeReview (snd (DatabaseStorage.deleteTradeReview db id)) id
  = None.
Proof.
  unfold DatabaseStorage.deleteTradeReview, DatabaseStorage.getTradeReview. cbn.
  induction (DatabaseStorage.tradeReviews db) as [| r l IH]; cbn; [reflexivity |].
  destruct (TradeReview.id r =? id) eqn:E; cbn; [exact IH |].
  rewrite E. exact IH.
Qed.

Lemma DB_deleteTrade_trades (db : DatabaseStorage.t) (id : Z) (s e : option string) :
  Permutation
    (DatabaseStorage.getTradeReviews (snd (DatabaseStorage.deleteTradeReview db id)) s e)
    (Spec.withoutTrade id (DatabaseStorage.getTradeReviews db s e)).
Proof.
  unfold DatabaseStorage.getTradeReviews, DatabaseStorage.deleteTradeReview.
  cbn [snd DatabaseStorage.tradeReviews].
  fold (Spec.withoutTrade id (DatabaseStorage.tradeReviews db)).
  rewrite sort_perm.
  assert (H : forall l l', Permutation l' l ->
                Permutation (Spec.withoutTrade id l) (Spec.withoutTrade id l')).
  { intros l l' P. apply Permutation_filter_. symmetry. exact P. }
  destruct s as [s |], e as [e |];
    try (apply H, sort_perm).
  destruct (JSString.truthy s && JSString.truthy e);
    [| apply H, sort_perm].
  etransitivity; [| apply H, sort_perm].
  unfold Spec.withoutTrade. rewrite filter_comm. reflexivity.
Qed.

End HardDelete.

(** C10: [deleteTradeReview(id)] removes the record: it returns true
    exactly when the trade existed; afterwards [getTradeReview(id)] has no
    result, no record of the store carries that id (a trade review has no
    active flag that could keep it), and the trades every
    [getTradingStats] query aggregates are the former ones without that
    trade; in both back ends. *)
Theorem C10_trade_review_hard_deleted
    (st : MemStorage.t) (db : DatabaseStorage.t) (id : Z) :
  Spec.memReachable st ->
  ((fst (MemStorage.deleteTradeReview st id) = true
    <-> MemStorage.getTradeReview st id <> None)
   /\ MemStorage.getTradeReview (snd (MemStorage.deleteTradeReview st id)) id = None
   /\ (forall t,
         In t (JSMap.values
                 (MemStorage.tradeReviews (snd (MemStorage.deleteTradeReview st id)))) ->
         TradeReview.id t <> id)
   /\ (forall s e,
         MemStorage.getTradingStats (snd (MemStorage.deleteTradeReview st id)) s e
         = MemStorage.statsOfTrades
             (Spec.withoutTrade id (MemStorage.getTradeReviews st (Some s) (Some e)))))
  /\ ((fst (DatabaseStorage.deleteTradeReview db id) = true
       <-> DatabaseStorage.getTradeReview db id <> None)
      /\ DatabaseStorage.getTradeReview
           (snd (DatabaseStorage.deleteTradeReview db id)) id = None
      /\ (forall t,
            In t (DatabaseStorage.tradeReviews
                    (snd (DatabaseStorage.deleteTradeReview db id))) ->
            TradeReview.id t <> id)
      /\ (forall s e,
            exists trades,
              DatabaseStorage.getTradingStats
                (snd (DatabaseStorage.deleteTradeReview db id)) s e
              = DatabaseStorage.statsOfTrades trades
              /\ Permutation trades
                   (Spec.withoutTrade id
                      (DatabaseStorage.getTradeReviews db (Some s) (Some e))))).
Proof.
  intros Hr. pose proof (memReachable_invariant st Hr) as Hi. split.
  - split; [apply Mem_deleteTrade_existed |]. split; [| split].
    + unfold MemStorage.deleteTradeReview, JSMap.delete, MemStorage.getTradeReview,
        MemStorage.setTradeReviews.
      cbn [snd MemStorage.tradeReviews]. apply get_remove_same.
    + intros t Hin. destruct Hi as (_ & [Ht _] & _).
      unfold MemStorage.deleteTradeReview, JSMap.delete,
        MemStorage.setTradeReviews in Hin.
      cbn [snd MemStorage.tradeReviews] in Hin.
      rewrite values_remove in Hin by (intros k v Hkv; apply (Ht k v Hkv)).
      apply (withoutTrade_In id _ t Hin).
    + intros s e. unfold MemStorage.getTradingStats.
      rewrite Mem_deleteTrade_trades by exact Hi. reflexivity.
  - split; [apply DB_deleteTrade_existed |]. split; [apply DB_deleteTrade_gone |].
    split.
    + intros t Hin. unfold DatabaseStorage.deleteTradeReview in Hin.
      cbn [snd DatabaseStorage.tradeReviews] in Hin.
      apply (withoutTrade_In id _ t Hin).
    + intros s e. eexists. split; [reflexivity |]. apply DB_deleteTrade_trades.
Qed.

Lemma C10_trade_review_hard_deleted_witness :
  Spec.memReachable Examples.memTrades
  /\ ((fst (MemStorage.deleteTradeReview Examples.memTrades 2) = true
       <-> MemStorage.getTradeReview Examples.memTrades 2 <> None)
      /\ MemStorage.getTradeReview
           (snd (MemStorage.deleteTradeReview Examples.memTrades 2)) 2 = None
      /\ (forall t,
            In t (JSMap.values
                    (MemStorage.tradeReviews
                       (snd (MemStorage.deleteTradeReview Examples.memTrades 2)))) ->
            TradeReview.id t <> 2)
      /\ (forall s e,
            MemStorage.getTradingStats
              (snd (MemStorage.deleteTradeReview Examples.memTrades 2)) s e
            = MemStorage.statsOfTrades
                (Spec.withoutTrade 2
                   (MemStorage.getTradeReviews Examples.memTrades (Some s) (Some e)))))
  /\ ((fst (DatabaseStorage.deleteTradeReview Examples.dbTrades 2) = true
       <-> DatabaseStorage.getTradeReview Examples.dbTrades 2 <> None)
      /\ DatabaseStorage.getTradeReview
           (snd (DatabaseStorage.deleteTradeReview Examples.dbTrades 2)) 2 = None
      /\ (forall t,
            In t (DatabaseStorage.tradeReviews
                    (snd (DatabaseStorage.deleteTradeReview Examples.dbTrades 2))) ->
            TradeReview.id t <> 2)
      /\ (forall s e,
            exists trades,
              DatabaseStorage.getTradingStats
                (snd (DatabaseStorage.deleteTradeReview Examples.dbTrades 2)) s e
              = DatabaseStorage.statsOfTrades trades
              /\ Permutation trades
                   (Spec.withoutTrade 2
                      (DatabaseStorage.getTradeReviews Examples.dbTrades
                         (Some s) (Some e))))).
Proof.
  assert (R : Spec.memReachable Examples.memTrades).
  { exists (map Spec.CreateTrade Examples.tradeInputs). reflexivity. }
  split; [exact R |].
  apply (C10_trade_review_hard_deleted Examples.memTrades Examples.dbTrades 2 R).
Defined.

(** ** Trading statistics of the in-memory back end *)

Section MemTrading.
Import JSNumber Common.

Lemma parseFloat_empty : parseFloat "" = NaN.
Proof. reflexivity. Qed.

(** The filter [t.pnl && !isNaN(parseFloat(t.pnl))] keeps the trades with
    a parseable value. *)
Lemma code_filter_hasPnL (t : TradeReview.t) :
  JSString.truthyOpt (TradeReview.pnl t) && negb (isNaN (pnlValue t)) = Spec.hasPnL t.
Proof.
  unfold Spec.hasPnL, pnlValue, JSString.truthyOpt, JSString.truthy.
  destruct (TradeReview.pnl t) as [s |]; [| reflexivity].
  destruct (String.eqb_spec s "") as [-> | N]; [| reflexivity].
  rewrite parseFloat_empty. reflexivity.
Qed.

Lemma filter_hasPnL (trades : list TradeReview.t) :
  filter (fun t => JSString.truthyOpt (TradeReview.pnl t) && negb (isNaN (pnlValue t)))
         trades
  = filter Spec.hasPnL trades.
Proof. apply filter_ext. exact code_filter_hasPnL. Qed.

Lemma filter_filter (A : Type) (p q : A -> bool) (l : list A) :
  filter p (filter q l) = filter (fun x => p x && q x) l.
Proof.
  induction l as [| x l IH]; cbn; [reflexivity |].
  destruct (q x); cbn; destruct (p x); cbn; rewrite IH; reflexivity.
Qed.

Lemma isWin_hasPnL (t : TradeReview.t) : Spec.isWin t && Spec.hasPnL t = Spec.isWin t.
Proof.
  unfold Spec.isWin, Spec.hasPnL, gtb. destruct (pnlValue t); cbn;
    rewrite ?andb_true_r; reflexivity.
Qed.

Lemma isLoss_hasPnL (t : TradeReview.t) : Spec.isLoss t && Spec.hasPnL t = Spec.isLoss t.
Proof.
  unfold Spec.isLoss, Spec.hasPnL. destruct (pnlValue t); cbn;
    rewrite ?andb_true_r; reflexivity.
Qed.

Lemma filter_wins (trades : list TradeReview.t) :
  filter (fun t => gtb (pnlValue t) (ofZ 0)) (filter Spec.hasPnL trades)
  = filter Spec.isWin trades.
Proof. rewrite filter_filter. apply filter_ext. exact isWin_hasPnL. Qed.

Lemma filter_losses (trades : list TradeReview.t) :
  filter (fun t => ltb (pnlValue t) (ofZ 0)) (filter Spec.hasPnL trades)
  = filter Spec.isLoss trades.
Proof. rewrite filter_filter. apply filter_ext. exact isLoss_hasPnL. Qed.

Lemma length_zero_nil (A : Type) (l : list A) : (JSArray.length l =? 0) = true -> l = [].
Proof.
  unfold JSArray.length. intros H. apply Z.eqb_eq in H.
  destruct l; [reflexivity | cbn in H; lia].
Qed.

(** [winRate] is the share of wins among the trades that have a value. *)
Lemma Mem_winRate (trades : list TradeReview.t) :
  TradingStats.winRate (MemStorage.statsOfTrades trades)
  = if 0 <? Spec.countIf Spec.hasPnL trades
    then ofZ (Spec.roundedPercent (Spec.countIf Spec.isWin trades)
                                  (Spec.countIf Spec.hasPnL trades))
    else ofZ 0.
Proof.
  unfold MemStorage.statsOfTrades.
  destruct (JSArray.length trades =? 0) eqn:E.
  - apply length_zero_nil in E. subst. reflexivity.
  - cbn [TradingStats.winRate]. rewrite filter_hasPnL, filter_wins.
    change (JSArray.length (filter Spec.hasPnL trades))
      with (Spec.countIf Spec.hasPnL trades).
    change (JSArray.length (filter Spec.isWin trades))
      with (Spec.countIf Spec.isWin trades).
    destruct (0 <? Spec.countIf Spec.hasPnL trades) eqn:P.
    + apply round_percent. apply Z.ltb_lt. exact P.
    + apply round_ofZ.
Qed.

(** Only the trades dated within the range are aggregated. *)
Lemma Mem_trades_in_range (st : MemStorage.t) (s e : string) :
  e <> "" ->
  MemStorage.getTradeReviews st (Some s) (Some e)
  = filter (Spec.inRange s e) (JSMap.values (MemStorage.tradeReviews st)).
Proof.
  intros He. unfold MemStorage.getTradeReviews. apply filter_ext. intros t.
  unfold Spec.inRange, JSString.truthy, JSString.lt, JSString.gt, JSString.le,
    String.ltb, String.leb.
  rewrite (String.compare_antisym s (TradeReview.date t)).
  rewrite (String.compare_antisym (TradeReview.date t) e).
  destruct (String.eqb_spec e "") as [-> | _]; [contradiction |].
  destruct (String.eqb_spec s "") as [-> | _]; cbn [negb andb].
  - destruct (TradeReview.date t) as [| c d]; cbn [String.compare CompOpp];
      destruct (String.compare e _); reflexivity.
  - destruct (String.compare (TradeReview.date t) s);
      destruct (String.compare e (TradeReview.date t)); reflexivity.
Qed.


(** *** Sums of finite values *)

Lemma ofQ_eq (x y : Q) : (x == y)%Q -> ofQ x = ofQ y.
Proof. intros H. unfold ofQ. f_equal. apply Qred_complete. exact H. Qed.

Lemma add_ofQ (x q : Q) : add (ofQ x) (Num q) = ofQ (x + q).
Proof.
  unfold add, ofQ at 1. apply ofQ_eq. rewrite Qred_correct. reflexivity.
Qed.

Lemma abs_ofQ (x : Q) : abs (ofQ x) = ofQ (Qabs x).
Proof.
  unfold abs, ofQ at 1. apply ofQ_eq. rewrite Qred_correct. reflexivity.
Qed.

Lemma gtb_ofQ_pos (x : Q) : (0 < x)%Q -> gtb (ofQ x) (ofZ 0) = true.
Proof.
  intros H. unfold gtb, ltb, ofQ, ofZ.
  assert (E : Qcompare (inject_Z 0) (Qred x) = Lt).
  { apply Qlt_alt. rewrite Qred_correct. exact H. }
  rewrite E. reflexivity.
Qed.

Lemma gtb_ofQ_nonpos (x : Q) : (x <= 0)%Q -> gtb (ofQ x) (ofZ 0) = false.
Proof.
  intros H. unfold gtb, ltb, ofQ, ofZ.
  destruct (Qcompare (inject_Z 0) (Qred x)) eqn:E; try reflexivity.
  apply Qlt_alt in E. rewrite Qred_correct in E.
  exfalso. apply (Qlt_not_le _ _ E). exact H.
Qed.

Lemma div_ofQ (a b : Q) : (0 < b)%Q -> div (ofQ a) (ofQ b) = ofQ (a / b).
Proof.
  intros H. unfold div, ofQ at 1 2.
  assert (E : Qcompare (Qred b) 0 = Gt).
  { apply Qgt_alt. rewrite Qred_correct. exact H. }
  rewrite E. apply ofQ_eq. rewrite !Qred_correct. reflexivity.
Qed.

Lemma ofZ_ofQ (z : Z) : ofZ z = ofQ (inject_Z z).
Proof.
  unfold ofZ, ofQ. f_equal. symmetry.
  unfold inject_Z, Qred. cbn [Qnum Qden].
  pose proof (Z.ggcd_correct_divisors z 1) as H.
  pose proof (Z.ggcd_gcd z 1) as G. rewrite Z.gcd_1_r in G.
  destruct (Z.ggcd z 1) as [g [aa bb]]. cbn [fst snd] in *. subst g.
  destruct H as [H1 H2]. rewrite Z.mul_1_l in H1, H2. subst.
  reflexivity.
Qed.

Lemma mul_ofQ_100 (x : Q) : mul (ofQ x) (ofZ 100) = ofQ (x * 100).
Proof.
  unfold mul, ofQ at 1, ofZ. apply ofQ_eq. rewrite Qred_correct. reflexivity.
Qed.

Lemma round_ofQ (x : Q) : round (ofQ x) = ofZ (Qfloor (x + (1 # 2))).
Proof.
  unfold round, ofQ. f_equal. apply Qfloor_comp. rewrite Qred_correct. reflexivity.
Qed.

Lemma round2_ofQ (x : Q) : round2 (ofQ x) = ofQ (Spec.roundTo2 x).
Proof.
  unfold round2. rewrite mul_ofQ_100, round_ofQ, !ofZ_ofQ.
  rewrite div_ofQ by reflexivity. reflexivity.
Qed.

Lemma isFinite_Num (a : number) :
  isFinite a = true -> a = Num (match a with Num q => q | _ => 0%Q end).
Proof. destruct a; cbn; congruence. Qed.

Lemma sumPnL_from (l : list TradeReview.t) :
  Forall (fun t => isFinite (pnlValue t) = true) l ->
  forall x, fold_left (fun sum t => add sum (pnlValue t)) l (ofQ x)
            = ofQ (x + Spec.qsum (map Spec.value l)).
Proof.
  induction 1 as [| t l Ht _ IH]; intros x; cbn [fold_left map Spec.qsum fold_right].
  - apply ofQ_eq. ring.
  - unfold Spec.value at 1. rewrite (isFinite_Num _ Ht) at 1.
    rewrite add_ofQ, IH. apply ofQ_eq. fold (Spec.qsum (map Spec.value l)). ring.
Qed.

Lemma sumPnL_finite (l : list TradeReview.t) :
  Forall (fun t => isFinite (pnlValue t) = true) l ->
  MemStorage.sumPnL l = ofQ (Spec.qsum (map Spec.value l)).
Proof.
  intros H. unfold MemStorage.sumPnL. rewrite ofZ_ofQ, (sumPnL_from l H).
  apply ofQ_eq. ring.
Qed.

Lemma qsum_pos (l : list Q) :
  l <> [] -> (forall q, In q l -> 0 < q)%Q -> (0 < Spec.qsum l)%Q.
Proof.
  induction l as [| a l IH]; intros Hn H; [contradiction |].
  cbn [Spec.qsum fold_right]. fold (Spec.qsum l).
  destruct l as [| b l].
  - cbn. rewrite Qplus_0_r. apply H. left. reflexivity.
  - assert (0 < Spec.qsum (b :: l))%Q.
    { apply IH; [discriminate | intros q Hq; apply H; right; exact Hq]. }
    assert (0 < a)%Q by (apply H; left; reflexivity).
    apply (Qlt_trans _ (0 + Spec.qsum (b :: l))).
    + rewrite Qplus_0_l. assumption.
    + apply Qplus_lt_le_compat; [assumption | apply Qle_refl].
Qed.

Lemma qsum_neg (l : list Q) :
  (forall q, In q l -> q < 0)%Q ->
  (Spec.qsum l <= 0)%Q /\ (Qabs (Spec.qsum l) == Spec.qsum (map Qabs l))%Q.
Proof.
  induction l as [| a l IH]; intros H.
  - cbn. split; [apply Qle_refl | reflexivity].
  - destruct IH as [IH1 IH2]; [intros q Hq; apply H; right; exact Hq |].
    assert (Ha : (a < 0)%Q) by (apply H; left; reflexivity).
    cbn [Spec.qsum fold_right map]. fold (Spec.qsum l). fold (Spec.qsum (map Qabs l)).
    assert (Hs : (a + Spec.qsum l <= 0)%Q).
    { apply (Qle_trans _ (0 + 0)); [| apply Qle_refl].
      apply Qplus_le_compat; [apply Qlt_le_weak; exact Ha | exact IH1]. }
    split; [exact Hs |].
    rewrite (Qabs_neg _ Hs), <- IH2, (Qabs_neg _ IH1),
      (Qabs_neg a (Qlt_le_weak _ _ Ha)). ring.
Qed.


(** *** Profit factor *)

Lemma win_value (t : TradeReview.t) :
  Spec.finiteOrAbsent t = true -> Spec.isWin t = true ->
  isFinite (pnlValue t) = true /\ (0 < Spec.value t)%Q.
Proof.
  unfold Spec.finiteOrAbsent, Spec.isWin, Spec.value, gtb, ltb, ofZ.
  destruct (pnlValue t) as [q | | |]; try discriminate.
  intros _ H. split; [reflexivity |].
  destruct (Qcompare (inject_Z 0) q) eqn:E; try discriminate.
  apply Qlt_alt. exact E.
Qed.

Lemma loss_value (t : TradeReview.t) :
  Spec.finiteOrAbsent t = true -> Spec.isLoss t = true ->
  isFinite (pnlValue t) = true /\ (Spec.value t < 0)%Q.
Proof.
  unfold Spec.finiteOrAbsent, Spec.isLoss, Spec.value, ltb, ofZ.
  destruct (pnlValue t) as [q | | |]; try discriminate.
  intros _ H. split; [reflexivity |].
  destruct (Qcompare q (inject_Z 0)) eqn:E; try discriminate.
  apply Qlt_alt. exact E.
Qed.

Lemma totalWins_finite (trades : list TradeReview.t) :
  Forall (fun t => Spec.finiteOrAbsent t = true) trades ->
  MemStorage.sumPnL (filter Spec.isWin trades) = ofQ (Spec.winSum trades).
Proof.
  intros H. apply sumPnL_finite. apply Forall_forall. intros t Ht.
  apply filter_In in Ht as [Hin Hw]. rewrite Forall_forall in H.
  apply (win_value t (H t Hin) Hw).
Qed.

Lemma totalLosses_finite (trades : list TradeReview.t) :
  Forall (fun t => Spec.finiteOrAbsent t = true) trades ->
  abs (MemStorage.sumPnL (filter Spec.isLoss trades)) = ofQ (Spec.lossSum trades).
Proof.
  intros H. rewrite Forall_forall in H. rewrite sumPnL_finite.
  - rewrite abs_ofQ. apply ofQ_eq. unfold Spec.lossSum.
    rewrite <- (map_map Spec.value Qabs). apply qsum_neg.
    intros q Hq. apply in_map_iff in Hq as (t & <- & Ht).
    apply filter_In in Ht as [Hin Hl]. apply (loss_value t (H t Hin) Hl).
  - apply Forall_forall. intros t Ht. apply filter_In in Ht as [Hin Hl].
    apply (loss_value t (H t Hin) Hl).
Qed.

Lemma winSum_sign (trades : list TradeReview.t) :
  Forall (fun t => Spec.finiteOrAbsent t = true) trades ->
  if 0 <? Spec.countIf Spec.isWin trades
  then (0 < Spec.winSum trades)%Q else (Spec.winSum trades <= 0)%Q.
Proof.
  intros H. rewrite Forall_forall in H. unfold Spec.countIf, Spec.winSum.
  destruct (filter Spec.isWin trades) as [| t l] eqn:E.
  - cbn. apply Qle_refl.
  - replace (0 <? Z.of_nat (List.length (t :: l))) with true
      by (symmetry; apply Z.ltb_lt; cbn [List.length]; lia).
    apply qsum_pos; [discriminate |].
    intros q Hq. apply in_map_iff in Hq as (x & <- & Hx).
    rewrite <- E in Hx. apply filter_In in Hx as [Hin Hw].
    apply (win_value x (H x Hin) Hw).
Qed.

Lemma lossSum_sign (trades : list TradeReview.t) :
  Forall (fun t => Spec.finiteOrAbsent t = true) trades ->
  if 0 <? Spec.countIf Spec.isLoss trades
  then (0 < Spec.lossSum trades)%Q else (Spec.lossSum trades <= 0)%Q.
Proof.
  intros H. rewrite Forall_forall in H. unfold Spec.countIf, Spec.lossSum.
  destruct (filter Spec.isLoss trades) as [| t l] eqn:E.
  - cbn. apply Qle_refl.
  - replace (0 <? Z.of_nat (List.length (t :: l))) with true
      by (symmetry; apply Z.ltb_lt; cbn [List.length]; lia).
    apply qsum_pos; [discriminate |].
    intros q Hq. apply in_map_iff in Hq as (x & <- & Hx).
    rewrite <- E in Hx. apply filter_In in Hx as [Hin Hl].
    destruct (loss_value x (H x Hin) Hl) as [_ Hv].
    rewrite (Qabs_neg _ (Qlt_le_weak _ _ Hv)).
    apply (Qopp_lt_compat _ 0) in Hv. exact Hv.
Qed.

(** With finite values, [profitFactor] is the sum of the wins over the
    sum of the absolute losses, to two decimals; without losses it is 999
    when there is a win and 0 otherwise. *)
Lemma Mem_profitFactor (trades : list TradeReview.t) :
  Forall (fun t => Spec.finiteOrAbsent t = true) trades ->
  TradingStats.profitFactor (MemStorage.statsOfTrades trades)
  = if 0 <? Spec.countIf Spec.isLoss trades
    then ofQ (Spec.roundTo2 (Spec.winSum trades / Spec.lossSum trades))
    else if 0 <? Spec.countIf Spec.isWin trades then ofZ 999 else ofZ 0.
Proof.
  intros H. unfold MemStorage.statsOfTrades.
  destruct (JSArray.length trades =? 0) eqn:E.
  - apply length_zero_nil in E. subst. reflexivity.
  - cbn [TradingStats.profitFactor].
    rewrite filter_hasPnL, filter_wins, filter_losses.
    rewrite totalWins_finite, totalLosses_finite by exact H.
    pose proof (winSum_sign trades H) as HW.
    pose proof (lossSum_sign trades H) as HL.
    destruct (0 <? Spec.countIf Spec.isLoss trades).
    + rewrite gtb_ofQ_pos by exact HL. rewrite div_ofQ by exact HL.
      apply round2_ofQ.
    + rewrite gtb_ofQ_nonpos by exact HL.
      destruct (0 <? Spec.countIf Spec.isWin trades).
      * rewrite gtb_ofQ_pos by exact HW. vm_compute. reflexivity.
      * rewrite gtb_ofQ_nonpos by exact HW. vm_compute. reflexivity.
Qed.


(** *** Trades without a parseable value *)

Lemma filter_idem (A : Type) (p : A -> bool) (l : list A) :
  filter p (filter p l) = filter p l.
Proof.
  rewrite filter_filter. apply filter_ext. intros x. apply andb_diag.
Qed.

(** The trades without a parseable value count in [totalTrades] and in
    nothing else: the numeric results are those of the other trades. *)
Lemma Mem_unparsed_ignored (trades : list TradeReview.t) :
  TradingStats.totalTrades (MemStorage.statsOfTrades trades) = JSArray.length trades
  /\ TradingStats.winRate (MemStorage.statsOfTrades trades)
     = TradingStats.winRate (MemStorage.statsOfTrades (filter Spec.hasPnL trades))
  /\ TradingStats.totalPnL (MemStorage.statsOfTrades trades)
     = TradingStats.totalPnL (MemStorage.statsOfTrades (filter Spec.hasPnL trades))
  /\ TradingStats.avgWin (MemStorage.statsOfTrades trades)
     = TradingStats.avgWin (MemStorage.statsOfTrades (filter Spec.hasPnL trades))
  /\ TradingStats.avgLoss (MemStorage.statsOfTrades trades)
     = TradingStats.avgLoss (MemStorage.statsOfTrades (filter Spec.hasPnL trades))
  /\ TradingStats.profitFactor (MemStorage.statsOfTrades trades)
     = TradingStats.profitFactor (MemStorage.statsOfTrades (filter Spec.hasPnL trades)).
Proof.
  unfold MemStorage.statsOfTrades.
  destruct (JSArray.length trades =? 0) eqn:E.
  - pose proof (length_zero_nil _ _ E) as ->. cbn. repeat split.
  - apply Z.eqb_neq in E. rewrite !filter_hasPnL, filter_idem.
    destruct (filter Spec.hasPnL trades) as [| t l] eqn:P.
    + cbn. repeat split.
    + assert (N : (JSArray.length (t :: l) =? 0) = false).
      { apply Z.eqb_neq. unfold JSArray.length. cbn [List.length]. lia. }
      rewrite N. cbn [TradingStats.totalTrades TradingStats.winRate
                      TradingStats.totalPnL TradingStats.avgWin
                      TradingStats.avgLoss TradingStats.profitFactor].
      repeat split.
Qed.

Lemma parsed_finite (trades : list TradeReview.t) :
  Forall (fun t => Spec.finiteOrAbsent t = true) trades ->
  Forall (fun t => isFinite (pnlValue t) = true) (filter Spec.hasPnL trades).
Proof.
  intros H. rewrite Forall_forall in *. intros t Ht.
  apply filter_In in Ht as [Hin Hp]. specialize (H t Hin).
  unfold Spec.finiteOrAbsent, Spec.hasPnL in *.
  destruct (pnlValue t); cbn in *; congruence.
Qed.

Lemma countIf_pos_Q (A : Type) (p : A -> bool) (l : list A) :
  (0 <? Spec.countIf p l) = true -> (0 < inject_Z (Spec.countIf p l))%Q.
Proof.
  intros H. apply Z.ltb_lt in H. unfold Qlt, inject_Z. cbn. lia.
Qed.

(** With finite values every numeric result is a finite number. *)
Lemma Mem_results_finite (trades : list TradeReview.t) :
  Forall (fun t => Spec.finiteOrAbsent t = true) trades ->
  isFinite (TradingStats.winRate (MemStorage.statsOfTrades trades)) = true
  /\ isFinite (TradingStats.totalPnL (MemStorage.statsOfTrades trades)) = true
  /\ isFinite (TradingStats.avgWin (MemStorage.statsOfTrades trades)) = true
  /\ isFinite (TradingStats.avgLoss (MemStorage.statsOfTrades trades)) = true
  /\ isFinite (TradingStats.profitFactor (MemStorage.statsOfTrades trades)) = true.
Proof.
  intros H. split; [| split; [| split; [| split]]].
  - rewrite Mem_winRate. destruct (0 <? _); reflexivity.
  - unfold MemStorage.statsOfTrades.
    destruct (JSArray.length trades =? 0); [reflexivity |].
    cbn [TradingStats.totalPnL]. rewrite filter_hasPnL.
    rewrite (sumPnL_finite _ (parsed_finite trades H)), round2_ofQ. reflexivity.
  - unfold MemStorage.statsOfTrades.
    destruct (JSArray.length trades =? 0); [reflexivity |].
    cbn [TradingStats.avgWin]. rewrite filter_hasPnL, filter_wins.
    change (JSArray.length (filter Spec.isWin trades))
      with (Spec.countIf Spec.isWin trades).
    destruct (0 <? Spec.countIf Spec.isWin trades) eqn:W; [| reflexivity].
    rewrite totalWins_finite by exact H. rewrite ofZ_ofQ.
    rewrite div_ofQ by (apply countIf_pos_Q; exact W).
    rewrite round2_ofQ. reflexivity.
  - unfold MemStorage.statsOfTrades.
    destruct (JSArray.length trades =? 0); [reflexivity |].
    cbn [TradingStats.avgLoss]. rewrite filter_hasPnL, filter_losses.
    change (JSArray.length (filter Spec.isLoss trades))
      with (Spec.countIf Spec.isLoss trades).
    destruct (0 <? Spec.countIf Spec.isLoss trades) eqn:L; [| reflexivity].
    rewrite totalLosses_finite by exact H. rewrite ofZ_ofQ.
    rewrite div_ofQ by (apply countIf_pos_Q; exact L).
    rewrite round2_ofQ. reflexivity.
  - rewrite Mem_profitFactor by exact H.
    destruct (0 <? _); [reflexivity |]. destruct (0 <? _); reflexivity.
Qed.

End MemTrading.

(** ** Best streak of the in-memory back end *)

Section BestStreak.
Import JSDate JSNumber Common.

Lemma runFrom_nonneg (A : Type) (p : A -> bool) (l : list A) : 0 <= Spec.runFrom p l.
Proof.
  induction l as [| x l IH]; cbn [Spec.runFrom]; [lia |]. destruct (p x); lia.
Qed.

Lemma runFrom_le_maxRun (A : Type) (p : A -> bool) (l : list A) :
  Spec.runFrom p l <= Spec.maxRun p l.
Proof. destruct l as [| x l]; cbn [Spec.runFrom Spec.maxRun]; lia. Qed.

Lemma maxRun_nonneg (A : Type) (p : A -> bool) (l : list A) : 0 <= Spec.maxRun p l.
Proof.
  pose proof (runFrom_nonneg A p l). pose proof (runFrom_le_maxRun A p l). lia.
Qed.

(** A run of [n] elements at the head is no longer than [runFrom]. *)
Lemma runFrom_upper (A : Type) (p : A -> bool) (n : nat) (l : list A) :
  List.length (firstn n l) = n -> forallb p (firstn n l) = true ->
  Z.of_nat n <= Spec.runFrom p l.
Proof.
  revert l. induction n as [| n IH]; intros l Hl Hp.
  - apply runFrom_nonneg.
  - destruct l as [| x l]; [discriminate |].
    cbn [firstn List.length forallb] in Hl, Hp. cbn [Spec.runFrom].
    apply andb_prop in Hp as [Hx Hp]. rewrite Hx.
    injection Hl as Hl. specialize (IH l Hl Hp). lia.
Qed.

Lemma runFrom_attained (A : Type) (p : A -> bool) (l : list A) :
  let n := Z.to_nat (Spec.runFrom p l) in
  List.length (firstn n l) = n /\ forallb p (firstn n l) = true.
Proof.
  induction l as [| x l IH]; cbn [Spec.runFrom]; [cbn; auto |].
  destruct (p x) eqn:E; [| cbn; auto].
  pose proof (runFrom_nonneg A p l) as H0.
  replace (Z.to_nat (1 + Spec.runFrom p l)) with (S (Z.to_nat (Spec.runFrom p l))) by lia.
  cbn [firstn List.length forallb]. rewrite E. destruct IH as [I1 I2].
  rewrite I1, I2. auto.
Qed.

(** No window of consecutive [p]-elements is longer than [maxRun]. *)
Lemma maxRun_upper (A : Type) (p : A -> bool) (l : list A) (i n : nat) :
  List.length (Spec.window i n l) = n -> forallb p (Spec.window i n l) = true ->
  Z.of_nat n <= Spec.maxRun p l.
Proof.
  unfold Spec.window. revert l. induction i as [| i IH]; intros l Hl Hp.
  - cbn [skipn] in *. pose proof (runFrom_upper A p n l Hl Hp).
    pose proof (runFrom_le_maxRun A p l). lia.
  - destruct l as [| x l].
    + cbn in Hl. destruct n; cbn in Hl; [apply maxRun_nonneg | discriminate].
    + cbn [skipn] in Hl, Hp. specialize (IH l Hl Hp). cbn [Spec.maxRun]. lia.
Qed.

(** Some window of consecutive [p]-elements has the length [maxRun]. *)
Lemma maxRun_attained (A : Type) (p : A -> bool) (l : list A) :
  exists i,
    let n := Z.to_nat (Spec.maxRun p l) in
    List.length (Spec.window i n l) = n /\ forallb p (Spec.window i n l) = true.
Proof.
  unfold Spec.window. induction l as [| x l IH].
  - exists 0%nat. cbn. auto.
  - cbn [Spec.maxRun].
    destruct (Z.max_spec (Spec.runFrom p (x :: l)) (Spec.maxRun p l)) as [[_ E] | [_ E]];
      rewrite E.
    + destruct IH as [i Hi]. exists (S i). exact Hi.
    + exists 0%nat. apply runFrom_attained.
Qed.

(** The scan of [getMonthlyStats] returns the longest run. *)
Lemma streakScan_maxRun (days : list WeeklyEntry.t) :
  forall c b, 0 <= c <= b ->
    MemStorage.streakScan days c b
    = Z.max b (Z.max (c + Spec.runFrom Spec.fullDay days)
                     (Spec.maxRun Spec.fullDay days)).
Proof.
  induction days as [| x days IH]; intros c b H;
    cbn [MemStorage.streakScan Spec.runFrom Spec.maxRun].
  - lia.
  - pose proof (runFrom_nonneg _ Spec.fullDay days).
    pose proof (runFrom_le_maxRun _ Spec.fullDay days).
    fold (Spec.fullDay x). destruct (Spec.fullDay x).
    + rewrite IH by lia. lia.
    + rewrite IH by lia. lia.
Qed.

(** [MemStorage.getMonthlyStats] returns as [bestStreak] the longest run
    of days at rate 100 in the month's series of [getWeeklyProgress]. *)
Lemma Mem_bestStreak (st : MemStorage.t) (year month : Z) :
  100 <= year <= 9999 -> 1 <= month <= 12 ->
  exists r series,
    MemStorage.getMonthlyStats st year month = Some r
    /\ MemStorage.getWeeklyProgress st (Spec.dateString year month 1)
         (Spec.dateString year month (Spec.DaysInMonth year month)) = Some series
    /\ map WeeklyEntry.date series
       = map (Spec.dateString year month) (Spec.monthDays (Spec.DaysInMonth year month))
    /\ MonthlyStats.bestStreak r = Spec.maxRun Spec.fullDay series.
Proof.
  intros Hy Hm. unfold MemStorage.getMonthlyStats.
  pose proof (DaysInMonth_range year month Hm) as Hr.
  destruct (fromFields_four year (month - 1) 1 Hy ltac:(lia)
              ltac:(replace (month - 1 + 1) with month by lia; lia)) as [Es Fs].
  destruct (fromFields_four year (month - 1) (Spec.DaysInMonth year month) Hy
              ltac:(lia) ltac:(replace (month - 1 + 1) with month by lia; lia))
    as [Ee Fe].
  assert (Ee' : fromFields year month 0
                = Some (MakeDay year (month - 1) (Spec.DaysInMonth year month))).
  { rewrite <- Ee. rewrite !fromFields_plain by lia.
    rewrite MakeDay_end_of_month by exact Hm. reflexivity. }
  rewrite Es, Ee'.
  assert (Is : isoDateOfDay (MakeDay year (month - 1) 1) = Spec.dateString year month 1).
  { rewrite isoDateOfDay_MakeDay; [| lia | lia |];
      replace (month - 1 + 1) with month by lia; [reflexivity | lia]. }
  assert (Ie : isoDateOfDay (MakeDay year (month - 1) (Spec.DaysInMonth year month))
               = Spec.dateString year month (Spec.DaysInMonth year month)).
  { rewrite isoDateOfDay_MakeDay; [| lia | lia |];
      replace (month - 1 + 1) with month by lia; [reflexivity | lia]. }
  set (s := MakeDay year (month - 1) 1) in *.
  set (e := MakeDay year (month - 1) (Spec.DaysInMonth year month)) in *.
  pose proof (fourDigit_clip s Fs) as Cs. pose proof (fourDigit_clip e Fe) as Ce.
  rewrite (forEachDay_exact _ (MemStorage.monthStep st (MemStorage.getHabits st)) e
             ltac:(lia) (Z.to_nat (e - s + 1)) s _ _ eq_refl ltac:(lia) (le_n _)).
  destruct (fold_left _ _ _) as [[tc tp] pd].
  cbn [toISODate option_map].
  pose proof (Mem_weekly_exact st (isoDateOfDay s) (isoDateOfDay e) s e
                (parse_isoDateOfDay s Fs) (parse_isoDateOfDay e Fe)) as HW.
  rewrite HW. rewrite Is, Ie in HW.
  eexists. eexists. split; [reflexivity |]. split; [exact HW |]. split.
  - rewrite map_map. cbn [WeeklyEntry.date MemStorage.dayEntry].
    rewrite <- (map_map isoDateOfDay (fun x => x)), map_id.
    unfold s, e. apply month_dates; lia.
  - cbn [MonthlyStats.bestStreak]. rewrite streakScan_maxRun by lia.
    pose proof (maxRun_nonneg _ Spec.fullDay
                  (map (fun t => MemStorage.dayEntry st (MemStorage.getHabits st)
                                   (isoDateOfDay t)) (Spec.dayRange s e))).
    pose proof (runFrom_le_maxRun _ Spec.fullDay
                  (map (fun t => MemStorage.dayEntry st (MemStorage.getHabits st)
                                   (isoDateOfDay t)) (Spec.dayRange s e))).
    lia.
Qed.

End BestStreak.

(** ** Current streak of the in-memory back end *)

Section CurrentStreak.
Import JSDate JSNumber Common.

Lemma Mem_getHabitCompletions_all (st : MemStorage.t) (id : Z) :
  MemStorage.getHabitCompletions st id None None
  = filter (fun c => HabitCompletion.habitId c =? id)
           (JSMap.values (MemStorage.habitCompletions st)).
Proof.
  unfold MemStorage.getHabitCompletions. apply filter_ext. intros c.
  destruct (HabitCompletion.habitId c =? id); reflexivity.
Qed.

(** In a store that satisfies the invariant, looking for a date among the
    sorted completions of a habit is the lookup by key. *)
Lemma find_sorted_completion (st : MemStorage.t) (id : Z) (dateStr : string) :
  Spec.memInvariant st ->
  find (fun c => (HabitCompletion.date c =? dateStr)%string)
       (JSArray.sort (fun a b => String.compare (HabitCompletion.date b)
                                                (HabitCompletion.date a))
                     (MemStorage.getHabitCompletions st id None None))
  = MemStorage.getHabitCompletion st id dateStr.
Proof.
  intros (_ & _ & Hc & Hn). rewrite Mem_getHabitCompletions_all.
  unfold MemStorage.getHabitCompletion.
  set (m := MemStorage.habitCompletions st) in *.
  set (key := MemStorage.completionKey id dateStr).
  set (sorted := JSArray.sort _ _).
  assert (Hfound : forall c', In c' sorted ->
            (HabitCompletion.date c' =? dateStr)%string = true ->
            JSMap.get String.eqb key m = Some c').
  { intros c' Hin Hd. apply sort_In in Hin. apply filter_In in Hin as [Hin Hid].
    apply Z.eqb_eq in Hid. apply String.eqb_eq in Hd.
    unfold JSMap.values in Hin. apply in_map_iff in Hin as ([k v] & Ev & Hin).
    cbn in Ev. subst v. pose proof (Hc k c' Hin) as Hk. rewrite Hid, Hd in Hk.
    subst k. apply (In_get _ _ _ Seqb_spec); assumption. }
  destruct (find _ sorted) as [c' |] eqn:F.
  - apply find_some in F as [Hin Hd]. symmetry. apply Hfound; assumption.
  - destruct (JSMap.get String.eqb key m) as [c |] eqn:G; [| reflexivity].
    exfalso. pose proof (get_In _ _ _ Seqb_spec _ _ _ G) as Hin.
    pose proof (Hc key c Hin) as Hk. unfold key in Hk.
    apply completionKey_inj in Hk as [Hid Hd].
    assert (Hs : In c sorted).
    { apply sort_In. apply filter_In. split.
      - unfold JSMap.values. change c with (snd (key, c)). apply in_map. exact Hin.
      - apply Z.eqb_eq. symmetry. exact Hid. }
    pose proof (find_none _ _ F c Hs) as Hf. cbn in Hf.
    rewrite <- Hd, String.eqb_refl in Hf. discriminate.
Qed.

(** The loop counts the completed days before the first gap. *)
Lemma streakLoop_run (sorted : list HabitCompletion.t) :
  forall (k n : nat) (d acc : Z),
    (k <= n)%nat ->
    -99000000 <= d - Z.of_nat k -> d <= 99000000 ->
    (forall i, 0 <= i < Z.of_nat k ->
       isCompleted (find (fun c => (HabitCompletion.date c =? isoDateOfDay (d - i))%string)
                         sorted) = true) ->
    ((k < n)%nat ->
       isCompleted (find (fun c => (HabitCompletion.date c
                                    =? isoDateOfDay (d - Z.of_nat k))%string)
                         sorted) = false) ->
    MemStorage.streakLoop n sorted (Some d) acc = Some (acc + Z.of_nat k).
Proof.
  induction k as [| k IH]; intros n d acc Hkn Hlo Hhi Hall Hgap.
  - destruct n as [| n]; cbn [MemStorage.streakLoop]; [f_equal; lia |].
    cbn [toISODate option_map].
    specialize (Hgap ltac:(lia)). cbn [Z.of_nat] in Hgap. rewrite Z.sub_0_r in Hgap.
    unfold isCompleted in Hgap. revert Hgap.
    destruct (find (fun c => (HabitCompletion.date c =? isoDateOfDay d)%string)
                   sorted) as [c |]; intros Hgap; [| f_equal; lia].
    rewrite Hgap. f_equal. lia.
  - destruct n as [| n]; [lia |]. cbn [MemStorage.streakLoop toISODate option_map].
    pose proof (Hall 0 ltac:(lia)) as H0. rewrite Z.sub_0_r in H0.
    unfold isCompleted in H0. revert H0.
    destruct (find (fun c => (HabitCompletion.date c =? isoDateOfDay d)%string)
                   sorted) as [c |]; intros H0; [| discriminate].
    rewrite H0, addDays_Some, TimeClip_Some by lia.
    rewrite (IH n (d + -1) (acc + 1)); [f_equal; lia | lia | lia | lia | |].
    + intros i Hi. replace (d + -1 - i) with (d - (i + 1)) by lia.
      apply Hall. lia.
    + intros Hk. replace (d + -1 - Z.of_nat k) with (d - Z.of_nat (S k)) by lia.
      apply Hgap. lia.
Qed.

Lemma streakLoop_total (sorted : list HabitCompletion.t) :
  forall (n : nat) (d acc : Z),
    -99000000 <= d - Z.of_nat n -> d <= 99000000 ->
    exists r, MemStorage.streakLoop n sorted (Some d) acc = Some r.
Proof.
  induction n as [| n IH]; intros d acc Hlo Hhi; cbn [MemStorage.streakLoop].
  - eauto.
  - cbn [toISODate option_map]. destruct (find _ sorted) as [c |]; [| eauto].
    destruct (HabitCompletion.completed c); [| eauto].
    rewrite addDays_Some, TimeClip_Some by lia. apply IH; lia.
Qed.

Lemma filterE_total (A : Type) (p : A -> option bool) (l : list A) :
  (forall x, exists b, p x = Some b) -> exists r, JSArray.filterE p l = Some r.
Proof.
  intros H. induction l as [| x l [r IH]]; cbn; [eauto |].
  destruct (H x) as [b ->]. rewrite IH. eauto.
Qed.

Lemma mapE_total (A B : Type) (f : A -> option B) (l : list A) :
  (forall x, In x l -> exists y, f x = Some y) ->
  exists r, JSArray.mapE f l = Some r
            /\ forall x y, In x l -> f x = Some y -> In y r.
Proof.
  induction l as [| x l IH]; intros H; cbn.
  - exists []. split; [reflexivity | intros x y []].
  - destruct (H x (or_introl eq_refl)) as [y Hy]. rewrite Hy.
    destruct IH as (r & Hr & Hin); [intros z Hz; apply H; right; exact Hz |].
    rewrite Hr. exists (y :: r). split; [reflexivity |].
    intros x' y' [-> | Hx'] Hf.
    + left. congruence.
    + right. apply (Hin x' y' Hx' Hf).
Qed.

Lemma monthStart_range (m l : Z) : 0 <= l <= 1 -> 0 <= monthStart m l <= 335.
Proof.
  intros Hl. unfold monthStart.
  destruct m as [| p | p]; try lia.
  do 4 (destruct p as [p | p |]; try lia).
Qed.

(** Month boundaries around a date of the years 0000..9999 are valid. *)
Lemma fromFields_valid (y m dt : Z) :
  0 <= y <= 9999 -> 0 <= m <= 12 -> 0 <= dt <= 31 ->
  exists t, fromFields y m dt = Some t.
Proof.
  intros Hy Hm Hd. unfold fromFields.
  set (yr := if (0 <=? y) && (y <=? 99) then 1900 + y else y).
  assert (Hyr : 0 <= yr <= 9999).
  { unfold yr. destruct ((0 <=? y) && (y <=? 99)) eqn:E; [| lia].
    apply andb_prop in E as [E1 E2]. apply Z.leb_le in E1, E2. lia. }
  clearbody yr. exists (MakeDay yr m dt). apply TimeClip_Some.
  unfold MakeDay.
  assert (Hq : 0 <= m / 12 <= 1) by (Z.div_mod_to_equations; lia).
  pose proof (DayFromYear_mono 0 (yr + m / 12) ltac:(lia)) as L1.
  pose proof (DayFromYear_mono (yr + m / 12) 10000 ltac:(lia)) as L2.
  change (DayFromYear 0) with (-719528) in L1.
  change (DayFromYear 10000) with 2932897 in L2.
  pose proof (monthStart_range (m mod 12) (leapDays (yr + m / 12))
                (leapDays_range _)).
  lia.
Qed.

Lemma Mem_habitStats_total (st : MemStorage.t) (date : string) (d : Z)
    (habit : Habit.t) :
  parse date = Some d ->
  exists y, MemStorage.habitStats st date habit = Some y.
Proof.
  intros Hp. pose proof (parse_fourDigitDay _ _ Hp) as Fd.
  pose proof (fourDigit_year d Fd) as Yd.
  destruct Fd as [Fd1 Fd2].
  change (DayFromYear 0) with (-719528) in Fd1.
  change (DayFromYear 10000) with 2932897 in Fd2.
  pose proof (MonthFromDay_range d) as Md.
  unfold MemStorage.habitStats. rewrite Hp.
  cbn [getFullYear getMonth option_map fromFieldsN].
  destruct (fromFields_valid (YearFromDay d) (MonthFromDay d) 1 Yd ltac:(lia) ltac:(lia))
    as [s ->].
  destruct (fromFields_valid (YearFromDay d) (MonthFromDay d + 1) 0 Yd
              ltac:(lia) ltac:(lia)) as [e ->].
  cbn [toISODate option_map].
  destruct (filterE_total _
              (fun c => if negb (JSString.ge (HabitCompletion.date c) (isoDateOfDay s))
                        then Some false
                        else Some (JSString.le (HabitCompletion.date c) (isoDateOfDay e)
                                   && HabitCompletion.completed c))
              (MemStorage.getHabitCompletions st (Habit.id habit) None None))
    as [mc ->].
  { intros c. destruct (negb _); eauto. }
  destruct (streakLoop_total
              (JSArray.sort (fun a b => String.compare (HabitCompletion.date b)
                                                       (HabitCompletion.date a))
                 (MemStorage.getHabitCompletions st (Habit.id habit) None None))
              365 d 0 ltac:(lia) ltac:(lia)) as [r ->].
  eauto.
Qed.

Lemma Mem_habitStats_streak (st : MemStorage.t) (date : string) (habit : Habit.t)
    (x : HabitWithStats.t) :
  MemStorage.habitStats st date habit = Some x ->
  MemStorage.streakLoop 365
    (JSArray.sort (fun a b => String.compare (HabitCompletion.date b)
                                             (HabitCompletion.date a))
       (MemStorage.getHabitCompletions st (Habit.id habit) None None))
    (parse date) 0
  = Some (HabitWithStats.currentStreak x).
Proof.
  unfold MemStorage.habitStats.
  destruct (JSArray.filterE _ _); [| discriminate].
  destruct (MemStorage.streakLoop _ _ _ _) as [z |]; [| discriminate].
  intros H. injection H as <-. reflexivity.
Qed.

(** A habit completed on the [k] days up to the reference date, and not on
    the day before them, has the current streak [k], for every [k] up to
    the cap of 365 days. *)
Lemma Mem_currentStreak (st : MemStorage.t) (date : string) (d : Z)
    (habit : Habit.t) (k : nat) :
  Spec.memReachable st ->
  parse date = Some d ->
  In habit (MemStorage.getHabits st) ->
  (k <= 365)%nat ->
  (forall i, 0 <= i < Z.of_nat k ->
     Spec.memCompleted st (Habit.id habit) (isoDateOfDay (d - i)) = true) ->
  Spec.memCompleted st (Habit.id habit) (isoDateOfDay (d - Z.of_nat k)) = false ->
  exists r x,
    MemStorage.getHabitsWithStats st date = Some r
    /\ In x r
    /\ HabitWithStats.habit x = habit
    /\ HabitWithStats.currentStreak x = Z.of_nat k.
Proof.
  intros Hr Hp Hin Hk Hall Hgap.
  pose proof (memReachable_invariant st Hr) as Hi.
  destruct (parse_fourDigitDay _ _ Hp) as [Fd1 Fd2].
  change (DayFromYear 0) with (-719528) in Fd1.
  change (DayFromYear 10000) with 2932897 in Fd2.
  unfold MemStorage.getHabitsWithStats.
  destruct (mapE_total _ _ (MemStorage.habitStats st date) (MemStorage.getHabits st))
    as (r & Hres & Hmem).
  { intros h _. apply (Mem_habitStats_total st date d h Hp). }
  destruct (Mem_habitStats_total st date d habit Hp) as [x Hx].
  exists r, x. split; [exact Hres |]. split; [apply (Hmem habit x Hin Hx) |].
  split; [apply (Mem_habitStats_habit st date habit x Hx) |].
  pose proof (Mem_habitStats_streak st date habit x Hx) as Hs. rewrite Hp in Hs.
  rewrite (streakLoop_run _ k 365 d 0 Hk ltac:(lia) ltac:(lia)) in Hs.
  - injection Hs as Hs. lia.
  - intros i Hi'. rewrite find_sorted_completion by exact Hi. apply Hall. exact Hi'.
  - intros _. rewrite find_sorted_completion by exact Hi. exact Hgap.
Qed.

End CurrentStreak.

(** ** Where the relational back end departs from the in-memory one *)

Section DatabaseAnalytics.
Import JSNumber Common.

(** [DatabaseStorage.getMonthlyStats] never assigns [bestStreak]. *)
Lemma DB_bestStreak_zero (db : DatabaseStorage.t) (year month : Z) :
  MonthlyStats.bestStreak (DatabaseStorage.getMonthlyStats db year month) = 0.
Proof.
  unfold DatabaseStorage.getMonthlyStats.
  destruct (fold_left _ _ _) as [tc pd]. reflexivity.
Qed.

Lemma DB_wins_count (trades : list TradeReview.t) (acc : DatabaseStorage.tradeAcc) :
  DatabaseStorage.wins (fold_left DatabaseStorage.tradeStep trades acc)
  = DatabaseStorage.wins acc + Spec.countIf Spec.isWin trades.
Proof.
  unfold Spec.countIf. revert acc.
  induction trades as [| t l IH]; intros acc; cbn [fold_left filter List.length].
  - lia.
  - rewrite IH.
    assert (H : DatabaseStorage.wins (DatabaseStorage.tradeStep acc t)
                = DatabaseStorage.wins acc + (if Spec.isWin t then 1 else 0)).
    { unfold DatabaseStorage.tradeStep, Spec.isWin, pnlValue, JSString.truthyOpt,
        JSString.truthy.
      destruct (TradeReview.pnl t) as [s |]; [| cbn; lia].
      destruct (String.eqb_spec s "") as [-> | N]; [cbn; lia |].
      cbn [negb]. destruct (gtb (parseFloat s) (ofZ 0)); [cbn; lia |].
      destruct (ltb (parseFloat s) (ofZ 0)); cbn; lia. }
    rewrite H. destruct (Spec.isWin t); cbn [List.length]; lia.
Qed.

(** [DatabaseStorage.getTradingStats] takes the share of wins among all
    trades. *)
Lemma DB_winRate (trades : list TradeReview.t) :
  trades <> [] ->
  TradingStats.winRate (DatabaseStorage.statsOfTrades trades)
  = ofZ (Spec.roundedPercent (Spec.countIf Spec.isWin trades) (JSArray.length trades)).
Proof.
  intros Hn. unfold DatabaseStorage.statsOfTrades.
  assert (Hl : 0 < JSArray.length trades).
  { unfold JSArray.length. destruct trades; [contradiction | cbn [List.length]; lia]. }
  destruct (JSArray.length trades =? 0) eqn:E; [apply Z.eqb_eq in E; lia |].
  cbn [TradingStats.winRate]. rewrite DB_wins_count. cbn [DatabaseStorage.wins].
  rewrite Z.add_0_l. apply round_percent. exact Hl.
Qed.

(** The streak loop of [DatabaseStorage.getHabitsWithStats] comes to its
    end on the fuel of [daysFuel]: the query always returns. *)
Lemma DB_streakLoop_total (completionsMap : JSMap.t string bool) (monthStart : string) :
  forall (fuel : nat) (checkDate : JSDate.Date) (acc : Z),
    (daysFuel (JSDate.parse monthStart) checkDate <= fuel)%nat ->
    exists r,
      DatabaseStorage.streakLoop fuel completionsMap checkDate monthStart acc = Some r.
Proof.
  induction fuel as [| k IH]; intros checkDate acc Hf.
  - destruct (JSDate.parse monthStart), checkDate; cbn in Hf; lia.
  - cbn [DatabaseStorage.streakLoop].
    destruct (JSDate.geb checkDate (JSDate.parse monthStart)) eqn:E; [| eauto].
    unfold JSDate.geb, JSDate.leb in E.
    destruct (JSDate.parse monthStart) as [m |]; [| discriminate].
    destruct checkDate as [t |]; [| discriminate].
    apply Z.leb_le in E. cbn [JSDate.toISODate option_map].
    destruct (JSMap.get String.eqb _ completionsMap) as [[|] |]; eauto.
    rewrite addDays_Some. apply IH. cbn [daysFuel] in Hf.
    unfold JSDate.TimeClip. destruct (Z.abs (t + -1) <=? 100000000);
      cbn [daysFuel]; lia.
Qed.

Lemma DB_getHabitsWithStats_total (db : DatabaseStorage.t) (date : string) :
  exists r, DatabaseStorage.getHabitsWithStats db date = Some r.
Proof.
  unfold DatabaseStorage.getHabitsWithStats.
  destruct (mapE_total _ _ (DatabaseStorage.habitStats db date)
              (DatabaseStorage.getHabits db)) as (r & Hr & _); [| eauto].
  intros h _. unfold DatabaseStorage.habitStats.
  match goal with
  | |- context [DatabaseStorage.streakLoop ?f ?m ?c ?s ?a] =>
      destruct (DB_streakLoop_total m s f c a (le_n _)) as [z ->]
  end.
  eauto.
Qed.

End DatabaseAnalytics.

(** C1: on four trades of which three carry a profit-and-loss value and
    one of these is a win, [MemStorage.getTradingStats] returns the win
    rate 33 = round(1 / 3 * 100), over the trades with a value, while
    [DatabaseStorage.getTradingStats] returns 25 = round(1 / 4 * 100),
    over all trades. *)
Theorem C1_winRate_database_divides_by_totalTrades :
  TradingStats.totalTrades
    (DatabaseStorage.getTradingStats Examples.dbTrades "2024-01-01" "2024-12-31") = 4
  /\ TradingStats.winRate
       (MemStorage.getTradingStats Examples.memTrades "2024-01-01" "2024-12-31")
     = JSNumber.ofZ 33
  /\ TradingStats.winRate
       (DatabaseStorage.getTradingStats Examples.dbTrades "2024-01-01" "2024-12-31")
     = JSNumber.ofZ 25.
Proof. repeat split; vm_compute; reflexivity. Qed.

(** C2: on the trades 100, -50, -50 the in-memory back end returns the
    profit factor 100 / 100 = 1 and the relational one the ratio of the
    averages, 100 / 50 = 2; on a single winning trade the in-memory back
    end returns the sentinel 999 and the relational one 0. *)
Theorem C2_profitFactor_database_ratio_of_averages :
  TradingStats.profitFactor
    (MemStorage.getTradingStats Examples.memTrades "2024-01-01" "2024-12-31")
  = JSNumber.ofZ 1
  /\ TradingStats.profitFactor
       (DatabaseStorage.getTradingStats Examples.dbTrades "2024-01-01" "2024-12-31")
     = JSNumber.ofZ 2
  /\ TradingStats.profitFactor
       (MemStorage.getTradingStats Examples.memOneWin "2024-01-01" "2024-12-31")
     = JSNumber.ofZ 999
  /\ TradingStats.profitFactor
       (DatabaseStorage.getTradingStats Examples.dbOneWin "2024-01-01" "2024-12-31")
     = JSNumber.ofZ 0.
Proof. repeat split; vm_compute; reflexivity. Qed.

(** C3: [DatabaseStorage.getMonthlyStats] returns the best streak 0 for
    every store and month.  With one active habit completed on 2024-02-28
    and 2024-02-29, the daily rates of February 2024 are 100 on these two
    consecutive days (two perfect days): [MemStorage.getMonthlyStats]
    returns the best streak 2, the relational back end 0. *)
Theorem C3_bestStreak_database_always_zero :
  (forall db year month,
     MonthlyStats.bestStreak (DatabaseStorage.getMonthlyStats db year month) = 0)
  /\ option_map MonthlyStats.bestStreak
       (MemStorage.getMonthlyStats Examples.memOneHabit 2024 2) = Some 2
  /\ MonthlyStats.bestStreak
       (DatabaseStorage.getMonthlyStats Examples.dbOneHabit 2024 2) = 0
  /\ MonthlyStats.perfectDays
       (DatabaseStorage.getMonthlyStats Examples.dbOneHabit 2024 2) = 2.
Proof.
  split; [exact DB_bestStreak_zero |].
  repeat split; vm_compute; reflexivity.
Qed.

(** C4: a habit completed on 2024-02-28, 2024-02-29 and 2024-03-01 and not
    on 2024-02-27 has, at the reference date 2024-03-01, the current
    streak 3 in [MemStorage.getHabitsWithStats] and 1 in
    [DatabaseStorage.getHabitsWithStats], which stops at the first day of
    the month. *)
Theorem C4_currentStreak_database_stops_at_month_start :
  Spec.memCompleted Examples.memOneHabit 1 "2024-02-27" = false
  /\ option_map (map HabitWithStats.currentStreak)
       (MemStorage.getHabitsWithStats Examples.memOneHabit "2024-03-01")
     = Some [3]
  /\ option_map (map HabitWithStats.currentStreak)
       (DatabaseStorage.getHabitsWithStats Examples.dbOneHabit "2024-03-01")
     = Some [1].
Proof. repeat split; vm_compute; reflexivity. Qed.

(** C5: with a trade of 100 and a trade whose value does not parse, the
    in-memory back end returns the total 100 and the relational one
    NaN. *)
Theorem C5_unparseable_pnl_database_total_is_NaN :
  TradingStats.totalPnL
    (MemStorage.getTradingStats Examples.memNaNPnL "2024-01-01" "2024-12-31")
  = JSNumber.ofZ 100
  /\ TradingStats.totalPnL
       (DatabaseStorage.getTradingStats Examples.dbNaNPnL "2024-01-01" "2024-12-31")
     = JSNumber.NaN.
Proof. repeat split; vm_compute; reflexivity. Qed.
(* ===================================================================== *)
(** ** Creating, updating and deleting records of the in-memory store *)
(* ===================================================================== *)

Section MapUpdates.
Variables (K V : Type) (keq : K -> K -> bool).
Hypothesis keq_spec : forall a b, keq a b = true <-> a = b.

(** A new key goes to the end. *)
Lemma set_absent (k : K) (v : V) (m : JSMap.t K V) :
  JSMap.get keq k m = None -> JSMap.set keq k v m = m ++ [(k, v)].
Proof.
  induction m as [| [k' v'] r IH]; cbn; intros H; [reflexivity |].
  destruct (keq k k'); [discriminate |]. rewrite IH by exact H. reflexivity.
Qed.

(** An existing key keeps its place. *)
Lemma set_present_keys (k : K) (v : V) (m : JSMap.t K V) :
  JSMap.get keq k m <> None -> JSMap.keys (JSMap.set keq k v m) = JSMap.keys m.
Proof.
  induction m as [| [k' v'] r IH]; cbn; intros H; [congruence |].
  destruct (keq k k') eqn:E; cbn.
  - apply keq_spec in E. subst k'. reflexivity.
  - f_equal. apply IH. exact H.
Qed.

Lemma set_set (k : K) (v v' : V) (m : JSMap.t K V) :
  JSMap.set keq k v (JSMap.set keq k v' m) = JSMap.set keq k v m.
Proof.
  assert (R : keq k k = true) by (apply keq_spec; reflexivity).
  induction m as [| [k' w] r IH]; cbn.
  - rewrite R. reflexivity.
  - destruct (keq k k') eqn:E; cbn.
    + rewrite R. reflexivity.
    + rewrite E, IH. reflexivity.
Qed.

Lemma remove_absent (k : K) (m : JSMap.t K V) :
  JSMap.get keq k m = None -> JSMap.remove keq k m = m.
Proof.
  unfold JSMap.remove.
  induction m as [| [k' v'] r IH]; cbn; intros H; [reflexivity |].
  destruct (keq k k'); [discriminate |]. cbn. rewrite IH by exact H. reflexivity.
Qed.

Lemma keys_length (m : JSMap.t K V) :
  List.length (JSMap.keys m) = List.length (JSMap.values m).
Proof. unfold JSMap.keys, JSMap.values. rewrite !length_map. reflexivity. Qed.

(** With distinct keys, at most one entry sits under a key. *)
Lemma filter_key_length (k : K) (m : JSMap.t K V) :
  NoDup (JSMap.keys m) ->
  List.length (filter (fun e => keq k (fst e)) m)
  = match JSMap.get keq k m with
    | Some _ => 1%nat
    | None => 0%nat
    end.
Proof.
  induction m as [| [k' v'] r IH]; cbn; intros H; [reflexivity |].
  inversion H as [| ? ? Hn Hr]; subst.
  destruct (keq k k') eqn:E.
  - apply keq_spec in E. subst k'. cbn. rewrite IH by exact Hr.
    destruct (JSMap.get keq k r) eqn:G; [| reflexivity].
    exfalso. apply Hn.
    pose proof (get_In _ _ _ keq_spec _ _ _ G) as Hin.
    apply (in_map fst) in Hin. exact Hin.
  - apply IH. exact Hr.
Qed.

End MapUpdates.

(** *** Reachable example stores *)

Section ReachableExamples.

Lemma reach_new : Spec.memReachable MemStorage.new.
Proof. exists []. reflexivity. Qed.

Lemma reach_mem1 : Spec.memReachable Examples.mem1.
Proof.
  exists [Spec.PutCompletion (InsertHabitCompletion.mk 1 "2024-02-29" (Some true));
          Spec.PutCompletion (InsertHabitCompletion.mk 1 "2024-03-01" (Some true))].
  reflexivity.
Qed.

Lemma reach_memTrades : Spec.memReachable Examples.memTrades.
Proof. exists (map Spec.CreateTrade Examples.tradeInputs). reflexivity. Qed.

Lemma reach_memOneHabit : Spec.memReachable Examples.memOneHabit.
Proof.
  exists [Spec.DeleteHabit 2; Spec.DeleteHabit 3; Spec.DeleteHabit 4;
          Spec.PutCompletion (InsertHabitCompletion.mk 1 "2024-02-28" (Some true));
          Spec.PutCompletion (InsertHabitCompletion.mk 1 "2024-02-29" (Some true));
          Spec.PutCompletion (InsertHabitCompletion.mk 1 "2024-03-01" (Some true))].
  reflexivity.
Qed.

End ReachableExamples.

(** *** Habits *)

Section HabitOps.

Lemma values_In (K V : Type) (m : JSMap.t K V) (v : V) :
  In v (JSMap.values m) <-> exists k, In (k, v) m.
Proof.
  unfold JSMap.values. rewrite in_map_iff. split.
  - intros ([k v'] & E & H). cbn in E. subst v'. exists k. exact H.
  - intros [k H]. exists (k, v). split; [reflexivity | exact H].
Qed.

Lemma values_app (K V : Type) (m : JSMap.t K V) (k : K) (v : V) :
  JSMap.values (m ++ [(k, v)]) = JSMap.values m ++ [v].
Proof. unfold JSMap.values. rewrite map_app. reflexivity. Qed.

Lemma fresh_key (V : Type) (key : V -> Z) (next : Z) (m : JSMap.t Z V) :
  Spec.keyedBy key next m -> JSMap.get Z.eqb next m = None.
Proof.
  intros H. destruct (JSMap.get Z.eqb next m) as [v |] eqn:G; [| reflexivity].
  destruct (keyedBy_get _ _ _ _ _ _ H G) as [_ Hlt]. lia.
Qed.

Lemma deactivate_idem (h : Habit.t) :
  Habit.deactivate (Habit.deactivate h) = Habit.deactivate h.
Proof. reflexivity. Qed.

Lemma Mem_eta (st : MemStorage.t) :
  MemStorage.mk (MemStorage.habits st) (MemStorage.habitCompletions st)
    (MemStorage.tradeReviews st) (MemStorage.currentHabitId st)
    (MemStorage.currentCompletionId st) (MemStorage.currentTradeId st) = st.
Proof. destruct st. reflexivity. Qed.

End HabitOps.

(** X1: [createHabit] on a reachable store hands out an identifier that no
    stored habit has (it is larger than every identifier in the store,
    deleted habits included); the new habit is active, is what [getHabit]
    returns for that identifier, and comes last in [getHabits]; the lookup
    of every other identifier is unchanged. *)
Theorem X1_createHabit_fresh_identifier
    (st : MemStorage.t) (insertHabit : InsertHabit.t) :
  Spec.memReachable st ->
  let habit := fst (MemStorage.createHabit st insertHabit) in
  let st' := snd (MemStorage.createHabit st insertHabit) in
  MemStorage.getHabit st (Habit.id habit) = None
  /\ (forall h, In h (JSMap.values (MemStorage.habits st)) -> Habit.id h < Habit.id habit)
  /\ Habit.isActive habit = true
  /\ MemStorage.getHabit st' (Habit.id habit) = Some habit
  /\ MemStorage.getHabits st' = MemStorage.getHabits st ++ [habit]
  /\ (forall id, id <> Habit.id habit ->
        MemStorage.getHabit st' id = MemStorage.getHabit st id).
Proof.
  intros Hr habit st'. destruct (memReachable_invariant st Hr) as (Hh & _).
  pose proof (fresh_key _ _ _ _ Hh) as Hfresh.
  subst habit st'. unfold MemStorage.createHabit, MemStorage.getHabit,
    MemStorage.getHabits. cbn [fst snd Habit.id Habit.isActive MemStorage.habits].
  split; [exact Hfresh |]. split.
  { intros h Hin. apply values_In in Hin as [k Hin].
    destruct Hh as [Hk _]. destruct (Hk k h Hin) as [-> Hlt]. exact Hlt. }
  split; [reflexivity |]. split.
  { apply (get_set_same _ _ _ Zeqb_spec). }
  split.
  { rewrite (set_absent _ _ _ _ _ _ Hfresh), values_app, filter_app. reflexivity. }
  intros id Hid. apply (get_set_other _ _ _ Zeqb_spec). exact Hid.
Qed.

Lemma X1_createHabit_fresh_identifier_witness :
  Spec.memReachable Examples.mem1
  /\ (let habit := fst (MemStorage.createHabit Examples.mem1
                          (InsertHabit.mk "Journal" None None)) in
      let st' := snd (MemStorage.createHabit Examples.mem1
                        (InsertHabit.mk "Journal" None None)) in
      MemStorage.getHabit Examples.mem1 (Habit.id habit) = None
      /\ (forall h, In h (JSMap.values (MemStorage.habits Examples.mem1)) ->
            Habit.id h < Habit.id habit)
      /\ Habit.isActive habit = true
      /\ MemStorage.getHabit st' (Habit.id habit) = Some habit
      /\ MemStorage.getHabits st' = MemStorage.getHabits Examples.mem1 ++ [habit]
      /\ (forall id, id <> Habit.id habit ->
            MemStorage.getHabit st' id = MemStorage.getHabit Examples.mem1 id)).
Proof.
  split; [exact reach_mem1 |].
  exact (X1_createHabit_fresh_identifier Examples.mem1
           (InsertHabit.mk "Journal" None None) reach_mem1).
Defined.

(** X2: [updateHabit] on a stored habit returns the merged habit and stores
    it under the same identifier; the identifier and the active flag are
    those of the stored habit (an update cannot reactivate a deleted
    habit), a field that the update does not name keeps its value, the
    order of the stored habits is unchanged and so is every other
    habit. *)
Theorem X2_updateHabit_keeps_identifier_and_flag
    (st : MemStorage.t) (id : Z) (updates : InsertHabit.partial) (h : Habit.t) :
  MemStorage.getHabit st id = Some h ->
  exists h',
    fst (MemStorage.updateHabit st id updates) = Some h'
    /\ MemStorage.getHabit (snd (MemStorage.updateHabit st id updates)) id = Some h'
    /\ Habit.id h' = Habit.id h
    /\ Habit.isActive h' = Habit.isActive h
    /\ Habit.name h' = match InsertHabit.p_name updates with
                       | Some n => n
                       | None => Habit.name h
                       end
    /\ JSMap.keys (MemStorage.habits (snd (MemStorage.updateHabit st id updates)))
       = JSMap.keys (MemStorage.habits st)
    /\ (forall k, k <> id ->
          MemStorage.getHabit (snd (MemStorage.updateHabit st id updates)) k
          = MemStorage.getHabit st k).
Proof.
  unfold MemStorage.getHabit, MemStorage.updateHabit. intros G. rewrite G.
  cbn [fst snd MemStorage.setHabits MemStorage.habits].
  exists (MemStorage.mergeHabit h updates).
  split; [reflexivity |]. split; [apply (get_set_same _ _ _ Zeqb_spec) |].
  split; [reflexivity |]. split; [reflexivity |]. split; [reflexivity |]. split.
  - apply (set_present_keys _ _ _ Zeqb_spec). congruence.
  - intros k Hk. apply (get_set_other _ _ _ Zeqb_spec). exact Hk.
Qed.

Lemma X2_updateHabit_keeps_identifier_and_flag_witness :
  MemStorage.getHabit (snd (MemStorage.deleteHabit MemStorage.new 1)) 1
  = Some (Habit.deactivate Examples.habit1)
  /\ exists h',
       fst (MemStorage.updateHabit (snd (MemStorage.deleteHabit MemStorage.new 1)) 1
              (InsertHabit.mkPartial (Some "Trade less") None None)) = Some h'
       /\ MemStorage.getHabit
            (snd (MemStorage.updateHabit (snd (MemStorage.deleteHabit MemStorage.new 1)) 1
                    (InsertHabit.mkPartial (Some "Trade less") None None))) 1 = Some h'
       /\ Habit.id h' = Habit.id (Habit.deactivate Examples.habit1)
       /\ Habit.isActive h' = Habit.isActive (Habit.deactivate Examples.habit1)
       /\ Habit.name h'
          = match InsertHabit.p_name (InsertHabit.mkPartial (Some "Trade less") None None) with
            | Some n => n
            | None => Habit.name (Habit.deactivate Examples.habit1)
            end
       /\ JSMap.keys (MemStorage.habits
            (snd (MemStorage.updateHabit (snd (MemStorage.deleteHabit MemStorage.new 1)) 1
                    (InsertHabit.mkPartial (Some "Trade less") None None))))
          = JSMap.keys (MemStorage.habits (snd (MemStorage.deleteHabit MemStorage.new 1)))
       /\ (forall k, k <> 1 ->
             MemStorage.getHabit
               (snd (MemStorage.updateHabit (snd (MemStorage.deleteHabit MemStorage.new 1)) 1
                       (InsertHabit.mkPartial (Some "Trade less") None None))) k
             = MemStorage.getHabit (snd (MemStorage.deleteHabit MemStorage.new 1)) k).
Proof.
  split; [reflexivity |].
  apply (X2_updateHabit_keeps_identifier_and_flag
           (snd (MemStorage.deleteHabit MemStorage.new 1)) 1
           (InsertHabit.mkPartial (Some "Trade less") None None)
           (Habit.deactivate Examples.habit1)).
  reflexivity.
Defined.

(** X3: an update or a delete with an identifier that the store does not
    hold changes nothing: [updateHabit] and [updateTradeReview] return
    undefined, [deleteHabit] and [deleteTradeReview] return false, and the
    store is the one before the call. *)
Theorem X3_missing_identifier_changes_nothing
    (st : MemStorage.t) (hid tid : Z)
    (updates : InsertHabit.partial) (review : InsertTradeReview.partial) :
  MemStorage.getHabit st hid = None ->
  MemStorage.getTradeReview st tid = None ->
  MemStorage.updateHabit st hid updates = (None, st)
  /\ MemStorage.deleteHabit st hid = (false, st)
  /\ MemStorage.updateTradeReview st tid review = (None, st)
  /\ MemStorage.deleteTradeReview st tid = (false, st).
Proof.
  unfold MemStorage.getHabit, MemStorage.getTradeReview, MemStorage.updateHabit,
    MemStorage.deleteHabit, MemStorage.updateTradeReview, MemStorage.deleteTradeReview,
    JSMap.delete, JSMap.has.
  intros Gh Gt. rewrite Gh, Gt.
  rewrite (remove_absent _ _ _ _ _ Gt).
  repeat split. unfold MemStorage.setTradeReviews. f_equal. apply Mem_eta.
Qed.

Lemma X3_missing_identifier_changes_nothing_witness :
  MemStorage.getHabit Examples.memTrades 9 = None
  /\ MemStorage.getTradeReview Examples.memTrades 7 = None
  /\ MemStorage.updateHabit Examples.memTrades 9
       (InsertHabit.mkPartial (Some "x") None None) = (None, Examples.memTrades)
  /\ MemStorage.deleteHabit Examples.memTrades 9 = (false, Examples.memTrades)
  /\ MemStorage.updateTradeReview Examples.memTrades 7
       (InsertTradeReview.mkPartial None (Some (Some "12.5")) None)
     = (None, Examples.memTrades)
  /\ MemStorage.deleteTradeReview Examples.memTrades 7 = (false, Examples.memTrades).
Proof.
  split; [reflexivity |]. split; [reflexivity |].
  apply (X3_missing_identifier_changes_nothing Examples.memTrades 9 7); reflexivity.
Defined.

(** X4: deleting a habit a second time gives the result of the first
    delete (true for a habit that is in the store, also when it is already
    inactive) and leaves the store as the first delete left it, in both
    back ends. *)
Theorem X4_deleteHabit_repeated (st : MemStorage.t) (db : DatabaseStorage.t) (id : Z) :
  MemStorage.deleteHabit (snd (MemStorage.deleteHabit st id)) id
  = MemStorage.deleteHabit st id
  /\ DatabaseStorage.deleteHabit (snd (DatabaseStorage.deleteHabit db id)) id
     = DatabaseStorage.deleteHabit db id.
Proof.
  split.
  - unfold MemStorage.deleteHabit.
    destruct (JSMap.get Z.eqb id (MemStorage.habits st)) as [h |] eqn:G.
    + cbn [snd MemStorage.setHabits MemStorage.habits].
      rewrite (get_set_same _ _ _ Zeqb_spec). rewrite deactivate_idem.
      unfold MemStorage.setHabits.
      cbn [MemStorage.habits MemStorage.habitCompletions MemStorage.tradeReviews
           MemStorage.currentHabitId MemStorage.currentCompletionId
           MemStorage.currentTradeId].
      rewrite (set_set _ _ _ Zeqb_spec). reflexivity.
    + cbn [snd]. rewrite G. reflexivity.
  - unfold DatabaseStorage.deleteHabit.
    cbn [snd DatabaseStorage.habits DatabaseStorage.habitCompletions
         DatabaseStorage.tradeReviews].
    f_equal.
    + f_equal. unfold JSArray.length. f_equal.
      induction (DatabaseStorage.habits db) as [| h r IH]; [reflexivity |].
      cbn [map filter]. destruct (Habit.id h =? id) eqn:E.
      * cbn [Habit.deactivate Habit.id]. rewrite E. cbn [List.length]. rewrite IH.
        reflexivity.
      * rewrite E. exact IH.
    + f_equal. rewrite map_map. apply map_ext. intros h.
      destruct (Habit.id h =? id) eqn:E.
      * cbn [Habit.deactivate Habit.id]. rewrite E. reflexivity.
      * rewrite E. reflexivity.
Qed.

(** *** Habit completions *)

Section CompletionOps.

Lemma filter_map_snd (K V : Type) (p : V -> bool) (m : list (K * V)) :
  filter p (map snd m) = map snd (filter (fun e => p (snd e)) m).
Proof.
  induction m as [| e r IH]; [reflexivity |]. cbn.
  destruct (p (snd e)); cbn; rewrite IH; reflexivity.
Qed.

(** In a store that keeps the invariant, a record is of habit [id] and of
    day [dateStr] exactly when it sits under the key of the two. *)
Lemma completion_key_test (st : MemStorage.t) (id : Z) (dateStr : string)
    (k : string) (c : HabitCompletion.t) :
  Spec.memInvariant st -> In (k, c) (MemStorage.habitCompletions st) ->
  (HabitCompletion.habitId c =? id) && (HabitCompletion.date c =? dateStr)%string
  = (MemStorage.completionKey id dateStr =? k)%string.
Proof.
  intros (_ & _ & Hc & _) Hin. rewrite (Hc k c Hin).
  destruct (String.eqb_spec (MemStorage.completionKey id dateStr)
              (MemStorage.completionKey (HabitCompletion.habitId c)
                                        (HabitCompletion.date c))) as [E | E].
  - apply completionKey_inj in E as [-> ->].
    rewrite Z.eqb_refl, String.eqb_refl. reflexivity.
  - destruct (Z.eqb_spec (HabitCompletion.habitId c) id) as [Ei |]; [| reflexivity].
    destruct (String.eqb_spec (HabitCompletion.date c) dateStr) as [Ed |];
      [| reflexivity].
    exfalso. apply E. rewrite Ei, Ed. reflexivity.
Qed.

(** At most one record of a habit on a day. *)
Lemma one_record_per_day (st : MemStorage.t) (id : Z) (dateStr : string) :
  Spec.memInvariant st ->
  List.length
    (filter (fun c => (HabitCompletion.habitId c =? id)
                      && (HabitCompletion.date c =? dateStr)%string)
            (JSMap.values (MemStorage.habitCompletions st)))
  = match MemStorage.getHabitCompletion st id dateStr with
    | Some _ => 1%nat
    | None => 0%nat
    end.
Proof.
  intros Hi. unfold JSMap.values. rewrite filter_map_snd, length_map.
  rewrite (filter_ext_in _
             (fun e => (MemStorage.completionKey id dateStr =? fst e)%string)).
  - apply (filter_key_length _ _ _ Seqb_spec). apply Hi.
  - intros [k c] Hin. cbn [fst snd]. apply (completion_key_test st); assumption.
Qed.

Lemma completion_In (st : MemStorage.t) (c : HabitCompletion.t) :
  Spec.memInvariant st ->
  (In c (JSMap.values (MemStorage.habitCompletions st))
   <-> MemStorage.getHabitCompletion st (HabitCompletion.habitId c)
         (HabitCompletion.date c) = Some c).
Proof.
  intros Hi. pose proof Hi as (_ & _ & Hc & Hn).
  unfold MemStorage.getHabitCompletion. rewrite values_In. split.
  - intros [k Hin]. rewrite <- (Hc k c Hin).
    apply (In_get _ _ _ Seqb_spec); assumption.
  - intros G. eexists. apply (get_In _ _ _ Seqb_spec). exact G.
Qed.

(** [x < s] fails exactly when [s <= x]. *)
Lemma lt_false_le (x s : string) : JSString.lt x s = negb (JSString.le s x).
Proof.
  unfold JSString.lt, JSString.le, String.ltb, String.leb.
  rewrite (String.compare_antisym x s).
  destruct (String.compare s x); reflexivity.
Qed.

Lemma gt_false_le (x e : string) : JSString.gt x e = negb (JSString.le x e).
Proof.
  unfold JSString.gt, JSString.le, String.ltb, String.leb.
  rewrite (String.compare_antisym e x).
  destruct (String.compare x e); reflexivity.
Qed.

Lemma truthy_nonempty (s : string) : s <> "" -> JSString.truthy s = true.
Proof.
  intros H. unfold JSString.truthy.
  destruct (String.eqb_spec s ""); [contradiction | reflexivity].
Qed.

Lemma NoDup_keyed (K V B : Type) (p : V -> bool) (g : V -> B) (f : B -> K)
    (m : list (K * V)) :
  NoDup (map fst m) ->
  (forall k v, In (k, v) m -> p v = true -> k = f (g v)) ->
  NoDup (map g (filter p (map snd m))).
Proof.
  induction m as [| [k v] r IH]; cbn [map filter fst snd]; intros Hn Hk;
    [constructor |].
  inversion Hn as [| ? ? Hnot Hr]; subst.
  assert (IHr : NoDup (map g (filter p (map snd r)))).
  { apply IH; [exact Hr |]. intros k' v' Hin. apply Hk. right. exact Hin. }
  destruct (p v) eqn:P; [| exact IHr].
  cbn [map]. constructor; [| exact IHr].
  intros Hin. apply Hnot.
  apply in_map_iff in Hin as (v' & Eg & Hin).
  apply filter_In in Hin as [Hin P'].
  apply in_map_iff in Hin as ([k' v''] & Ev & Hin). cbn in Ev. subst v''.
  assert (E : k' = k).
  { rewrite (Hk k' v' (or_intror Hin) P'), (Hk k v (or_introl eq_refl) P), Eg.
    reflexivity. }
  subst k'. apply (in_map fst) in Hin. exact Hin.
Qed.

End CompletionOps.

(** X5: [createOrUpdateHabitCompletion] on a reachable store leaves exactly
    one record of the habit on the date: the record that it returns, which
    is what [getHabitCompletion] then finds, carries the given flag (false
    when the flag is absent), and has the identifier of the record that
    was there before, or the next free identifier when there was none.
    The lookup of every other habit or date is unchanged. *)
Theorem X5_completion_upsert_one_record_per_day
    (st : MemStorage.t) (completion : InsertHabitCompletion.t) :
  Spec.memReachable st ->
  let habitId := InsertHabitCompletion.habitId completion in
  let date := InsertHabitCompletion.date completion in
  let r := fst (MemStorage.createOrUpdateHabitCompletion st completion) in
  let st' := snd (MemStorage.createOrUpdateHabitCompletion st completion) in
  MemStorage.getHabitCompletion st' habitId date = Some r
  /\ HabitCompletion.habitId r = habitId
  /\ HabitCompletion.date r = date
  /\ HabitCompletion.completed r
     = match InsertHabitCompletion.completed completion with
       | Some b => b
       | None => false
       end
  /\ HabitCompletion.id r
     = match MemStorage.getHabitCompletion st habitId date with
       | Some old => HabitCompletion.id old
       | None => MemStorage.currentCompletionId st
       end
  /\ List.length
       (filter (fun c => (HabitCompletion.habitId c =? habitId)
                         && (HabitCompletion.date c =? date)%string)
               (JSMap.values (MemStorage.habitCompletions st'))) = 1%nat
  /\ (forall h d, (h, d) <> (habitId, date) ->
        MemStorage.getHabitCompletion st' h d = MemStorage.getHabitCompletion st h d).
Proof.
  intros Hr habitId date r st'.
  pose proof (memReachable_invariant st Hr) as Hi.
  assert (Hi' : Spec.memInvariant st').
  { exact (memInvariant_step st (Spec.PutCompletion completion) Hi). }
  assert (Hget : MemStorage.getHabitCompletion st' habitId date = Some r).
  { subst st' r habitId date.
    unfold MemStorage.createOrUpdateHabitCompletion, MemStorage.getHabitCompletion.
    destruct (JSMap.get String.eqb _ (MemStorage.habitCompletions st));
      cbn [fst snd MemStorage.habitCompletions];
      apply (get_set_same _ _ _ Seqb_spec). }
  assert (Hother : forall h d, (h, d) <> (habitId, date) ->
            MemStorage.getHabitCompletion st' h d = MemStorage.getHabitCompletion st h d).
  { intros h d Hne. subst st' r habitId date.
    unfold MemStorage.createOrUpdateHabitCompletion, MemStorage.getHabitCompletion.
    assert (Hk : MemStorage.completionKey h d
                 <> MemStorage.completionKey (InsertHabitCompletion.habitId completion)
                                             (InsertHabitCompletion.date completion)).
    { intros E. apply completionKey_inj in E as [-> ->]. apply Hne. reflexivity. }
    destruct (JSMap.get String.eqb
                (MemStorage.completionKey (InsertHabitCompletion.habitId completion)
                                          (InsertHabitCompletion.date completion))
                (MemStorage.habitCompletions st));
      cbn [fst snd MemStorage.habitCompletions];
      apply (get_set_other _ _ _ Seqb_spec); exact Hk. }
  split; [exact Hget |].
  assert (Hfields : HabitCompletion.habitId r = habitId
                    /\ HabitCompletion.date r = date).
  { destruct Hi' as (_ & _ & Hc & _).
    unfold MemStorage.getHabitCompletion in Hget.
    apply (get_In _ _ _ Seqb_spec) in Hget. apply Hc in Hget.
    apply completionKey_inj in Hget as [E1 E2]. split; symmetry; assumption. }
  split; [apply Hfields |]. split; [apply Hfields |].
  split; [| split; [| split; [| exact Hother]]].
  - subst r. unfold MemStorage.createOrUpdateHabitCompletion.
    destruct (JSMap.get String.eqb _ (MemStorage.habitCompletions st)); reflexivity.
  - subst r habitId date.
    unfold MemStorage.createOrUpdateHabitCompletion, MemStorage.getHabitCompletion.
    destruct (JSMap.get String.eqb _ (MemStorage.habitCompletions st)); reflexivity.
  - rewrite (one_record_per_day st' habitId date Hi'), Hget. reflexivity.
Qed.

Lemma X5_completion_upsert_one_record_per_day_witness :
  Spec.memReachable Examples.mem1
  /\ (let completion := InsertHabitCompletion.mk 1 "2024-03-01" None in
      let habitId := InsertHabitCompletion.habitId completion in
      let date := InsertHabitCompletion.date completion in
      let r := fst (MemStorage.createOrUpdateHabitCompletion Examples.mem1 completion) in
      let st' := snd (MemStorage.createOrUpdateHabitCompletion Examples.mem1 completion) in
      MemStorage.getHabitCompletion st' habitId date = Some r
      /\ HabitCompletion.habitId r = habitId
      /\ HabitCompletion.date r = date
      /\ HabitCompletion.completed r
         = match InsertHabitCompletion.completed completion with
           | Some b => b
           | None => false
           end
      /\ HabitCompletion.id r
         = match MemStorage.getHabitCompletion Examples.mem1 habitId date with
           | Some old => HabitCompletion.id old
           | None => MemStorage.currentCompletionId Examples.mem1
           end
      /\ List.length
           (filter (fun c => (HabitCompletion.habitId c =? habitId)
                             && (HabitCompletion.date c =? date)%string)
                   (JSMap.values (MemStorage.habitCompletions st'))) = 1%nat
      /\ (forall h d, (h, d) <> (habitId, date) ->
            MemStorage.getHabitCompletion st' h d
            = MemStorage.getHabitCompletion Examples.mem1 h d)).
Proof.
  split; [exact reach_mem1 |].
  exact (X5_completion_upsert_one_record_per_day Examples.mem1
           (InsertHabitCompletion.mk 1 "2024-03-01" None) reach_mem1).
Defined.

(** X6: in a reachable store, [getHabitCompletions] with two non-empty
    bounds returns exactly the records that [getHabitCompletion] finds for
    the habit on a date within the bounds (by the order of the strings,
    both bounds included), and no two of the records that it returns, with
    or without bounds, have the same date. *)
Theorem X6_getHabitCompletions_range
    (st : MemStorage.t) (habitId : Z) (s e : string) :
  Spec.memReachable st ->
  s <> "" ->
  e <> "" ->
  (forall c,
     In c (MemStorage.getHabitCompletions st habitId (Some s) (Some e))
     <-> MemStorage.getHabitCompletion st habitId (HabitCompletion.date c) = Some c
         /\ JSString.le s (HabitCompletion.date c) = true
         /\ JSString.le (HabitCompletion.date c) e = true)
  /\ (forall startDate endDate,
        NoDup (map HabitCompletion.date
                   (MemStorage.getHabitCompletions st habitId startDate endDate))).
Proof.
  intros Hr Hs He. pose proof (memReachable_invariant st Hr) as Hi. split.
  - intros c. unfold MemStorage.getHabitCompletions. rewrite filter_In.
    rewrite (truthy_nonempty s Hs), (truthy_nonempty e He).
    rewrite lt_false_le, gt_false_le. cbn [andb].
    rewrite (completion_In st c Hi). split.
    + intros [G T]. destruct (Z.eqb_spec (HabitCompletion.habitId c) habitId) as [E |];
        [| discriminate]. cbn [negb] in T. rewrite E in G. split; [exact G |].
      destruct (JSString.le s (HabitCompletion.date c)); [| discriminate].
      destruct (JSString.le (HabitCompletion.date c) e); [| discriminate].
      split; reflexivity.
    + intros (G & L1 & L2).
      assert (E : HabitCompletion.habitId c = habitId).
      { destruct Hi as (_ & _ & Hc & _).
        unfold MemStorage.getHabitCompletion in G.
        apply (get_In _ _ _ Seqb_spec) in G. apply Hc in G.
        apply completionKey_inj in G as [E _]. symmetry. exact E. }
      rewrite E. split; [exact G |].
      rewrite Z.eqb_refl, L1, L2. reflexivity.
  - intros startDate endDate. unfold MemStorage.getHabitCompletions, JSMap.values.
    apply (NoDup_keyed _ _ _ _ HabitCompletion.date
             (MemStorage.completionKey habitId)).
    + apply Hi.
    + intros k v Hin P. destruct Hi as (_ & _ & Hc & _). rewrite (Hc k v Hin).
      destruct (Z.eqb_spec (HabitCompletion.habitId v) habitId) as [-> |];
        [reflexivity | discriminate].
Qed.

Lemma X6_getHabitCompletions_range_witness :
  Spec.memReachable Examples.memOneHabit
  /\ "2024-02-29" <> ""
  /\ "2024-03-31" <> ""
  /\ (forall c,
        In c (MemStorage.getHabitCompletions Examples.memOneHabit 1
                (Some "2024-02-29") (Some "2024-03-31"))
        <-> MemStorage.getHabitCompletion Examples.memOneHabit 1
              (HabitCompletion.date c) = Some c
            /\ JSString.le "2024-02-29" (HabitCompletion.date c) = true
            /\ JSString.le (HabitCompletion.date c) "2024-03-31" = true)
  /\ (forall startDate endDate,
        NoDup (map HabitCompletion.date
                   (MemStorage.getHabitCompletions Examples.memOneHabit 1
                      startDate endDate))).
Proof.
  split; [exact reach_memOneHabit |].
  split; [discriminate |]. split; [discriminate |].
  apply (X6_getHabitCompletions_range Examples.memOneHabit 1 "2024-02-29" "2024-03-31");
    [exact reach_memOneHabit | discriminate | discriminate].
Defined.

(** *** Trade reviews *)

(** X7: [createTradeReview] on a reachable store hands out an identifier
    that no stored trade has; the new trade is what [getTradeReview]
    returns for it and comes last in [getTradeReviews]; an empty
    profit-and-loss string or tag is stored as null, so the trade then has
    no profit-and-loss value for the statistics; the lookup of every other
    identifier is unchanged. *)
Theorem X7_createTradeReview_fresh_identifier
    (st : MemStorage.t) (review : InsertTradeReview.t) :
  Spec.memReachable st ->
  let trade := fst (MemStorage.createTradeReview st review) in
  let st' := snd (MemStorage.createTradeReview st review) in
  MemStorage.getTradeReview st (TradeReview.id trade) = None
  /\ (forall t, In t (MemStorage.getTradeReviews st None None) ->
        TradeReview.id t < TradeReview.id trade)
  /\ MemStorage.getTradeReview st' (TradeReview.id trade) = Some trade
  /\ MemStorage.getTradeReviews st' None None
     = MemStorage.getTradeReviews st None None ++ [trade]
  /\ TradeReview.pnl trade <> Some ""
  /\ TradeReview.emotionalState trade <> Some ""
  /\ (JSString.truthyOpt (InsertTradeReview.pnl review) = false ->
        Spec.hasPnL trade = false)
  /\ (forall id, id <> TradeReview.id trade ->
        MemStorage.getTradeReview st' id = MemStorage.getTradeReview st id).
Proof.
  intros Hr trade st'. destruct (memReachable_invariant st Hr) as (_ & Ht & _).
  pose proof (fresh_key _ _ _ _ Ht) as Hfresh.
  assert (Hall : forall s, MemStorage.getTradeReviews s None None
                           = JSMap.values (MemStorage.tradeReviews s)).
  { intros s0. unfold MemStorage.getTradeReviews.
    induction (JSMap.values (MemStorage.tradeReviews s0)) as [| x l IH];
      [reflexivity |]. cbn [filter]. rewrite IH. reflexivity. }
  assert (HorNull : forall x, JSString.orNull x <> Some "").
  { intros [x |]; unfold JSString.orNull, JSString.truthyOpt, JSString.truthy;
      [| discriminate].
    destruct (String.eqb_spec x ""); cbn [negb]; congruence. }
  subst trade st'. unfold MemStorage.createTradeReview, MemStorage.getTradeReview.
  rewrite !Hall.
  cbn [fst snd TradeReview.id TradeReview.pnl TradeReview.emotionalState
       MemStorage.setTradeReviews MemStorage.tradeReviews].
  split; [exact Hfresh |]. split.
  { intros t Hin. apply values_In in Hin as [k Hin].
    destruct Ht as [Hk _]. destruct (Hk k t Hin) as [-> Hlt]. exact Hlt. }
  split; [apply (get_set_same _ _ _ Zeqb_spec) |]. split.
  { rewrite (set_absent _ _ _ _ _ _ Hfresh), values_app. reflexivity. }
  split; [apply HorNull |]. split; [apply HorNull |]. split.
  { intros Hp. unfold Spec.hasPnL, Common.pnlValue, JSString.orNull.
    cbn [TradeReview.pnl]. rewrite Hp. reflexivity. }
  intros id Hid. apply (get_set_other _ _ _ Zeqb_spec). exact Hid.
Qed.

Lemma X7_createTradeReview_fresh_identifier_witness :
  Spec.memReachable Examples.memTrades
  /\ (let review := InsertTradeReview.mk "2024-01-05" (Some "") (Some "calm") in
      let trade := fst (MemStorage.createTradeReview Examples.memTrades review) in
      let st' := snd (MemStorage.createTradeReview Examples.memTrades review) in
      MemStorage.getTradeReview Examples.memTrades (TradeReview.id trade) = None
      /\ (forall t, In t (MemStorage.getTradeReviews Examples.memTrades None None) ->
            TradeReview.id t < TradeReview.id trade)
      /\ MemStorage.getTradeReview st' (TradeReview.id trade) = Some trade
      /\ MemStorage.getTradeReviews st' None None
         = MemStorage.getTradeReviews Examples.memTrades None None ++ [trade]
      /\ TradeReview.pnl trade <> Some ""
      /\ TradeReview.emotionalState trade <> Some ""
      /\ (JSString.truthyOpt (InsertTradeReview.pnl review) = false ->
            Spec.hasPnL trade = false)
      /\ (forall id, id <> TradeReview.id trade ->
            MemStorage.getTradeReview st' id
            = MemStorage.getTradeReview Examples.memTrades id)).
Proof.
  split; [exact reach_memTrades |].
  exact (X7_createTradeReview_fresh_identifier Examples.memTrades
           (InsertTradeReview.mk "2024-01-05" (Some "") (Some "calm")) reach_memTrades).
Defined.

(** X8: [updateTradeReview] on a stored trade returns the merged trade and
    stores it under the same identifier, in the same place among the
    trades; the fields that the update names are taken as given (an empty
    profit-and-loss string is not turned into null as on creation, and
    still counts as no value), the others keep their values, and every
    other trade is unchanged. *)
Theorem X8_updateTradeReview_merges
    (st : MemStorage.t) (id : Z) (review : InsertTradeReview.partial)
    (existing : TradeReview.t) :
  MemStorage.getTradeReview st id = Some existing ->
  exists updated,
    fst (MemStorage.updateTradeReview st id review) = Some updated
    /\ MemStorage.getTradeReview (snd (MemStorage.updateTradeReview st id review)) id
       = Some updated
    /\ TradeReview.id updated = TradeReview.id existing
    /\ TradeReview.pnl updated
       = match InsertTradeReview.p_pnl review with
         | Some p => p
         | None => TradeReview.pnl existing
         end
    /\ (InsertTradeReview.p_pnl review = Some (Some "") -> Spec.hasPnL updated = false)
    /\ JSMap.keys (MemStorage.tradeReviews
                     (snd (MemStorage.updateTradeReview st id review)))
       = JSMap.keys (MemStorage.tradeReviews st)
    /\ (forall k, k <> id ->
          MemStorage.getTradeReview (snd (MemStorage.updateTradeReview st id review)) k
          = MemStorage.getTradeReview st k).
Proof.
  unfold MemStorage.getTradeReview, MemStorage.updateTradeReview. intros G. rewrite G.
  cbn [fst snd MemStorage.setTradeReviews MemStorage.tradeReviews].
  exists (MemStorage.mergeTrade existing review).
  split; [reflexivity |]. split; [apply (get_set_same _ _ _ Zeqb_spec) |].
  split; [reflexivity |]. split; [reflexivity |]. split.
  { intros Hp. unfold Spec.hasPnL, Common.pnlValue, MemStorage.mergeTrade.
    cbn [TradeReview.pnl]. rewrite Hp. reflexivity. }
  split.
  - apply (set_present_keys _ _ _ Zeqb_spec). congruence.
  - intros k Hk. apply (get_set_other _ _ _ Zeqb_spec). exact Hk.
Qed.

Lemma X8_updateTradeReview_merges_witness :
  MemStorage.getTradeReview Examples.memOneWin 1
  = Some (TradeReview.mk 1 "2024-01-02" (Some "100") None)
  /\ exists updated,
       fst (MemStorage.updateTradeReview Examples.memOneWin 1
              (InsertTradeReview.mkPartial None (Some (Some "")) None)) = Some updated
       /\ MemStorage.getTradeReview
            (snd (MemStorage.updateTradeReview Examples.memOneWin 1
                    (InsertTradeReview.mkPartial None (Some (Some "")) None))) 1
          = Some updated
       /\ TradeReview.id updated
          = TradeReview.id (TradeReview.mk 1 "2024-01-02" (Some "100") None)
       /\ TradeReview.pnl updated
          = match InsertTradeReview.p_pnl
                    (InsertTradeReview.mkPartial None (Some (Some "")) None) with
            | Some p => p
            | None => TradeReview.pnl (TradeReview.mk 1 "2024-01-02" (Some "100") None)
            end
       /\ (InsertTradeReview.p_pnl
             (InsertTradeReview.mkPartial None (Some (Some "")) None) = Some (Some "") ->
           Spec.hasPnL updated = false)
       /\ JSMap.keys (MemStorage.tradeReviews
                        (snd (MemStorage.updateTradeReview Examples.memOneWin 1
                                (InsertTradeReview.mkPartial None (Some (Some "")) None))))
          = JSMap.keys (MemStorage.tradeReviews Examples.memOneWin)
       /\ (forall k, k <> 1 ->
             MemStorage.getTradeReview
               (snd (MemStorage.updateTradeReview Examples.memOneWin 1
                       (InsertTradeReview.mkPartial None (Some (Some "")) None))) k
             = MemStorage.getTradeReview Examples.memOneWin k).
Proof.
  split; [reflexivity |].
  apply (X8_updateTradeReview_merges Examples.memOneWin 1
           (InsertTradeReview.mkPartial None (Some (Some "")) None)
           (TradeReview.mk 1 "2024-01-02" (Some "100") None)).
  reflexivity.
Defined.
(* ===================================================================== *)
(** ** More on the trading statistics *)
(* ===================================================================== *)

Section Tags.
Import JSNumber Common.







End Tags.


Section Sums.
Import JSNumber Common.

(** The sums and averages of the in-memory back end, for finite values. *)
Lemma Mem_sums (trades : list TradeReview.t) :
  Forall (fun t => Spec.finiteOrAbsent t = true) trades ->
  TradingStats.totalPnL (MemStorage.statsOfTrades trades)
  = ofQ (Spec.roundTo2 (Spec.qsum (map Spec.value (filter Spec.hasPnL trades))))
  /\ TradingStats.avgWin (MemStorage.statsOfTrades trades)
     = (if 0 <? Spec.countIf Spec.isWin trades
        then ofQ (Spec.roundTo2 (Spec.winSum trades
                                 / inject_Z (Spec.countIf Spec.isWin trades)))
        else ofZ 0)
  /\ TradingStats.avgLoss (MemStorage.statsOfTrades trades)
     = (if 0 <? Spec.countIf Spec.isLoss trades
        then ofQ (Spec.roundTo2 (Spec.lossSum trades
                                 / inject_Z (Spec.countIf Spec.isLoss trades)))
        else ofZ 0).
Proof.
  intros H. unfold MemStorage.statsOfTrades.
  destruct (JSArray.length trades =? 0) eqn:E.
  { apply length_zero_nil in E. subst. repeat split. }
  cbn [TradingStats.totalPnL TradingStats.avgWin TradingStats.avgLoss].
  rewrite filter_hasPnL, filter_wins, filter_losses.
  change (JSArray.length (filter Spec.isWin trades))
    with (Spec.countIf Spec.isWin trades).
  change (JSArray.length (filter Spec.isLoss trades))
    with (Spec.countIf Spec.isLoss trades).
  split; [| split].
  - rewrite (sumPnL_finite _ (parsed_finite trades H)). apply round2_ofQ.
  - destruct (0 <? Spec.countIf Spec.isWin trades) eqn:W; [| reflexivity].
    rewrite totalWins_finite by exact H. rewrite ofZ_ofQ.
    rewrite div_ofQ by (apply countIf_pos_Q; exact W). apply round2_ofQ.
  - destruct (0 <? Spec.countIf Spec.isLoss trades) eqn:L; [| reflexivity].
    rewrite totalLosses_finite by exact H. rewrite ofZ_ofQ.
    rewrite div_ofQ by (apply countIf_pos_Q; exact L). apply round2_ofQ.
Qed.

Lemma add_ofQ_ofQ (a b : Q) : add (ofQ a) (ofQ b) = ofQ (a + b).
Proof.
  unfold ofQ at 2. rewrite add_ofQ. apply ofQ_eq. rewrite Qred_correct. reflexivity.
Qed.

(** A trade without a profit-and-loss string has no value. *)
Lemma falsy_pnl_NaN (t : TradeReview.t) :
  JSString.truthyOpt (TradeReview.pnl t) = false -> pnlValue t = NaN.
Proof.
  unfold pnlValue, JSString.truthyOpt, JSString.truthy.
  destruct (TradeReview.pnl t) as [s |]; [| reflexivity].
  destruct (String.eqb_spec s "") as [-> | _]; [| discriminate].
  intros _. apply parseFloat_empty.
Qed.

Lemma clean_finiteOrAbsent (trades : list TradeReview.t) :
  Forall (fun t => Props.cleanPnL t = true) trades ->
  Forall (fun t => Spec.finiteOrAbsent t = true) trades.
Proof.
  apply Forall_impl. intros t. unfold Props.cleanPnL, Spec.finiteOrAbsent.
  destruct (JSString.truthyOpt (TradeReview.pnl t)) eqn:T; cbn [negb orb].
  - destruct (pnlValue t); cbn; congruence.
  - intros _. rewrite (falsy_pnl_NaN t T). reflexivity.
Qed.

Lemma sign_of_value (q : Q) :
  (gtb (Num q) (ofZ 0) = true /\ ltb (Num q) (ofZ 0) = false)
  \/ (gtb (Num q) (ofZ 0) = false /\ ltb (Num q) (ofZ 0) = true)
  \/ (gtb (Num q) (ofZ 0) = false /\ ltb (Num q) (ofZ 0) = false).
Proof.
  unfold gtb, ltb, ofZ. rewrite <- (Qcompare_antisym q (inject_Z 0)).
  destruct (Qcompare q (inject_Z 0)); cbn; auto.
Qed.

(** One step of [trades.forEach] on a trade with the value [q]. *)
Lemma tradeStep_value (acc : DatabaseStorage.tradeAcc) (t : TradeReview.t) (q : Q) :
  JSString.truthyOpt (TradeReview.pnl t) = true -> pnlValue t = Num q ->
  DatabaseStorage.totalPnL (DatabaseStorage.tradeStep acc t)
  = add (DatabaseStorage.totalPnL acc) (Num q)
  /\ DatabaseStorage.totalWins (DatabaseStorage.tradeStep acc t)
     = (if gtb (Num q) (ofZ 0) then add (DatabaseStorage.totalWins acc) (Num q)
        else DatabaseStorage.totalWins acc)
  /\ DatabaseStorage.totalLosses (DatabaseStorage.tradeStep acc t)
     = (if gtb (Num q) (ofZ 0) then DatabaseStorage.totalLosses acc
        else if ltb (Num q) (ofZ 0)
             then add (DatabaseStorage.totalLosses acc) (abs (Num q))
             else DatabaseStorage.totalLosses acc)
  /\ DatabaseStorage.winCount (DatabaseStorage.tradeStep acc t)
     = (if gtb (Num q) (ofZ 0) then DatabaseStorage.winCount acc + 1
        else DatabaseStorage.winCount acc)
  /\ DatabaseStorage.lossCount (DatabaseStorage.tradeStep acc t)
     = (if gtb (Num q) (ofZ 0) then DatabaseStorage.lossCount acc
        else if ltb (Num q) (ofZ 0) then DatabaseStorage.lossCount acc + 1
             else DatabaseStorage.lossCount acc).
Proof.
  intros T V. unfold DatabaseStorage.tradeStep. cbv zeta. rewrite T, V.
  destruct (gtb (Num q) (ofZ 0)); [repeat split |].
  destruct (ltb (Num q) (ofZ 0)); repeat split.
Qed.

Lemma tradeStep_no_value (acc : DatabaseStorage.tradeAcc) (t : TradeReview.t) :
  JSString.truthyOpt (TradeReview.pnl t) = false ->
  DatabaseStorage.totalPnL (DatabaseStorage.tradeStep acc t)
  = DatabaseStorage.totalPnL acc
  /\ DatabaseStorage.totalWins (DatabaseStorage.tradeStep acc t)
     = DatabaseStorage.totalWins acc
  /\ DatabaseStorage.totalLosses (DatabaseStorage.tradeStep acc t)
     = DatabaseStorage.totalLosses acc
  /\ DatabaseStorage.winCount (DatabaseStorage.tradeStep acc t)
     = DatabaseStorage.winCount acc
  /\ DatabaseStorage.lossCount (DatabaseStorage.tradeStep acc t)
     = DatabaseStorage.lossCount acc.
Proof.
  intros T. unfold DatabaseStorage.tradeStep. cbv zeta. rewrite T. repeat split.
Qed.

Lemma countIf_cons (A : Type) (f : A -> bool) (x : A) (l : list A) :
  Spec.countIf f (x :: l) = (if f x then 1 else 0) + Spec.countIf f l.
Proof.
  unfold Spec.countIf. cbn [filter]. destruct (f x); cbn [List.length]; lia.
Qed.

(** The accumulators of the relational back end after a list of trades. *)
Lemma DB_fold_sums (trades : list TradeReview.t) :
  Forall (fun t => Props.cleanPnL t = true) trades ->
  forall (acc : DatabaseStorage.tradeAcc) (p w x : Q),
    DatabaseStorage.totalPnL acc = ofQ p ->
    DatabaseStorage.totalWins acc = ofQ w ->
    DatabaseStorage.totalLosses acc = ofQ x ->
    DatabaseStorage.totalPnL (fold_left DatabaseStorage.tradeStep trades acc)
    = ofQ (p + Spec.qsum (map Spec.value (filter Spec.hasPnL trades)))
    /\ DatabaseStorage.totalWins (fold_left DatabaseStorage.tradeStep trades acc)
       = ofQ (w + Spec.winSum trades)
    /\ DatabaseStorage.totalLosses (fold_left DatabaseStorage.tradeStep trades acc)
       = ofQ (x + Spec.lossSum trades)
    /\ DatabaseStorage.winCount (fold_left DatabaseStorage.tradeStep trades acc)
       = DatabaseStorage.winCount acc + Spec.countIf Spec.isWin trades
    /\ DatabaseStorage.lossCount (fold_left DatabaseStorage.tradeStep trades acc)
       = DatabaseStorage.lossCount acc + Spec.countIf Spec.isLoss trades.
Proof.
  induction 1 as [| t r Ht Hr IH]; intros acc p w x Hp Hw Hx.
  { cbn. rewrite Hp, Hw, Hx. unfold Spec.countIf.
    repeat split; try (apply ofQ_eq; ring); cbn; lia. }
  cbn [fold_left]. unfold Spec.winSum, Spec.lossSum. rewrite !countIf_cons.
  cbn [filter]. unfold Props.cleanPnL in Ht.
  destruct (JSString.truthyOpt (TradeReview.pnl t)) eqn:T; cbn [negb orb] in Ht.
  - (* a value *)
    destruct (pnlValue t) as [q | | |] eqn:V; try discriminate.
    assert (Hval : Spec.value t = q) by (unfold Spec.value; rewrite V; reflexivity).
    assert (Hh : Spec.hasPnL t = true) by (unfold Spec.hasPnL; rewrite V; reflexivity).
    assert (Hwin : Spec.isWin t = gtb (Num q) (ofZ 0))
      by (unfold Spec.isWin; rewrite V; reflexivity).
    assert (Hloss : Spec.isLoss t = ltb (Num q) (ofZ 0))
      by (unfold Spec.isLoss; rewrite V; reflexivity).
    rewrite Hh, Hwin, Hloss.
    destruct (tradeStep_value acc t q T V) as (S1 & S2 & S3 & S4 & S5).
    destruct (sign_of_value q) as [[G L] | [[G L] | [G L]]];
      rewrite G in *; rewrite L in *; cbn [map]; rewrite ?Hval.
    + destruct (IH (DatabaseStorage.tradeStep acc t) (p + q)%Q (w + q)%Q x)
        as (I1 & I2 & I3 & I4 & I5).
      { rewrite S1, Hp. apply add_ofQ. }
      { rewrite S2, Hw. apply add_ofQ. }
      { rewrite S3. exact Hx. }
      unfold Spec.winSum, Spec.lossSum in I2, I3. rewrite I1, I2, I3, I4, I5, S4, S5.
      split; [apply ofQ_eq; unfold Spec.qsum; cbn [fold_right]; ring |].
      split; [apply ofQ_eq; unfold Spec.qsum; cbn [fold_right]; ring |].
      split; [reflexivity |]. split; lia.
    + destruct (IH (DatabaseStorage.tradeStep acc t) (p + q)%Q w (x + Qabs q)%Q)
        as (I1 & I2 & I3 & I4 & I5).
      { rewrite S1, Hp. apply add_ofQ. }
      { rewrite S2. exact Hw. }
      { rewrite S3, Hx. apply add_ofQ_ofQ. }
      unfold Spec.winSum, Spec.lossSum in I2, I3. rewrite I1, I2, I3, I4, I5, S4, S5.
      split; [apply ofQ_eq; unfold Spec.qsum; cbn [fold_right]; ring |].
      split; [reflexivity |].
      split; [apply ofQ_eq; unfold Spec.qsum; cbn [fold_right]; ring |].
      split; lia.
    + destruct (IH (DatabaseStorage.tradeStep acc t) (p + q)%Q w x)
        as (I1 & I2 & I3 & I4 & I5).
      { rewrite S1, Hp. apply add_ofQ. }
      { rewrite S2. exact Hw. }
      { rewrite S3. exact Hx. }
      unfold Spec.winSum, Spec.lossSum in I2, I3. rewrite I1, I2, I3, I4, I5, S4, S5.
      split; [apply ofQ_eq; unfold Spec.qsum; cbn [fold_right]; ring |].
      split; [reflexivity |]. split; [reflexivity |]. split; lia.
  - (* no value *)
    pose proof (falsy_pnl_NaN t T) as V.
    assert (Hh : Spec.hasPnL t = false) by (unfold Spec.hasPnL; rewrite V; reflexivity).
    assert (Hwin : Spec.isWin t = false) by (unfold Spec.isWin; rewrite V; reflexivity).
    assert (Hloss : Spec.isLoss t = false)
      by (unfold Spec.isLoss; rewrite V; reflexivity).
    rewrite Hh, Hwin, Hloss.
    destruct (tradeStep_no_value acc t T) as (S1 & S2 & S3 & S4 & S5).
    destruct (IH (DatabaseStorage.tradeStep acc t) p w x) as (I1 & I2 & I3 & I4 & I5);
      [congruence | congruence | congruence |].
    unfold Spec.winSum, Spec.lossSum in I2, I3. rewrite I1, I2, I3, I4, I5, S4, S5.
    repeat split; lia.
Qed.

Lemma DB_sums (trades : list TradeReview.t) :
  Forall (fun t => Props.cleanPnL t = true) trades ->
  TradingStats.totalPnL (DatabaseStorage.statsOfTrades trades)
  = ofQ (Spec.roundTo2 (Spec.qsum (map Spec.value (filter Spec.hasPnL trades))))
  /\ TradingStats.avgWin (DatabaseStorage.statsOfTrades trades)
     = (if 0 <? Spec.countIf Spec.isWin trades
        then ofQ (Spec.roundTo2 (Spec.winSum trades
                                 / inject_Z (Spec.countIf Spec.isWin trades)))
        else ofZ 0)
  /\ TradingStats.avgLoss (DatabaseStorage.statsOfTrades trades)
     = (if 0 <? Spec.countIf Spec.isLoss trades
        then ofQ (Spec.roundTo2 (Spec.lossSum trades
                                 / inject_Z (Spec.countIf Spec.isLoss trades)))
        else ofZ 0).
Proof.
  intros H. unfold DatabaseStorage.statsOfTrades.
  destruct (JSArray.length trades =? 0) eqn:E.
  { apply length_zero_nil in E. subst. repeat split. }
  cbn [TradingStats.totalPnL TradingStats.avgWin TradingStats.avgLoss].
  destruct (DB_fold_sums trades H
              (DatabaseStorage.mkAcc 0 (ofZ 0) (ofZ 0) (ofZ 0) 0 0 (JSMap.empty string Z))
              0%Q 0%Q 0%Q eq_refl eq_refl eq_refl) as (I1 & I2 & I3 & I4 & I5).
  rewrite I1, I2, I3, I4, I5. cbn [DatabaseStorage.winCount DatabaseStorage.lossCount].
  rewrite !Z.add_0_l. split; [| split].
  - rewrite round2_ofQ. apply ofQ_eq. unfold Spec.roundTo2.
    rewrite Qplus_0_l. reflexivity.
  - destruct (0 <? Spec.countIf Spec.isWin trades) eqn:W; [| reflexivity].
    rewrite ofZ_ofQ. rewrite div_ofQ by (apply countIf_pos_Q; exact W).
    rewrite round2_ofQ. apply ofQ_eq. unfold Spec.roundTo2.
    rewrite Qplus_0_l. reflexivity.
  - destruct (0 <? Spec.countIf Spec.isLoss trades) eqn:L; [| reflexivity].
    rewrite ofZ_ofQ. rewrite div_ofQ by (apply countIf_pos_Q; exact L).
    rewrite round2_ofQ. apply ofQ_eq. unfold Spec.roundTo2.
    rewrite Qplus_0_l. reflexivity.
Qed.

End Sums.



(** X11: when every profit-and-loss string that is not empty parses to a
    finite number, the two back ends return the same [totalTrades],
    [totalPnL], [avgWin] and [avgLoss] on the same trades (they differ in
    [winRate] and [profitFactor] only). *)
Theorem X11_backends_agree_on_sums (trades : list TradeReview.t) :
  Forall (fun t => Props.cleanPnL t = true) trades ->
  TradingStats.totalTrades (DatabaseStorage.statsOfTrades trades)
  = TradingStats.totalTrades (MemStorage.statsOfTrades trades)
  /\ TradingStats.totalPnL (DatabaseStorage.statsOfTrades trades)
     = TradingStats.totalPnL (MemStorage.statsOfTrades trades)
  /\ TradingStats.avgWin (DatabaseStorage.statsOfTrades trades)
     = TradingStats.avgWin (MemStorage.statsOfTrades trades)
  /\ TradingStats.avgLoss (DatabaseStorage.statsOfTrades trades)
     = TradingStats.avgLoss (MemStorage.statsOfTrades trades).
Proof.
  intros H.
  destruct (DB_sums trades H) as (D1 & D2 & D3).
  destruct (Mem_sums trades (clean_finiteOrAbsent trades H)) as (M1 & M2 & M3).
  split; [| split; [congruence | split; congruence]].
  unfold DatabaseStorage.statsOfTrades, MemStorage.statsOfTrades.
  destruct (JSArray.length trades =? 0); reflexivity.
Qed.

Lemma X11_backends_agree_on_sums_witness :
  Forall (fun t => Props.cleanPnL t = true)
         (JSMap.values (MemStorage.tradeReviews Examples.memTrades))
  /\ TradingStats.totalTrades
       (DatabaseStorage.statsOfTrades
          (JSMap.values (MemStorage.tradeReviews Examples.memTrades)))
     = TradingStats.totalTrades
         (MemStorage.statsOfTrades
            (JSMap.values (MemStorage.tradeReviews Examples.memTrades)))
  /\ TradingStats.totalPnL
       (DatabaseStorage.statsOfTrades
          (JSMap.values (MemStorage.tradeReviews Examples.memTrades)))
     = TradingStats.totalPnL
         (MemStorage.statsOfTrades
            (JSMap.values (MemStorage.tradeReviews Examples.memTrades)))
  /\ TradingStats.avgWin
       (DatabaseStorage.statsOfTrades
          (JSMap.values (MemStorage.tradeReviews Examples.memTrades)))
     = TradingStats.avgWin
         (MemStorage.statsOfTrades
            (JSMap.values (MemStorage.tradeReviews Examples.memTrades)))
  /\ TradingStats.avgLoss
       (DatabaseStorage.statsOfTrades
          (JSMap.values (MemStorage.tradeReviews Examples.memTrades)))
     = TradingStats.avgLoss
         (MemStorage.statsOfTrades
            (JSMap.values (MemStorage.tradeReviews Examples.memTrades))).
Proof.
  assert (H : Forall (fun t => Props.cleanPnL t = true)
                     (JSMap.values (MemStorage.tradeReviews Examples.memTrades))).
  { repeat constructor. }
  split; [exact H |].
  exact (X11_backends_agree_on_sums
           (JSMap.values (MemStorage.tradeReviews Examples.memTrades)) H).
Defined.
(* ===================================================================== *)
(** ** The two back ends on the same records *)
(* ===================================================================== *)

Section SortOrder.
Variables (A : Type) (cmp : A -> A -> comparison).
Hypothesis cmp_antisym : forall x y, cmp x y = Gt -> cmp y x <> Gt.




End SortOrder.

Section QueryOrder.






End QueryOrder.


Section SameRecords.
Import Common.

(** The first row that passes a test which singles out a key is the entry
    under the key. *)
Lemma hd_filter_get (K V : Type) (keq : K -> K -> bool) (p : V -> bool) (k : K)
    (m : JSMap.t K V) :
  (forall k' v, In (k', v) m -> p v = keq k k') ->
  hd_error (filter p (JSMap.values m)) = JSMap.get keq k m.
Proof.
  induction m as [| [k' v] r IH]; intros H; [reflexivity |].
  cbn [JSMap.values map snd filter JSMap.get].
  rewrite (H k' v (or_introl eq_refl)).
  destruct (keq k k'); [reflexivity |].
  apply IH. intros k2 v2 Hin. apply H. right. exact Hin.
Qed.

Lemma tables_getHabit (st : MemStorage.t) (id : Z) :
  Spec.memInvariant st ->
  DatabaseStorage.getHabit (Props.tablesOf st) id = MemStorage.getHabit st id.
Proof.
  intros ([Hk _] & _). unfold DatabaseStorage.getHabit, MemStorage.getHabit.
  cbn [Props.tablesOf DatabaseStorage.habits].
  apply hd_filter_get. intros k v Hin. destruct (Hk k v Hin) as [-> _].
  apply Z.eqb_sym.
Qed.

Lemma tables_getTradeReview (st : MemStorage.t) (id : Z) :
  Spec.memInvariant st ->
  DatabaseStorage.getTradeReview (Props.tablesOf st) id
  = MemStorage.getTradeReview st id.
Proof.
  intros (_ & [Hk _] & _).
  unfold DatabaseStorage.getTradeReview, MemStorage.getTradeReview.
  cbn [Props.tablesOf DatabaseStorage.tradeReviews].
  apply hd_filter_get. intros k v Hin. destruct (Hk k v Hin) as [-> _].
  apply Z.eqb_sym.
Qed.

Lemma tables_getHabitCompletion (st : MemStorage.t) (id : Z) (dateStr : string) :
  Spec.memInvariant st ->
  DatabaseStorage.getHabitCompletion (Props.tablesOf st) id dateStr
  = MemStorage.getHabitCompletion st id dateStr.
Proof.
  intros Hi. unfold DatabaseStorage.getHabitCompletion, MemStorage.getHabitCompletion.
  cbn [Props.tablesOf DatabaseStorage.habitCompletions].
  apply hd_filter_get. intros k v Hin. apply (completion_key_test st); assumption.
Qed.

Lemma tables_getHabits (st : MemStorage.t) :
  Permutation (DatabaseStorage.getHabits (Props.tablesOf st)) (MemStorage.getHabits st).
Proof. apply sort_perm. Qed.

Lemma tables_getTradeReviews (st : MemStorage.t) (s e : string) :
  s <> "" -> e <> "" ->
  Permutation (DatabaseStorage.getTradeReviews (Props.tablesOf st) (Some s) (Some e))
              (MemStorage.getTradeReviews st (Some s) (Some e)).
Proof.
  intros Hs He. rewrite (Mem_trades_in_range st s e He).
  unfold DatabaseStorage.getTradeReviews.
  rewrite (truthy_nonempty s Hs), (truthy_nonempty e He). cbn [andb].
  apply sort_perm.
Qed.

End SameRecords.

(** X13: on the records of a reachable in-memory store, the relational
    queries answer as the in-memory ones: [getHabit], [getHabitCompletion]
    and [getTradeReview] return the same record, [getHabits] the same
    habits, and [getTradeReviews] between two non-empty bounds the same
    trades (the order of the two lists apart). *)
Theorem X13_backends_same_lookups (st : MemStorage.t) :
  Spec.memReachable st ->
  (forall id, DatabaseStorage.getHabit (Props.tablesOf st) id
              = MemStorage.getHabit st id)
  /\ (forall id dateStr,
        DatabaseStorage.getHabitCompletion (Props.tablesOf st) id dateStr
        = MemStorage.getHabitCompletion st id dateStr)
  /\ (forall id, DatabaseStorage.getTradeReview (Props.tablesOf st) id
                 = MemStorage.getTradeReview st id)
  /\ Permutation (DatabaseStorage.getHabits (Props.tablesOf st))
                 (MemStorage.getHabits st)
  /\ (forall s e, s <> "" -> e <> "" ->
        Permutation
          (DatabaseStorage.getTradeReviews (Props.tablesOf st) (Some s) (Some e))
          (MemStorage.getTradeReviews st (Some s) (Some e))).
Proof.
  intros Hr. pose proof (memReachable_invariant st Hr) as Hi.
  split; [intros id; apply tables_getHabit; exact Hi |].
  split; [intros id d; apply tables_getHabitCompletion; exact Hi |].
  split; [intros id; apply tables_getTradeReview; exact Hi |].
  split; [apply tables_getHabits |].
  intros s e. apply tables_getTradeReviews.
Qed.

Lemma X13_backends_same_lookups_witness :
  Spec.memReachable Examples.memOneHabit
  /\ (forall id, DatabaseStorage.getHabit (Props.tablesOf Examples.memOneHabit) id
                 = MemStorage.getHabit Examples.memOneHabit id)
  /\ (forall id dateStr,
        DatabaseStorage.getHabitCompletion (Props.tablesOf Examples.memOneHabit)
          id dateStr
        = MemStorage.getHabitCompletion Examples.memOneHabit id dateStr)
  /\ (forall id, DatabaseStorage.getTradeReview (Props.tablesOf Examples.memOneHabit) id
                 = MemStorage.getTradeReview Examples.memOneHabit id)
  /\ Permutation (DatabaseStorage.getHabits (Props.tablesOf Examples.memOneHabit))
                 (MemStorage.getHabits Examples.memOneHabit)
  /\ (forall s e, s <> "" -> e <> "" ->
        Permutation
          (DatabaseStorage.getTradeReviews (Props.tablesOf Examples.memOneHabit)
             (Some s) (Some e))
          (MemStorage.getTradeReviews Examples.memOneHabit (Some s) (Some e))).
Proof.
  split; [exact reach_memOneHabit |].
  exact (X13_backends_same_lookups Examples.memOneHabit reach_memOneHabit).
Defined.

(** X29: the bounds of [getTradeReviews] are optional.  The in-memory back
    end returns the stored trades that are not before the start date, when
    one is given and not empty, and not after the end date, when one is
    given and not empty; the relational back end applies the two bounds
    only when both are given and not empty, and returns every trade
    otherwise. *)
Theorem X29_trade_range_bounds_are_optional
    (st : MemStorage.t) (db : DatabaseStorage.t) (startDate endDate : option string)
    (t : TradeReview.t) :
  (In t (MemStorage.getTradeReviews st startDate endDate)
   <-> In t (JSMap.values (MemStorage.tradeReviews st))
       /\ (forall s, startDate = Some s -> s <> "" ->
             JSString.le s (TradeReview.date t) = true)
       /\ (forall e, endDate = Some e -> e <> "" ->
             JSString.le (TradeReview.date t) e = true))
  /\ (In t (DatabaseStorage.getTradeReviews db startDate endDate)
      <-> In t (DatabaseStorage.tradeReviews db)
          /\ (forall s e, startDate = Some s -> endDate = Some e -> s <> "" -> e <> "" ->
                JSString.le s (TradeReview.date t) = true
                /\ JSString.le (TradeReview.date t) e = true)).
Proof.
  assert (Hbound : forall (b : option string) (test : string -> bool),
            (match b with
             | Some s => JSString.truthy s && negb (test s)
             | None => false
             end = false)
            <-> (forall s, b = Some s -> s <> "" -> test s = true)).
  { intros b test. destruct b as [s |]; [| split; [intros _ s' E; discriminate | reflexivity]].
    unfold JSString.truthy. destruct (String.eqb_spec s "") as [-> | Hne]; cbn [negb andb].
    - split; [intros _ s' E Hs; injection E as <-; contradiction | reflexivity].
    - split.
      + intros H s' E _. injection E as <-. destruct (test s); [reflexivity | discriminate].
      + intros H. rewrite (H s eq_refl Hne). reflexivity. }
  split.
  - unfold MemStorage.getTradeReviews. rewrite filter_In.
    assert (E1 : match startDate with
                 | Some s => JSString.truthy s && JSString.lt (TradeReview.date t) s
                 | None => false
                 end
                 = match startDate with
                   | Some s => JSString.truthy s
                               && negb (JSString.le s (TradeReview.date t))
                   | None => false
                   end).
    { destruct startDate; [rewrite lt_false_le |]; reflexivity. }
    assert (E2 : match endDate with
                 | Some e => JSString.truthy e && JSString.gt (TradeReview.date t) e
                 | None => false
                 end
                 = match endDate with
                   | Some e => JSString.truthy e
                               && negb (JSString.le (TradeReview.date t) e)
                   | None => false
                   end).
    { destruct endDate; [rewrite gt_false_le |]; reflexivity. }
    rewrite E1, E2.
    rewrite <- (Hbound startDate (fun s => JSString.le s (TradeReview.date t))).
    rewrite <- (Hbound endDate (fun e => JSString.le (TradeReview.date t) e)).
    clear E1 E2 Hbound.
    set (A := match startDate with
              | Some s => JSString.truthy s && negb (JSString.le s (TradeReview.date t))
              | None => false
              end).
    set (B := match endDate with
              | Some e => JSString.truthy e && negb (JSString.le (TradeReview.date t) e)
              | None => false
              end).
    clearbody A B. destruct A, B; intuition congruence.
  - unfold DatabaseStorage.getTradeReviews. rewrite sort_In.
    destruct startDate as [s |]; [| split; [intros H; split; [exact H |]; discriminate
                                           | intros [H _]; exact H]].
    destruct endDate as [e |]; [| split; [intros H; split; [exact H |]; discriminate
                                         | intros [H _]; exact H]].
    unfold JSString.truthy.
    destruct (String.eqb_spec s "") as [-> | Hs]; cbn [negb andb].
    { split; [intros H; split; [exact H |]; intros s' e' E; injection E as <-;
              contradiction | intros [H _]; exact H]. }
    destruct (String.eqb_spec e "") as [-> | He]; cbn [negb andb].
    { split; [intros H; split; [exact H |]; intros s' e' _ E; injection E as <-;
              contradiction | intros [H _]; exact H]. }
    rewrite filter_In. unfold JSString.ge. split.
    + intros [H T]. split; [exact H |]. intros s' e' E1 E2 _ _.
      injection E1 as <-. injection E2 as <-. apply andb_true_iff in T. exact T.
    + intros [H T]. split; [exact H |]. apply andb_true_iff.
      apply (T s e eq_refl eq_refl Hs He).
Qed.
(* ===================================================================== *)
(** ** Completion rates of days and months *)
(* ===================================================================== *)

Section DayRates.
Import JSDate JSNumber Common.

Lemma dayRate_range (completed : Z -> string -> bool) (habits : list Habit.t)
    (dateStr : string) :
  0 <= Rates.dayRate completed habits dateStr <= 100.
Proof.
  unfold Rates.dayRate. destruct (0 <? JSArray.length habits) eqn:E; [| lia].
  apply Z.ltb_lt in E. apply roundedPercent_range; [| exact E].
  apply countIf_le.
Qed.

Lemma Mem_dayEntry (st : MemStorage.t) (habits : list Habit.t) (dateStr : string) :
  MemStorage.dayEntry st habits dateStr
  = WeeklyEntry.mk dateStr (ofZ (Rates.dayRate (Spec.memCompleted st) habits dateStr)).
Proof.
  unfold MemStorage.dayEntry, Rates.dayRate. rewrite Mem_completedOn. f_equal.
  destruct (0 <? JSArray.length habits) eqn:E.
  - apply round_percent. apply Z.ltb_lt. exact E.
  - apply round_ofZ.
Qed.

Lemma DB_dayEntry (db : DatabaseStorage.t) (habits : list Habit.t) (dateStr : string) :
  DatabaseStorage.dayEntry db habits dateStr
  = WeeklyEntry.mk dateStr (ofZ (Rates.dayRate (Spec.dbCompleted db) habits dateStr)).
Proof.
  unfold DatabaseStorage.dayEntry, Rates.dayRate. rewrite DB_completedOn. f_equal.
  destruct (0 <? JSArray.length habits) eqn:E; [| reflexivity].
  apply round_percent. apply Z.ltb_lt. exact E.
Qed.







End DayRates.





Section MonthRates.
Import JSDate JSNumber Common.

Lemma zsum_bound (l : list Z) (n : Z) :
  (forall x, In x l -> 0 <= x <= n) ->
  0 <= Rates.zsum l <= n * Z.of_nat (List.length l).
Proof.
  induction l as [| x r IH]; intros H; cbn [Rates.zsum fold_right].
  - cbn. lia.
  - assert (Hr : 0 <= Rates.zsum r <= n * Z.of_nat (List.length r)).
    { apply IH. intros y Hy. apply H. right. exact Hy. }
    pose proof (H x (or_introl eq_refl)) as Hx. unfold Rates.zsum in Hr.
    cbn [List.length]. lia.
Qed.









End MonthRates.




(* ===================================================================== *)
(** ** The statistics of a habit *)
(* ===================================================================== *)

Section StatsOfHabits.
Import JSDate JSNumber Common.






End StatsOfHabits.



Section HabitMonth.
Import JSDate JSNumber Common.













End HabitMonth.

Section HabitFigures.
Import JSDate JSNumber Common.



End HabitFigures.



Section Streaks.
Import JSDate JSNumber Common.







End Streaks.




(* ===================================================================== *)
(** ** Goals and daily records of the in-memory store *)
(* ===================================================================== *)

Section RecordsInvariant.

Lemma datedBy_set (V : Type) (date : V -> string) (id : V -> Z) (next next' : Z)
    (k0 : string) (v0 : V) (m : JSMap.t string V) :
  Records.datedBy date id next m -> date v0 = k0 -> id v0 < next' -> next <= next' ->
  Records.datedBy date id next' (JSMap.set String.eqb k0 v0 m).
Proof.
  intros [H1 H2] Hk Hlt Hle. split.
  - intros k v Hin. apply set_In in Hin as [E | Hin].
    + injection E as -> ->. split; [exact Hk | exact Hlt].
    + destruct (H1 k v Hin). split; [assumption | lia].
  - apply set_NoDup; [exact Seqb_spec | exact H2].
Qed.

Lemma datedBy_get (V : Type) (date : V -> string) (id : V -> Z) (next : Z)
    (k : string) (v : V) (m : JSMap.t string V) :
  Records.datedBy date id next m -> JSMap.get String.eqb k m = Some v ->
  date v = k /\ id v < next.
Proof.
  intros [H1 _] Hg. apply H1. apply (get_In _ _ _ Seqb_spec). exact Hg.
Qed.

Lemma recInvariant_empty : Records.recInvariant MemRecords.empty.
Proof.
  unfold Records.recInvariant, Spec.keyedBy, Records.datedBy. cbn.
  repeat split; try contradiction; constructor.
Qed.

Lemma recInvariant_step (st : MemRecords.t) (op : Records.recOp) :
  Records.recInvariant st -> Records.recInvariant (Records.recStep st op).
Proof.
  intros (Hg & Hc & Hj & Hr).
  destruct op as [c | e | g | id g | id | m]; cbn [Records.recStep].
  - (* createOrUpdateEmotionalCheckIn *)
    unfold MemRecords.createOrUpdateEmotionalCheckIn.
    destruct (JSMap.get String.eqb (InsertEmotionalCheckIn.date c)
                (MemRecords.emotionalCheckIns st)) as [x |] eqn:E;
      unfold Records.recInvariant; cbn [snd];
      refine (conj Hg (conj _ (conj Hj Hr))).
    + destruct (datedBy_get _ _ _ _ _ _ _ Hc E) as [K1 K2].
      apply (datedBy_set _ _ _ (MemRecords.currentCheckInId st) _ _ _ _ Hc);
        [exact K1 | exact K2 | cbn; lia].
    + apply (datedBy_set _ _ _ (MemRecords.currentCheckInId st) _ _ _ _ Hc);
        [reflexivity | cbn; lia | cbn; lia].
  - (* createOrUpdateJournalEntry *)
    unfold MemRecords.createOrUpdateJournalEntry.
    destruct (JSMap.get String.eqb (InsertJournalEntry.date e)
                (MemRecords.journalEntries st)) as [x |] eqn:E;
      unfold Records.recInvariant; cbn [snd];
      refine (conj Hg (conj Hc (conj _ Hr))).
    + destruct (datedBy_get _ _ _ _ _ _ _ Hj E) as [K1 K2].
      apply (datedBy_set _ _ _ (MemRecords.currentJournalId st) _ _ _ _ Hj);
        [exact K1 | exact K2 | cbn; lia].
    + apply (datedBy_set _ _ _ (MemRecords.currentJournalId st) _ _ _ _ Hj);
        [reflexivity | cbn; lia | cbn; lia].
  - (* createGoal *)
    unfold MemRecords.createGoal, Records.recInvariant. cbn [snd].
    refine (conj _ (conj Hc (conj Hj Hr))).
    apply (keyedBy_set _ GoalTracking.id (MemRecords.currentGoalId st) _ _ _ _ Hg);
      [reflexivity | cbn; lia | cbn; lia].
  - (* updateGoal *)
    unfold MemRecords.updateGoal.
    destruct (JSMap.get Z.eqb id (MemRecords.goals st)) as [x |] eqn:E;
      [| exact (conj Hg (conj Hc (conj Hj Hr)))].
    destruct (keyedBy_get _ _ _ _ _ _ Hg E) as [K1 K2].
    unfold Records.recInvariant. cbn [snd].
    refine (conj _ (conj Hc (conj Hj Hr))).
    apply (keyedBy_set _ GoalTracking.id (MemRecords.currentGoalId st) _ _ _ _ Hg);
      [exact K1 | exact K2 | cbn; lia].
  - (* deleteGoal *)
    unfold MemRecords.deleteGoal.
    destruct (JSMap.get Z.eqb id (MemRecords.goals st)) as [x |] eqn:E;
      [| exact (conj Hg (conj Hc (conj Hj Hr)))].
    destruct (keyedBy_get _ _ _ _ _ _ Hg E) as [K1 K2].
    unfold Records.recInvariant. cbn [snd].
    refine (conj _ (conj Hc (conj Hj Hr))).
    apply (keyedBy_set _ GoalTracking.id (MemRecords.currentGoalId st) _ _ _ _ Hg);
      [exact K1 | exact K2 | cbn; lia].
  - (* createOrUpdateRiskMetrics *)
    unfold MemRecords.createOrUpdateRiskMetrics.
    destruct (JSMap.get String.eqb (InsertRiskMetrics.date m)
                (MemRecords.riskMetrics st)) as [x |] eqn:E;
      unfold Records.recInvariant; cbn [snd];
      refine (conj Hg (conj Hc (conj Hj _))).
    + destruct (datedBy_get _ _ _ _ _ _ _ Hr E) as [K1 K2].
      apply (datedBy_set _ _ _ (MemRecords.currentRiskId st) _ _ _ _ Hr);
        [reflexivity | exact K2 | cbn; lia].
    + apply (datedBy_set _ _ _ (MemRecords.currentRiskId st) _ _ _ _ Hr);
        [reflexivity | cbn; lia | cbn; lia].
Qed.

Lemma recInvariant_run (ops : list Records.recOp) (st : MemRecords.t) :
  Records.recInvariant st -> Records.recInvariant (Records.recRun ops st).
Proof.
  revert st. induction ops as [| op ops IH]; intros st H; [exact H |].
  cbn. apply IH. apply recInvariant_step. exact H.
Qed.

Lemma recInvariant_new (today : Z) : Records.recInvariant (MemRecords.new today).
Proof.
  unfold MemRecords.new, MemRecords.initializeDefaultGoals.
  apply (recInvariant_run (map Records.CreateGoal (MemRecords.defaultGoals today))).
  apply recInvariant_empty.
Qed.

Lemma recReachable_invariant (st : MemRecords.t) :
  Records.recReachable st -> Records.recInvariant st.
Proof.
  intros (today & ops & ->). apply recInvariant_run. apply recInvariant_new.
Qed.

Lemma recReachable_new (today : Z) : Records.recReachable (MemRecords.new today).
Proof. exists today, []. reflexivity. Qed.

Lemma recReachable_run (ops : list Records.recOp) (st : MemRecords.t) :
  Records.recReachable st -> Records.recReachable (Records.recRun ops st).
Proof.
  intros (today & ops0 & ->). exists today, (ops0 ++ ops). unfold Records.recRun.
  rewrite fold_left_app. reflexivity.
Qed.

End RecordsInvariant.

Section Goals.

Lemma goal_inactive_persists_step (st : MemRecords.t) (op : Records.recOp) (id : Z) :
  Records.recInvariant st ->
  (exists g, MemRecords.getGoal st id = Some g /\ GoalTracking.isActive g = false) ->
  exists g, MemRecords.getGoal (Records.recStep st op) id = Some g
            /\ GoalTracking.isActive g = false.
Proof.
  intros (Hk & _) (g & Hg & Ha). unfold MemRecords.getGoal in *.
  destruct (keyedBy_get _ _ _ _ _ _ Hk Hg) as [K1 K2].
  destruct op as [c | e | i | id' u | id' | m]; cbn [Records.recStep].
  - unfold MemRecords.createOrUpdateEmotionalCheckIn.
    destruct (JSMap.get String.eqb _ (MemRecords.emotionalCheckIns st)); cbn; eauto.
  - unfold MemRecords.createOrUpdateJournalEntry.
    destruct (JSMap.get String.eqb _ (MemRecords.journalEntries st)); cbn; eauto.
  - unfold MemRecords.createGoal. cbn.
    rewrite (get_set_other _ _ _ Zeqb_spec) by lia. eauto.
  - unfold MemRecords.updateGoal.
    destruct (JSMap.get Z.eqb id' (MemRecords.goals st)) as [g' |] eqn:E;
      [| cbn; eauto].
    cbn. destruct (Z.eq_dec id id') as [-> | N].
    + rewrite (get_set_same _ _ _ Zeqb_spec). eexists. split; [reflexivity |].
      cbn. congruence.
    + rewrite (get_set_other _ _ _ Zeqb_spec) by exact N. eauto.
  - unfold MemRecords.deleteGoal.
    destruct (JSMap.get Z.eqb id' (MemRecords.goals st)) as [g' |] eqn:E;
      [| cbn; eauto].
    cbn. destruct (Z.eq_dec id id') as [-> | N].
    + rewrite (get_set_same _ _ _ Zeqb_spec). eexists. split; reflexivity.
    + rewrite (get_set_other _ _ _ Zeqb_spec) by exact N. eauto.
  - unfold MemRecords.createOrUpdateRiskMetrics.
    destruct (JSMap.get String.eqb _ (MemRecords.riskMetrics st)); cbn; eauto.
Qed.

Lemma goal_inactive_persists (ops : list Records.recOp) (st : MemRecords.t) (id : Z) :
  Records.recInvariant st ->
  (exists g, MemRecords.getGoal st id = Some g /\ GoalTracking.isActive g = false) ->
  exists g, MemRecords.getGoal (Records.recRun ops st) id = Some g
            /\ GoalTracking.isActive g = false.
Proof.
  revert st. induction ops as [| op ops IH]; intros st Hi H; [exact H |].
  cbn. apply IH; [apply recInvariant_step; exact Hi |].
  apply goal_inactive_persists_step; assumption.
Qed.

Lemma goal_inactive_not_listed (st : MemRecords.t) (id : Z) (g : GoalTracking.t) :
  Records.recInvariant st ->
  MemRecords.getGoal st id = Some g -> GoalTracking.isActive g = false ->
  ~ In id (map GoalTracking.id (MemRecords.getGoals st)).
Proof.
  intros ([H1 H2] & _) Hg Ha Hin. unfold MemRecords.getGoals in Hin.
  apply in_map_iff in Hin as (x & Hx & Hin).
  apply filter_In in Hin as [Hin Hact].
  apply values_In in Hin as [k Hin].
  destruct (H1 k x Hin) as [Hk _]. rewrite Hx in Hk. subst k.
  pose proof (In_get _ _ _ Zeqb_spec id x _ H2 Hin) as Hg'.
  unfold MemRecords.getGoal in Hg. congruence.
Qed.

Lemma DB_deleteGoal_getGoal (rows : DatabaseGoals.t) (id : Z) :
  DatabaseGoals.getGoal (snd (DatabaseGoals.deleteGoal rows id)) id
  = option_map GoalTracking.deactivate (DatabaseGoals.getGoal rows id).
Proof.
  unfold DatabaseGoals.getGoal, DatabaseGoals.deleteGoal. cbn [snd].
  induction rows as [| g l IH]; cbn; [reflexivity |].
  destruct (GoalTracking.id g =? id) eqn:E; cbn; rewrite E; [reflexivity | exact IH].
Qed.

Lemma DB_deleteGoal_not_listed (rows : DatabaseGoals.t) (id : Z) (x : GoalTracking.t) :
  In x (DatabaseGoals.getGoals (snd (DatabaseGoals.deleteGoal rows id))) ->
  GoalTracking.id x <> id.
Proof.
  intros H Hid. unfold DatabaseGoals.getGoals in H.
  apply sort_In in H. apply filter_In in H as [H Ha].
  unfold DatabaseGoals.deleteGoal in H. cbn [snd] in H.
  apply in_map_iff in H as (g & E & _).
  destruct (GoalTracking.id g =? id) eqn:Eg.
  - subst x. cbn in Ha. discriminate.
  - subst x. apply Z.eqb_neq in Eg. contradiction.
Qed.

End Goals.

(** X22: goals are soft-deleted like habits.  [deleteGoal] on a goal that
    the store holds returns true and leaves the goal retrievable by
    [getGoal], inactive and otherwise unchanged; [getGoals] no longer lists
    it, and no later operation on the store makes it active or listed
    again; the lookup of every other goal is unchanged.  The relational
    [deleteGoal] does the same to the rows of the goal. *)
Theorem X22_goal_soft_delete
    (st : MemRecords.t) (rows : DatabaseGoals.t) (id : Z) (g gd : GoalTracking.t) :
  Records.recReachable st ->
  MemRecords.getGoal st id = Some g ->
  DatabaseGoals.getGoal rows id = Some gd ->
  fst (MemRecords.deleteGoal st id) = true
  /\ MemRecords.getGoal (snd (MemRecords.deleteGoal st id)) id
     = Some (GoalTracking.deactivate g)
  /\ (forall k, k <> id ->
        MemRecords.getGoal (snd (MemRecords.deleteGoal st id)) k
        = MemRecords.getGoal st k)
  /\ (forall ops,
        (exists g', MemRecords.getGoal
                      (Records.recRun ops (snd (MemRecords.deleteGoal st id))) id
                    = Some g'
                    /\ GoalTracking.isActive g' = false)
        /\ ~ In id (map GoalTracking.id
                        (MemRecords.getGoals
                           (Records.recRun ops (snd (MemRecords.deleteGoal st id))))))
  /\ fst (DatabaseGoals.deleteGoal rows id) = true
  /\ DatabaseGoals.getGoal (snd (DatabaseGoals.deleteGoal rows id)) id
     = Some (GoalTracking.deactivate gd)
  /\ (forall x, In x (DatabaseGoals.getGoals (snd (DatabaseGoals.deleteGoal rows id))) ->
                GoalTracking.id x <> id).
Proof.
  intros Hr Hg Hd. pose proof (recReachable_invariant st Hr) as Hi.
  assert (Hi' : Records.recInvariant (snd (MemRecords.deleteGoal st id))).
  { exact (recInvariant_step st (Records.DeleteGoal id) Hi). }
  assert (Hget : MemRecords.getGoal (snd (MemRecords.deleteGoal st id)) id
                 = Some (GoalTracking.deactivate g)).
  { unfold MemRecords.getGoal, MemRecords.deleteGoal in *. rewrite Hg.
    cbn [snd MemRecords.setGoals MemRecords.goals].
    apply (get_set_same _ _ _ Zeqb_spec). }
  split.
  { unfold MemRecords.getGoal, MemRecords.deleteGoal in *. rewrite Hg. reflexivity. }
  split; [exact Hget |]. split.
  { intros k Hk. unfold MemRecords.getGoal, MemRecords.deleteGoal in *. rewrite Hg.
    cbn [snd MemRecords.setGoals MemRecords.goals].
    apply (get_set_other _ _ _ Zeqb_spec). exact Hk. }
  split.
  { intros ops.
    destruct (goal_inactive_persists ops _ id Hi'
                (ex_intro _ _ (conj Hget eq_refl))) as (g' & G' & A').
    split; [exists g'; split; assumption |].
    apply (goal_inactive_not_listed _ id g'); [| exact G' | exact A'].
    apply recInvariant_run. exact Hi'. }
  split.
  { unfold DatabaseGoals.getGoal in Hd. unfold DatabaseGoals.deleteGoal. cbn [fst].
    destruct (filter (fun g0 => GoalTracking.id g0 =? id) rows); [discriminate |].
    reflexivity. }
  split; [rewrite DB_deleteGoal_getGoal, Hd; reflexivity |].
  intros x. apply DB_deleteGoal_not_listed.
Qed.

Lemma X22_goal_soft_delete_witness :
  Records.recReachable (MemRecords.new 19783)
  /\ MemRecords.getGoal (MemRecords.new 19783) 2
     = Some (GoalTracking.mk 2 "Maximum Daily Loss Limit"
               (Some "Never lose more than 2% of account in a single day")
               "2" "0" "percent" (Some "2025-03-01") "risk" true)
  /\ DatabaseGoals.getGoal (JSMap.values (MemRecords.goals (MemRecords.new 19783))) 2
     = Some (GoalTracking.mk 2 "Maximum Daily Loss Limit"
               (Some "Never lose more than 2% of account in a single day")
               "2" "0" "percent" (Some "2025-03-01") "risk" true)
  /\ fst (MemRecords.deleteGoal (MemRecords.new 19783) 2) = true
  /\ MemRecords.getGoal (snd (MemRecords.deleteGoal (MemRecords.new 19783) 2)) 2
     = Some (GoalTracking.deactivate
               (GoalTracking.mk 2 "Maximum Daily Loss Limit"
                  (Some "Never lose more than 2% of account in a single day")
                  "2" "0" "percent" (Some "2025-03-01") "risk" true))
  /\ (forall k, k <> 2 ->
        MemRecords.getGoal (snd (MemRecords.deleteGoal (MemRecords.new 19783) 2)) k
        = MemRecords.getGoal (MemRecords.new 19783) k)
  /\ (forall ops,
        (exists g', MemRecords.getGoal
                      (Records.recRun ops
                         (snd (MemRecords.deleteGoal (MemRecords.new 19783) 2))) 2
                    = Some g'
                    /\ GoalTracking.isActive g' = false)
        /\ ~ In 2 (map GoalTracking.id
                       (MemRecords.getGoals
                          (Records.recRun ops
                             (snd (MemRecords.deleteGoal (MemRecords.new 19783) 2))))))
  /\ fst (DatabaseGoals.deleteGoal
            (JSMap.values (MemRecords.goals (MemRecords.new 19783))) 2) = true
  /\ DatabaseGoals.getGoal
       (snd (DatabaseGoals.deleteGoal
               (JSMap.values (MemRecords.goals (MemRecords.new 19783))) 2)) 2
     = Some (GoalTracking.deactivate
               (GoalTracking.mk 2 "Maximum Daily Loss Limit"
                  (Some "Never lose more than 2% of account in a single day")
                  "2" "0" "percent" (Some "2025-03-01") "risk" true))
  /\ (forall x,
        In x (DatabaseGoals.getGoals
                (snd (DatabaseGoals.deleteGoal
                        (JSMap.values (MemRecords.goals (MemRecords.new 19783))) 2))) ->
        GoalTracking.id x <> 2).
Proof.
  split; [apply recReachable_new |].
  split; [vm_compute; reflexivity |]. split; [vm_compute; reflexivity |].
  apply (X22_goal_soft_delete (MemRecords.new 19783)
           (JSMap.values (MemRecords.goals (MemRecords.new 19783))) 2);
    [apply recReachable_new | vm_compute; reflexivity | vm_compute; reflexivity].
Defined.

(** X23: [createGoal] on a reachable store hands out an identifier that no
    stored goal has; the new goal is active, is what [getGoal] returns for
    that identifier and comes last in [getGoals]; its current value is
    "0" when none (or the empty string) is given, and is never empty; the
    lookup of every other identifier is unchanged. *)
Theorem X23_createGoal_fresh_identifier
    (st : MemRecords.t) (goal : InsertGoalTracking.t) :
  Records.recReachable st ->
  let created := fst (MemRecords.createGoal st goal) in
  let st' := snd (MemRecords.createGoal st goal) in
  MemRecords.getGoal st (GoalTracking.id created) = None
  /\ (forall g, In g (JSMap.values (MemRecords.goals st)) ->
        GoalTracking.id g < GoalTracking.id created)
  /\ GoalTracking.isActive created = true
  /\ GoalTracking.currentValue created <> ""
  /\ (JSString.truthyOpt (InsertGoalTracking.currentValue goal) = false ->
        GoalTracking.currentValue created = "0")
  /\ MemRecords.getGoal st' (GoalTracking.id created) = Some created
  /\ MemRecords.getGoals st' = MemRecords.getGoals st ++ [created]
  /\ (forall id, id <> GoalTracking.id created ->
        MemRecords.getGoal st' id = MemRecords.getGoal st id).
Proof.
  intros Hr created st'. destruct (recReachable_invariant st Hr) as (Hk & _).
  pose proof (fresh_key _ _ _ _ Hk) as Hfresh.
  subst created st'. unfold MemRecords.createGoal, MemRecords.getGoal,
    MemRecords.getGoals.
  cbn [fst snd GoalTracking.id GoalTracking.isActive GoalTracking.currentValue
       MemRecords.setGoals MemRecords.goals].
  split; [exact Hfresh |]. split.
  { intros g Hin. apply values_In in Hin as [k Hin].
    destruct Hk as [Hk _]. destruct (Hk k g Hin) as [-> Hlt]. exact Hlt. }
  split; [reflexivity |]. split.
  { unfold JSString.orNull, JSString.truthyOpt, JSString.truthy.
    destruct (InsertGoalTracking.currentValue goal) as [v |]; [| discriminate].
    destruct (String.eqb_spec v ""); cbn [negb]; [discriminate | assumption]. }
  split.
  { intros Hf. unfold JSString.orNull. rewrite Hf. reflexivity. }
  split; [apply (get_set_same _ _ _ Zeqb_spec) |]. split.
  { rewrite (set_absent _ _ _ _ _ _ Hfresh), values_app, filter_app. reflexivity. }
  intros id Hid. apply (get_set_other _ _ _ Zeqb_spec). exact Hid.
Qed.

Lemma X23_createGoal_fresh_identifier_witness :
  Records.recReachable (MemRecords.new 19783)
  /\ (let goal := InsertGoalTracking.mk "Win rate" None "60" (Some "") "percent" None
                    "performance" in
      let created := fst (MemRecords.createGoal (MemRecords.new 19783) goal) in
      let st' := snd (MemRecords.createGoal (MemRecords.new 19783) goal) in
      MemRecords.getGoal (MemRecords.new 19783) (GoalTracking.id created) = None
      /\ (forall g, In g (JSMap.values (MemRecords.goals (MemRecords.new 19783))) ->
            GoalTracking.id g < GoalTracking.id created)
      /\ GoalTracking.isActive created = true
      /\ GoalTracking.currentValue created <> ""
      /\ (JSString.truthyOpt (InsertGoalTracking.currentValue goal) = false ->
            GoalTracking.currentValue created = "0")
      /\ MemRecords.getGoal st' (GoalTracking.id created) = Some created
      /\ MemRecords.getGoals st' = MemRecords.getGoals (MemRecords.new 19783) ++ [created]
      /\ (forall id, id <> GoalTracking.id created ->
            MemRecords.getGoal st' id = MemRecords.getGoal (MemRecords.new 19783) id)).
Proof.
  split; [apply recReachable_new |].
  exact (X23_createGoal_fresh_identifier (MemRecords.new 19783)
           (InsertGoalTracking.mk "Win rate" None "60" (Some "") "percent" None
              "performance")
           (recReachable_new 19783)).
Defined.

(** X24: there is one emotional check-in and one journal entry per date.
    [createOrUpdateEmotionalCheckIn] on a reachable store returns a
    check-in of the given date and mood, which [getEmotionalCheckIn] then
    finds; it has the identifier of the check-in that the date had before,
    or a fresh identifier when the date had none, and the number of stored
    check-ins grows by one in that case only; the check-ins of the other
    dates are unchanged.  [createOrUpdateJournalEntry] does the same with
    the content of a journal entry. *)
Theorem X24_one_check_in_and_journal_entry_per_date
    (st : MemRecords.t) (checkIn : InsertEmotionalCheckIn.t)
    (entry : InsertJournalEntry.t) :
  Records.recReachable st ->
  (let r := fst (MemRecords.createOrUpdateEmotionalCheckIn st checkIn) in
   let st' := snd (MemRecords.createOrUpdateEmotionalCheckIn st checkIn) in
   MemRecords.getEmotionalCheckIn st' (InsertEmotionalCheckIn.date checkIn) = Some r
   /\ EmotionalCheckIn.date r = InsertEmotionalCheckIn.date checkIn
   /\ EmotionalCheckIn.mood r = InsertEmotionalCheckIn.mood checkIn
   /\ EmotionalCheckIn.id r
      = match MemRecords.getEmotionalCheckIn st (InsertEmotionalCheckIn.date checkIn) with
        | Some old => EmotionalCheckIn.id old
        | None => MemRecords.currentCheckInId st
        end
   /\ JSArray.length (MemRecords.emotionalCheckIns st')
      = match MemRecords.getEmotionalCheckIn st (InsertEmotionalCheckIn.date checkIn) with
        | Some _ => JSArray.length (MemRecords.emotionalCheckIns st)
        | None => JSArray.length (MemRecords.emotionalCheckIns st) + 1
        end
   /\ (forall d, d <> InsertEmotionalCheckIn.date checkIn ->
         MemRecords.getEmotionalCheckIn st' d = MemRecords.getEmotionalCheckIn st d))
  /\ (let r := fst (MemRecords.createOrUpdateJournalEntry st entry) in
      let st' := snd (MemRecords.createOrUpdateJournalEntry st entry) in
      MemRecords.getJournalEntry st' (InsertJournalEntry.date entry) = Some r
      /\ JournalEntry.date r = InsertJournalEntry.date entry
      /\ JournalEntry.content r = InsertJournalEntry.content entry
      /\ JournalEntry.id r
         = match MemRecords.getJournalEntry st (InsertJournalEntry.date entry) with
           | Some old => JournalEntry.id old
           | None => MemRecords.currentJournalId st
           end
      /\ JSArray.length (MemRecords.journalEntries st')
         = match MemRecords.getJournalEntry st (InsertJournalEntry.date entry) with
           | Some _ => JSArray.length (MemRecords.journalEntries st)
           | None => JSArray.length (MemRecords.journalEntries st) + 1
           end
      /\ (forall d, d <> InsertJournalEntry.date entry ->
            MemRecords.getJournalEntry st' d = MemRecords.getJournalEntry st d)).
Proof.
  intros Hr. destruct (recReachable_invariant st Hr) as (_ & Hc & Hj & _).
  assert (Hlen : forall (V : Type) (k : string) (v : V) (m : JSMap.t string V),
            JSArray.length (JSMap.set String.eqb k v m)
            = match JSMap.get String.eqb k m with
              | Some _ => JSArray.length m
              | None => JSArray.length m + 1
              end).
  { intros V k v m. unfold JSArray.length.
    destruct (JSMap.get String.eqb k m) as [x |] eqn:G.
    - f_equal. rewrite <- !(length_map fst).
      change (map fst (JSMap.set String.eqb k v m))
        with (JSMap.keys (JSMap.set String.eqb k v m)).
      rewrite (set_present_keys _ _ _ Seqb_spec) by congruence. reflexivity.
    - rewrite (set_absent _ _ _ _ _ _ G), length_app. cbn [List.length]. lia. }
  split.
  - intros r st'. subst r st'.
    unfold MemRecords.createOrUpdateEmotionalCheckIn, MemRecords.getEmotionalCheckIn.
    destruct (JSMap.get String.eqb (InsertEmotionalCheckIn.date checkIn)
                (MemRecords.emotionalCheckIns st)) as [old |] eqn:G;
      cbn [fst snd MemRecords.setCheckIns MemRecords.emotionalCheckIns
           EmotionalCheckIn.date EmotionalCheckIn.mood EmotionalCheckIn.id];
      (split; [apply (get_set_same _ _ _ Seqb_spec) |]).
    + destruct (datedBy_get _ _ _ _ _ _ _ Hc G) as [K _].
      split; [exact K |]. split; [reflexivity |]. split; [reflexivity |].
      split; [rewrite Hlen, G; reflexivity |].
      intros d Hd. apply (get_set_other _ _ _ Seqb_spec). exact Hd.
    + split; [reflexivity |]. split; [reflexivity |]. split; [reflexivity |].
      split; [rewrite Hlen, G; reflexivity |].
      intros d Hd. apply (get_set_other _ _ _ Seqb_spec). exact Hd.
  - intros r st'. subst r st'.
    unfold MemRecords.createOrUpdateJournalEntry, MemRecords.getJournalEntry.
    destruct (JSMap.get String.eqb (InsertJournalEntry.date entry)
                (MemRecords.journalEntries st)) as [old |] eqn:G;
      cbn [fst snd MemRecords.setJournal MemRecords.journalEntries
           JournalEntry.date JournalEntry.content JournalEntry.id];
      (split; [apply (get_set_same _ _ _ Seqb_spec) |]).
    + destruct (datedBy_get _ _ _ _ _ _ _ Hj G) as [K _].
      split; [exact K |]. split; [reflexivity |]. split; [reflexivity |].
      split; [rewrite Hlen, G; reflexivity |].
      intros d Hd. apply (get_set_other _ _ _ Seqb_spec). exact Hd.
    + split; [reflexivity |]. split; [reflexivity |]. split; [reflexivity |].
      split; [rewrite Hlen, G; reflexivity |].
      intros d Hd. apply (get_set_other _ _ _ Seqb_spec). exact Hd.
Qed.

Lemma X24_one_check_in_and_journal_entry_per_date_witness :
  Records.recReachable Samples.checkedIn
  /\ (let checkIn := InsertEmotionalCheckIn.mk "2024-03-01" "stressed" in
      let r := fst (MemRecords.createOrUpdateEmotionalCheckIn Samples.checkedIn checkIn) in
      let st' := snd (MemRecords.createOrUpdateEmotionalCheckIn Samples.checkedIn
                        checkIn) in
      MemRecords.getEmotionalCheckIn st' (InsertEmotionalCheckIn.date checkIn) = Some r
      /\ EmotionalCheckIn.date r = InsertEmotionalCheckIn.date checkIn
      /\ EmotionalCheckIn.mood r = InsertEmotionalCheckIn.mood checkIn
      /\ EmotionalCheckIn.id r
         = match MemRecords.getEmotionalCheckIn Samples.checkedIn
                   (InsertEmotionalCheckIn.date checkIn) with
           | Some old => EmotionalCheckIn.id old
           | None => MemRecords.currentCheckInId Samples.checkedIn
           end
      /\ JSArray.length (MemRecords.emotionalCheckIns st')
         = match MemRecords.getEmotionalCheckIn Samples.checkedIn
                   (InsertEmotionalCheckIn.date checkIn) with
           | Some _ => JSArray.length (MemRecords.emotionalCheckIns Samples.checkedIn)
           | None => JSArray.length (MemRecords.emotionalCheckIns Samples.checkedIn) + 1
           end
      /\ (forall d, d <> InsertEmotionalCheckIn.date checkIn ->
            MemRecords.getEmotionalCheckIn st' d
            = MemRecords.getEmotionalCheckIn Samples.checkedIn d))
  /\ (let entry := InsertJournalEntry.mk "2024-03-01" "Kept every stop." in
      let r := fst (MemRecords.createOrUpdateJournalEntry Samples.checkedIn entry) in
      let st' := snd (MemRecords.createOrUpdateJournalEntry Samples.checkedIn entry) in
      MemRecords.getJournalEntry st' (InsertJournalEntry.date entry) = Some r
      /\ JournalEntry.date r = InsertJournalEntry.date entry
      /\ JournalEntry.content r = InsertJournalEntry.content entry
      /\ JournalEntry.id r
         = match MemRecords.getJournalEntry Samples.checkedIn
                   (InsertJournalEntry.date entry) with
           | Some old => JournalEntry.id old
           | None => MemRecords.currentJournalId Samples.checkedIn
           end
      /\ JSArray.length (MemRecords.journalEntries st')
         = match MemRecords.getJournalEntry Samples.checkedIn
                   (InsertJournalEntry.date entry) with
           | Some _ => JSArray.length (MemRecords.journalEntries Samples.checkedIn)
           | None => JSArray.length (MemRecords.journalEntries Samples.checkedIn) + 1
           end
      /\ (forall d, d <> InsertJournalEntry.date entry ->
            MemRecords.getJournalEntry st' d
            = MemRecords.getJournalEntry Samples.checkedIn d)).
Proof.
  assert (R : Records.recReachable Samples.checkedIn).
  { exists 19783,
      [Records.PutCheckIn (InsertEmotionalCheckIn.mk "2024-03-01" "good")].
    reflexivity. }
  split; [exact R |].
  exact (X24_one_check_in_and_journal_entry_per_date Samples.checkedIn
           (InsertEmotionalCheckIn.mk "2024-03-01" "stressed")
           (InsertJournalEntry.mk "2024-03-01" "Kept every stop.") R).
Defined.

Section Risk.

Lemma overwrite_merged (old : option string) (given : option (option string)) :
  Records.merged old given (MemRecords.overwrite old given).
Proof.
  unfold Records.merged, MemRecords.overwrite. split.
  - intros ->. reflexivity.
  - intros v ->. reflexivity.
Qed.

Lemma fieldOrNull_normalised (given : option (option string)) :
  Records.normalised given (MemRecords.fieldOrNull given).
Proof.
  unfold Records.normalised, MemRecords.fieldOrNull, JSString.orNull,
    JSString.truthyOpt, JSString.truthy.
  split; [| split].
  - destruct given as [[v |] |]; try discriminate.
    destruct (String.eqb_spec v ""); cbn [negb]; congruence.
  - intros v -> Hv. destruct (String.eqb_spec v ""); [contradiction | reflexivity].
  - intros [-> | [-> | ->]]; reflexivity.
Qed.

End Risk.

(** X25: there is one record of risk metrics per date.
    [createOrUpdateRiskMetrics] on a reachable store returns a record of
    the given date, which [getRiskMetrics] then finds.  When the date had a
    record, the new one keeps its identifier, and each figure is the given
    one, or the old one when the field is absent.  When the date had none,
    the record gets a fresh identifier and each figure is the given string
    when that is not empty, and null otherwise.  The records of the other
    dates are unchanged. *)
Theorem X25_risk_metrics_upsert_merges
    (st : MemRecords.t) (metrics : InsertRiskMetrics.t) :
  Records.recReachable st ->
  let date := InsertRiskMetrics.date metrics in
  let r := fst (MemRecords.createOrUpdateRiskMetrics st metrics) in
  let st' := snd (MemRecords.createOrUpdateRiskMetrics st metrics) in
  MemRecords.getRiskMetrics st' date = Some r
  /\ RiskMetrics.date r = date
  /\ (forall old, MemRecords.getRiskMetrics st date = Some old ->
        RiskMetrics.id r = RiskMetrics.id old
        /\ Records.merged (RiskMetrics.accountBalance old)
             (InsertRiskMetrics.accountBalance metrics) (RiskMetrics.accountBalance r)
        /\ Records.merged (RiskMetrics.maxDrawdown old)
             (InsertRiskMetrics.maxDrawdown metrics) (RiskMetrics.maxDrawdown r)
        /\ Records.merged (RiskMetrics.dailyRisk old)
             (InsertRiskMetrics.dailyRisk metrics) (RiskMetrics.dailyRisk r)
        /\ Records.merged (RiskMetrics.positionSize old)
             (InsertRiskMetrics.positionSize metrics) (RiskMetrics.positionSize r)
        /\ Records.merged (RiskMetrics.riskRewardRatio old)
             (InsertRiskMetrics.riskRewardRatio metrics)
             (RiskMetrics.riskRewardRatio r))
  /\ (MemRecords.getRiskMetrics st date = None ->
        RiskMetrics.id r = MemRecords.currentRiskId st
        /\ (forall k v, In (k, v) (MemRecords.riskMetrics st) ->
              RiskMetrics.id v < RiskMetrics.id r)
        /\ Records.normalised (InsertRiskMetrics.accountBalance metrics)
             (RiskMetrics.accountBalance r)
        /\ Records.normalised (InsertRiskMetrics.maxDrawdown metrics)
             (RiskMetrics.maxDrawdown r)
        /\ Records.normalised (InsertRiskMetrics.dailyRisk metrics)
             (RiskMetrics.dailyRisk r)
        /\ Records.normalised (InsertRiskMetrics.positionSize metrics)
             (RiskMetrics.positionSize r)
        /\ Records.normalised (InsertRiskMetrics.riskRewardRatio metrics)
             (RiskMetrics.riskRewardRatio r))
  /\ (forall d, d <> date ->
        MemRecords.getRiskMetrics st' d = MemRecords.getRiskMetrics st d).
Proof.
  intros Hr date r st'. destruct (recReachable_invariant st Hr) as (_ & _ & _ & Hk).
  subst date r st'.
  unfold MemRecords.createOrUpdateRiskMetrics, MemRecords.getRiskMetrics.
  destruct (JSMap.get String.eqb (InsertRiskMetrics.date metrics)
              (MemRecords.riskMetrics st)) as [old |] eqn:G;
    cbn [fst snd MemRecords.setRisk MemRecords.riskMetrics RiskMetrics.date
         RiskMetrics.id RiskMetrics.accountBalance RiskMetrics.maxDrawdown
         RiskMetrics.dailyRisk RiskMetrics.positionSize RiskMetrics.riskRewardRatio];
    (split; [apply (get_set_same _ _ _ Seqb_spec) |]);
    (split; [reflexivity |]).
  - split.
    { intros old' E. injection E as <-. split; [reflexivity |].
      repeat split; apply overwrite_merged. }
    split; [discriminate |].
    intros d Hd. apply (get_set_other _ _ _ Seqb_spec). exact Hd.
  - split; [discriminate |]. split.
    { intros _. split; [reflexivity |]. split.
      - intros k v Hin. destruct Hk as [Hk _]. apply (Hk k v Hin).
      - repeat split; apply fieldOrNull_normalised. }
    intros d Hd. apply (get_set_other _ _ _ Seqb_spec). exact Hd.
Qed.

Lemma X25_risk_metrics_upsert_merges_witness :
  Records.recReachable Samples.withRisk
  /\ (let metrics := InsertRiskMetrics.mk "2024-03-01" None (Some (Some "3.2"))
                       (Some None) None None in
      let date := InsertRiskMetrics.date metrics in
      let r := fst (MemRecords.createOrUpdateRiskMetrics Samples.withRisk metrics) in
      let st' := snd (MemRecords.createOrUpdateRiskMetrics Samples.withRisk metrics) in
      MemRecords.getRiskMetrics st' date = Some r
      /\ RiskMetrics.date r = date
      /\ (forall old, MemRecords.getRiskMetrics Samples.withRisk date = Some old ->
            RiskMetrics.id r = RiskMetrics.id old
            /\ Records.merged (RiskMetrics.accountBalance old)
                 (InsertRiskMetrics.accountBalance metrics) (RiskMetrics.accountBalance r)
            /\ Records.merged (RiskMetrics.maxDrawdown old)
                 (InsertRiskMetrics.maxDrawdown metrics) (RiskMetrics.maxDrawdown r)
            /\ Records.merged (RiskMetrics.dailyRisk old)
                 (InsertRiskMetrics.dailyRisk metrics) (RiskMetrics.dailyRisk r)
            /\ Records.merged (RiskMetrics.positionSize old)
                 (InsertRiskMetrics.positionSize metrics) (RiskMetrics.positionSize r)
            /\ Records.merged (RiskMetrics.riskRewardRatio old)
                 (InsertRiskMetrics.riskRewardRatio metrics)
                 (RiskMetrics.riskRewardRatio r))
      /\ (MemRecords.getRiskMetrics Samples.withRisk date = None ->
            RiskMetrics.id r = MemRecords.currentRiskId Samples.withRisk
            /\ (forall k v, In (k, v) (MemRecords.riskMetrics Samples.withRisk) ->
                  RiskMetrics.id v < RiskMetrics.id r)
            /\ Records.normalised (InsertRiskMetrics.accountBalance metrics)
                 (RiskMetrics.accountBalance r)
            /\ Records.normalised (InsertRiskMetrics.maxDrawdown metrics)
                 (RiskMetrics.maxDrawdown r)
            /\ Records.normalised (InsertRiskMetrics.dailyRisk metrics)
                 (RiskMetrics.dailyRisk r)
            /\ Records.normalised (InsertRiskMetrics.positionSize metrics)
                 (RiskMetrics.positionSize r)
            /\ Records.normalised (InsertRiskMetrics.riskRewardRatio metrics)
                 (RiskMetrics.riskRewardRatio r))
      /\ (forall d, d <> date ->
            MemRecords.getRiskMetrics st' d = MemRecords.getRiskMetrics Samples.withRisk d)).
Proof.
  assert (R : Records.recReachable Samples.withRisk).
  { exists 19783,
      [Records.PutRisk (InsertRiskMetrics.mk "2024-03-01" (Some (Some "10000")) None
                          (Some (Some "1.5")) None None)].
    reflexivity. }
  split; [exact R |].
  exact (X25_risk_metrics_upsert_merges Samples.withRisk
           (InsertRiskMetrics.mk "2024-03-01" None (Some (Some "3.2")) (Some None)
              None None) R).
Defined.
(* ===================================================================== *)
(** ** The summary figures of the dashboard *)
(* ===================================================================== *)

Section DashboardFigures.
Import JSNumber Common.

Lemma mathMax_from (xs : list Z) :
  forall a,
    exists m,
      fold_left (fun acc x => match acc with
                              | Some b => Some (Z.max b x)
                              | None => Some x
                              end) xs (Some a) = Some m
      /\ a <= m
      /\ (forall x, In x xs -> x <= m)
      /\ (m = a \/ In m xs).
Proof.
  induction xs as [| x r IH]; intros a; cbn [fold_left].
  - exists a. split; [reflexivity |]. split; [lia |].
    split; [intros x [] | left; reflexivity].
  - destruct (IH (Z.max a x)) as (m & E & L & U & A).
    exists m. split; [exact E |]. split; [lia |]. split.
    + intros y [<- | Hy]; [lia | apply U; exact Hy].
    + destruct A as [-> | A]; [| right; right; exact A].
      destruct (Z.max_spec a x) as [[_ ->] | [_ ->]];
        [right; left; reflexivity | left; reflexivity].
Qed.

Lemma currentStreak_max (habits : list HabitWithStats.t) :
  exists m,
    Dashboard.currentStreak habits = Some m
    /\ (forall h, In h habits -> HabitWithStats.currentStreak h <= m)
    /\ (habits = [] -> m = 0)
    /\ (habits <> [] ->
          exists h, In h habits /\ HabitWithStats.currentStreak h = m).
Proof.
  unfold Dashboard.currentStreak, Dashboard.mathMax.
  destruct habits as [| h r].
  - exists 0. split; [reflexivity |]. split; [intros h [] |].
    split; [reflexivity | congruence].
  - replace (0 <? JSArray.length (h :: r)) with true
      by (symmetry; apply Z.ltb_lt; unfold JSArray.length; cbn [List.length]; lia).
    cbn [map fold_left].
    destruct (mathMax_from (map HabitWithStats.currentStreak r)
                (HabitWithStats.currentStreak h)) as (m & E & L & U & A).
    exists m. split; [exact E |]. split.
    + intros y [<- | Hy]; [exact L |]. apply U. apply in_map. exact Hy.
    + split; [discriminate |]. intros _.
      destruct A as [-> | A]; [exists h; split; [left |]; reflexivity |].
      apply in_map_iff in A as (y & Ey & Hy). exists y. split; [right |]; assumption.
Qed.

Lemma fold_left_map (A B C : Type) (f : A -> C -> A) (g : B -> C) (l : list B) :
  forall a, fold_left (fun acc x => f acc (g x)) l a = fold_left f (map g l) a.
Proof. induction l as [| x l IH]; intros a; [reflexivity |]. cbn. apply IH. Qed.

Lemma sum_ofZ (zs : list Z) :
  forall q, fold_left add (map ofZ zs) (ofQ q) = ofQ (q + inject_Z (Rates.zsum zs)).
Proof.
  induction zs as [| z r IH]; intros q; cbn [map fold_left].
  - apply ofQ_eq. cbn. ring.
  - change (ofZ z) with (Num (inject_Z z)). rewrite add_ofQ, IH. apply ofQ_eq.
    cbn [Rates.zsum fold_right]. rewrite inject_Z_plus. unfold Rates.zsum. ring.
Qed.

Lemma roundedMean_range (zs : list Z) :
  Forall (fun z => 0 <= z <= 100) zs -> 0 <= Rates.roundedMean zs <= 100.
Proof.
  intros H. unfold Rates.roundedMean.
  destruct (0 <? JSArray.length zs) eqn:E; [| lia]. apply Z.ltb_lt in E.
  pose proof (zsum_bound zs 100 ltac:(apply Forall_forall; exact H)) as B.
  fold (JSArray.length zs) in B. split.
  - apply Z.div_pos; lia.
  - assert ((2 * Rates.zsum zs + JSArray.length zs) / (2 * JSArray.length zs) < 101);
      [| lia].
    apply Z.div_lt_upper_bound; lia.
Qed.

(** The weekly figure is the mean of the daily rates, rounded half up. *)
Lemma weekly_mean (weeklyProgress : list WeeklyEntry.t) (zs : list Z) :
  map WeeklyEntry.completionRate weeklyProgress = map ofZ zs ->
  Dashboard.weeklyCompletionRate weeklyProgress = ofZ (Rates.roundedMean zs).
Proof.
  intros Hm. unfold Dashboard.weeklyCompletionRate, Rates.roundedMean.
  assert (Hl : JSArray.length weeklyProgress = JSArray.length zs).
  { unfold JSArray.length. f_equal.
    rewrite <- (length_map WeeklyEntry.completionRate weeklyProgress), Hm.
    apply length_map. }
  rewrite Hl. destruct (0 <? JSArray.length zs) eqn:E; [| reflexivity].
  apply Z.ltb_lt in E.
  rewrite (fold_left_map _ _ _ add WeeklyEntry.completionRate), Hm.
  rewrite (ofZ_ofQ 0), sum_ofZ, (ofZ_ofQ (JSArray.length zs)).
  rewrite div_ofQ by (unfold Qlt, inject_Z; cbn; lia).
  rewrite round_ofQ. f_equal. rewrite Zdiv_Qdiv. apply Qfloor_comp.
  rewrite !inject_Z_plus, !inject_Z_mult.
  assert (Hn : ~ inject_Z (JSArray.length zs) == 0).
  { intros H. apply (Qeq_bool_neq (inject_Z (JSArray.length zs)) 0); [| exact H].
    unfold Qeq_bool. cbn. rewrite Z.mul_1_r. apply Z.eqb_neq. lia. }
  field. exact Hn.
Qed.

Lemma Mem_streakLoop_bounds (sorted : list HabitCompletion.t) :
  forall (n : nat) (checkDate : JSDate.Date) (acc r : Z),
    MemStorage.streakLoop n sorted checkDate acc = Some r ->
    acc <= r <= acc + Z.of_nat n.
Proof.
  induction n as [| n IH]; intros checkDate acc r H; cbn [MemStorage.streakLoop] in H.
  - injection H as <-. lia.
  - destruct (JSDate.toISODate checkDate) as [dateStr |]; [| discriminate].
    destruct (find _ sorted) as [c |]; [| injection H as <-; lia].
    destruct (HabitCompletion.completed c); [| injection H as <-; lia].
    apply IH in H. lia.
Qed.

End DashboardFigures.

(** X26: the dashboard's current streak is the largest [currentStreak]
    among the habits it received, and 0 when it received none. *)
Theorem X26_dashboard_current_streak_is_the_maximum (habits : list HabitWithStats.t) :
  exists m,
    Dashboard.currentStreak habits = Some m
    /\ (forall h, In h habits -> HabitWithStats.currentStreak h <= m)
    /\ (habits = [] -> m = 0)
    /\ (habits <> [] ->
          exists h, In h habits /\ HabitWithStats.currentStreak h = m).
Proof. exact (currentStreak_max habits). Qed.

(** X27: the dashboard's weekly completion rate is the mean of the daily
    rates it received, rounded half up to a whole number (0 for an empty
    series); for daily rates between 0 and 100 it is between 0 and 100. *)
Theorem X27_dashboard_weekly_rate_is_the_rounded_mean
    (weeklyProgress : list WeeklyEntry.t) (zs : list Z) :
  map WeeklyEntry.completionRate weeklyProgress = map JSNumber.ofZ zs ->
  Forall (fun z => 0 <= z <= 100) zs ->
  Dashboard.weeklyCompletionRate weeklyProgress = JSNumber.ofZ (Rates.roundedMean zs)
  /\ 0 <= Rates.roundedMean zs <= 100.
Proof.
  intros Hm Hz. split; [apply weekly_mean; exact Hm | apply roundedMean_range; exact Hz].
Qed.

Lemma X27_dashboard_weekly_rate_is_the_rounded_mean_witness :
  map WeeklyEntry.completionRate Samples.week = map JSNumber.ofZ Samples.weekRates
  /\ Forall (fun z => 0 <= z <= 100) Samples.weekRates
  /\ Dashboard.weeklyCompletionRate Samples.week
     = JSNumber.ofZ (Rates.roundedMean Samples.weekRates)
  /\ 0 <= Rates.roundedMean Samples.weekRates <= 100.
Proof.
  assert (Hz : Forall (fun z => 0 <= z <= 100) Samples.weekRates).
  { repeat constructor; discriminate. }
  split; [reflexivity |]. split; [exact Hz |].
  exact (X27_dashboard_weekly_rate_is_the_rounded_mean Samples.week Samples.weekRates
           eq_refl Hz).
Defined.

(** X28: on the responses of the storage the dashboard's figures are in
    range: from the result of the in-memory [getHabitsWithStats] it shows a
    current streak between 0 and 365, and from the result of
    [getWeeklyProgress], of either back end, a weekly completion rate that
    is a whole number of percent between 0 and 100. *)
Theorem X28_dashboard_figures_in_range
    (st : MemStorage.t) (db : DatabaseStorage.t) (date startDate endDate : string) :
  (forall habits,
     MemStorage.getHabitsWithStats st date = Some habits ->
     exists m, Dashboard.currentStreak habits = Some m /\ 0 <= m <= 365)
  /\ (forall weeklyProgress,
        MemStorage.getWeeklyProgress st startDate endDate = Some weeklyProgress ->
        Props.isPercent (Dashboard.weeklyCompletionRate weeklyProgress))
  /\ (forall weeklyProgress,
        DatabaseStorage.getWeeklyProgress db startDate endDate = Some weeklyProgress ->
        Props.isPercent (Dashboard.weeklyCompletionRate weeklyProgress)).
Proof.
  split; [| split].
  - intros habits H. unfold MemStorage.getHabitsWithStats in H.
    destruct (currentStreak_max habits) as (m & E & U & Z0 & A).
    exists m. split; [exact E |].
    destruct habits as [| h r]; [rewrite Z0 by reflexivity; lia |].
    destruct (A ltac:(discriminate)) as (x & Hx & <-).
    destruct (mapE_In _ _ _ _ _ H x Hx) as (habit & _ & Hs).
    apply Mem_habitStats_streak in Hs. apply Mem_streakLoop_bounds in Hs.
    change (Z.of_nat 365) with 365 in Hs. lia.
  - intros wp H. destruct (Mem_weekly_total st startDate endDate) as [dates E].
    rewrite E in H. injection H as <-.
    exists (Rates.roundedMean
              (map (Rates.dayRate (Spec.memCompleted st) (MemStorage.getHabits st))
                   dates)).
    split.
    + apply weekly_mean. rewrite !map_map. apply map_ext. intros ds.
      rewrite Mem_dayEntry. reflexivity.
    + apply roundedMean_range. apply Forall_forall. intros z Hz.
      apply in_map_iff in Hz as (ds & <- & _). apply dayRate_range.
  - intros wp H. destruct (DB_weekly_total db startDate endDate) as [dates E].
    rewrite E in H. injection H as <-.
    exists (Rates.roundedMean
              (map (Rates.dayRate (Spec.dbCompleted db) (DatabaseStorage.getHabits db))
                   dates)).
    split.
    + apply weekly_mean. rewrite !map_map. apply map_ext. intros ds.
      rewrite DB_dayEntry. reflexivity.
    + apply roundedMean_range. apply Forall_forall. intros z Hz.
      apply in_map_iff in Hz as (ds & <- & _). apply dayRate_range.
Qed.
